(** * Visuate: time-series reconciliation and multi-currency conversion

    A shallow embedding of the reconciliation core of
    [update-multi-stock.py] (as-of rate lookup, USD to EUR conversion,
    date-keyed merge, price and currency gap filling, multi-currency
    projection) together with the properties the specification states
    about it.

    Conventions of the embedding.
    - A Python [float] (and a numpy [float64]) is a binary64 number, taken
      here as Rocq's primitive [float]; pandas' missing marker NaN is
      [nan].
    - A calendar date is its proleptic Gregorian ordinal
      ([datetime.date.toordinal]) in [Z]; a parsed 'Date' cell is an
      [option Z], [None] standing for NaT (what
      [pd.to_datetime (..., errors='coerce')] gives for text that is not a
      date).
    - A [DataFrame] is its list of rows, in index order, and the labels of
      its value columns; a row keeps its cells in a finite map and a cell
      that is not in the map reads as NaN, which is what [pd.concat] and
      [pd.DataFrame] make of a record that lacks a column.
    - Code that can raise returns a [result]. *)

From Stdlib Require Import ZArith Lia.
From Stdlib Require Import Floats.PrimFloat Floats.FloatOps Floats.SpecFloat.
From stdpp Require Import gmap strings list fin_maps sorting.

Set Warnings "-inexact-float".
Local Open Scope Z_scope.

(* ===================================================================== *)
(** * Part I: the model                                                   *)
(* ===================================================================== *)

(** ** Exceptions *)

Inductive exn := ZeroDivisionError | ValueError | KeyError | DownloadError.

Inductive result (A : Type) :=
| Ok (a : A)
| Raise (e : exn).
Arguments Ok {A} a.
Arguments Raise {A} e.

#[global] Instance result_ret : MRet result := λ A a, Ok a.
#[global] Instance result_bind : MBind result := λ A B f m,
  match m with Ok a => f a | Raise e => Raise e end.

(** ** Binary64 arithmetic as Python and numpy use it *)

Module PyFloat.

(** [pd.isna] / [pd.notna] on a float. *)
Definition pd_isna (x : float) : bool := is_nan x.
Definition pd_notna (x : float) : bool := negb (is_nan x).

(** Python's [a / b] on floats: division by a zero raises. *)
Definition truediv (a b : float) : result float :=
  if (b =? 0)%float then Raise ZeroDivisionError else Ok (a / b)%float.

(** [num / den] rounded to the nearest integer, ties to even
    ([0 <= num], [0 < den]). *)
Definition div_half_even (num den : Z) : Z :=
  let q := num / den in
  match 2 * (num mod den) ?= den with
  | Lt => q
  | Gt => q + 1
  | Eq => if Z.even q then q else q + 1
  end.

(** The integer nearest to [m * 2^e * k], ties to even. *)
Definition scaled_half_even (m : positive) (e k : Z) : Z :=
  if 0 <=? e then Z.pos m * 2 ^ e * k
  else div_half_even (Z.pos m * k) (2 ^ (- e)).

(** Python's [round (x, ndigits)] for [0 <= ndigits]: the exact binary
    value of [x] is rounded to [ndigits] decimals, ties to even, and the
    decimal obtained is converted back to the nearest binary64 number
    (CPython rounds through a correctly rounded decimal string); NaN,
    infinities and zeros round to themselves and the sign is kept. *)
Definition py_round (ndigits : Z) (x : float) : float :=
  match Prim2SF x with
  | S754_finite s m e =>
      let p := 10 ^ ndigits in
      match scaled_half_even m e p with
      | Z.pos n =>
          SF2Prim (SFdiv prec emax (S754_finite s n 0)
                                   (S754_finite false (Z.to_pos p) 0))
      | _ => SF2Prim (S754_zero s)
      end
  | _ => x
  end.

(** C's [rint] in the default rounding mode. *)
Definition rint (x : float) : float :=
  match Prim2SF x with
  | S754_finite s m e =>
      if 0 <=? e then x
      else match div_half_even (Z.pos m) (2 ^ (- e)) with
           | Z.pos n => SF2Prim (S754_finite s n 0)
           | _ => SF2Prim (S754_zero s)
           end
  | _ => x
  end.

(** numpy's [round (decimals)] for [0 < decimals], which is what
    [Series.round] calls: scale, [rint], scale back. *)
Definition np_round (decimals : Z) (x : float) : float :=
  let f := SF2Prim (S754_finite false (Z.to_pos (10 ^ decimals)) 0) in
  (rint (x * f) / f)%float.

End PyFloat.
Export PyFloat.

(** ** Calendar dates *)

Module Calendar.

Definition is_leap (y : Z) : bool :=
  (y mod 4 =? 0) && (negb (y mod 100 =? 0) || (y mod 400 =? 0)).

Definition days_before_year (y : Z) : Z :=
  let y' := y - 1 in y' * 365 + y' / 4 - y' / 100 + y' / 400.

Definition days_in_month (y m : Z) : Z :=
  if m =? 2 then (if is_leap y then 29 else 28)
  else if (m =? 4) || (m =? 6) || (m =? 9) || (m =? 11) then 30 else 31.

Definition days_before_month (y m : Z) : Z :=
  foldr (λ k acc, days_in_month y k + acc) 0 (seqZ 1 (m - 1)).

(** [date (y, m, d).toordinal ()]. *)
Definition ymd (y m d : Z) : Z :=
  days_before_year y + days_before_month y m + d.

(** [date.weekday ()]: Monday is 0, Sunday is 6. *)
Definition weekday (d : Z) : Z := (d + 6) mod 7.

(** Comparison of a parsed date with a timestamp; a comparison with NaT
    is false. *)
Definition date_le (a b : option Z) : Prop :=
  match a, b with
  | Some x, Some y => x ≤ y
  | _, _ => False
  end.

#[global] Instance date_le_dec a b : Decision (date_le a b).
Proof. destruct a, b; simpl; apply _. Defined.

End Calendar.
Export Calendar.

(** ** Data frames *)

Record row := Row {
  Date : option Z;            (* the parsed 'Date' cell *)
  vals : gmap string float    (* the other cells, by column label *)
}.

Record DataFrame := Frame {
  columns : list string;      (* labels of the value columns *)
  rows : list row
}.

(** [r[c]]: a cell the record does not have reads as NaN. *)
Definition cell (r : row) (c : string) : float := default nan (vals r !! c).

(** [df.loc[idx, c] = v]. *)
Definition set_cell (r : row) (c : string) (v : float) : row :=
  Row (Date r) (<[c := v]> (vals r)).

Definition set_loc (idx : nat) (c : string) (v : float) (l : list row) : list row :=
  match l !! idx with
  | Some r => <[idx := set_cell r c v]> l
  | None => l
  end.

(** [Series.idxmax] of a date column: the position of the first
    occurrence of the greatest date, NaT skipped, with that date. *)
Fixpoint idxmax_aux (s : list (option Z)) : option (nat * Z) :=
  match s with
  | [] => None
  | d :: s' =>
      let rest := prod_map S id <$> idxmax_aux s' in
      match d with
      | None => rest
      | Some x =>
          match rest with
          | Some (j, m) => if x <? m then Some (j, m) else Some (0%nat, x)
          | None => Some (0%nat, x)
          end
      end
  end.

Definition idxmax (s : list (option Z)) : option nat := fst <$> idxmax_aux s.

(** ** Currency conversion engine *)

Module Conversion.

(** [get_usd_to_eur_rate (currency_df, date_str)]; [date_str] is given
    parsed. *)
Definition get_usd_to_eur_rate (currency_df : DataFrame) (date_str : option Z)
  : result (option float) :=
  match rows currency_df with
  | [] => Ok None
  | _ =>
      let target_date := date_str in
      let available_dates :=
        filter (λ r, date_le (Date r) target_date) (rows currency_df) in
      match available_dates with
      | [] => Ok None
      | _ =>
          match idxmax (Date <$> available_dates) ≫= (available_dates !!.) with
          | None => Raise ValueError
          | Some most_recent =>
              if bool_decide ("USD" ∈ columns currency_df)
                 && pd_notna (cell most_recent "USD")
              then r ← truediv 1 (cell most_recent "USD"); Ok (Some r)
              else Ok None
          end
      end
  end.

(** [convert_usd_to_eur (usd_price, exchange_rate)]. *)
Definition convert_usd_to_eur (usd_price : float) (exchange_rate : option float)
  : float :=
  match exchange_rate with
  | None => usd_price
  | Some rate =>
      if pd_isna usd_price then usd_price
      else py_round 2 (usd_price * rate)%float
  end.

End Conversion.
Export Conversion.


(** ** Time-series store: date-keyed merge *)

Module Store.

(** [pd.concat ([a, b], ignore_index=True)]: the rows of [a] followed by
    those of [b], over the union of the columns. *)
Definition concat (a b : DataFrame) : DataFrame :=
  Frame (columns a ++ filter (λ c, c ∉ columns a) (columns b))
        (rows a ++ rows b).

(** [df.drop_duplicates (subset=["Date"], keep="last")]: a row stays when
    no later row has its 'Date'; the order of the rows that stay is kept. *)
Fixpoint drop_duplicates_last (l : list row) : list row :=
  match l with
  | [] => []
  | r :: l' =>
      if bool_decide (Date r ∈ Date <$> l') then drop_duplicates_last l'
      else r :: drop_duplicates_last l'
  end.

(** The merge of [main], for shares and for currencies alike:
    [pd.concat ([existing, incoming], ignore_index=True)
       .drop_duplicates (subset=["Date"], keep="last")]. *)
Definition merge (existing incoming : DataFrame) : DataFrame :=
  let updated := concat existing incoming in
  Frame (columns updated) (drop_duplicates_last (rows updated)).

End Store.
Export Store.

(** ** Gap-fill engine *)

Record fill_stats := Stats { filled : nat; skipped : nat }.

(** The line printed for a price gap: filled from the exact date, filled
    from an earlier date (named in the line), or nothing available. *)
Inductive fill_note :=
| FilledExact (stock_name : string) (date : Z) (close_price : float)
| FilledFrom (stock_name : string) (date : Z) (close_price : float)
             (most_recent_date : Z)
| NoData (stock_name : string) (date : Z).

Record fill_state := FillState {
  shares : list row;
  stats : fill_stats;
  filled_positions : list (nat * string * Z * float);
  notes : list fill_note
}.

(** The greatest date of a list. *)
Definition date_max (l : list Z) : option Z :=
  foldr (λ d acc, Some (from_option (Z.max d) d acc)) None l.

(** [stock_data.index]. *)
Definition index_of (stock_data : gmap Z float) : list Z :=
  elements (dom stock_data).

(** [stock_data.loc[d]['Close']] for a date of the index. *)
Definition close_at (stock_data : gmap Z float) (d : Z) : float :=
  default nan (stock_data !! d).

(** [shares_df[shares_df['Date_parsed'] >= start_date].iterrows ()]:
    the rows of the window with their index. *)
Definition recent_records (start_date : Z) (l : list row) : list (nat * row) :=
  filter (λ ir, date_le (Some start_date) (Date ir.2)) (imap pair l).

(** The rows the loop fills for a stock: those of the window whose cell
    is NaN. *)
Definition gap_candidates (stock_name : string) (start_date : Z) (l : list row)
  : list (nat * row) :=
  filter (λ ir, pd_notna (cell ir.2 stock_name) = false)
         (recent_records start_date l).

(** Body of the loop over [recent_records] (lines 553-582). *)
Definition fill_gap (stock_name : string) (stock_data : gmap Z float)
    (s : fill_state) (ir : nat * row) : fill_state :=
  let '(idx, r) := ir in
  if pd_notna (cell r stock_name) then s
  else
    match Date r with
    | None => s
    | Some target_date =>
        match stock_data !! target_date with
        | Some close =>
            let close_price := py_round 2 close in
            FillState (set_loc idx stock_name close_price (shares s))
                      (Stats (S (filled (stats s))) (skipped (stats s)))
                      (filled_positions s ++ [(idx, stock_name, target_date, close_price)])
                      (notes s ++ [FilledExact stock_name target_date close_price])
        | None =>
            let available_dates :=
              filter (λ d, d ≤ target_date) (index_of stock_data) in
            match date_max available_dates with
            | Some most_recent_date =>
                let close_price := py_round 2 (close_at stock_data most_recent_date) in
                FillState (set_loc idx stock_name close_price (shares s))
                          (Stats (S (filled (stats s))) (skipped (stats s)))
                          (filled_positions s ++ [(idx, stock_name, target_date, close_price)])
                          (notes s ++ [FilledFrom stock_name target_date close_price
                                                  most_recent_date])
            | None =>
                FillState (shares s)
                          (Stats (filled (stats s)) (S (skipped (stats s))))
                          (filled_positions s)
                          (notes s ++ [NoData stock_name target_date])
            end
        end
    end.

(** [get_yfinance_ticker]. *)
Definition get_yfinance_ticker (currency_code : string) : string :=
  "EUR" +:+ currency_code +:+ "=X".

Section Providers.

(** The configuration read at import and the market-data provider:
    [yf_download ticker start end] is the 'Close' column of
    [yf.download (ticker, start=start, end=end)] by date, or the
    exception it raised. *)
Variable STOCKS : list (string * string).
Variable USD_STOCKS : gset string.
Variable yf_download : string → Z → Z → result (gmap Z float).

(** Body of the loop over [STOCKS] (lines 529-589). *)
Definition fill_stock (cols : list string) (start_date last_date : Z)
    (s : fill_state) (item : string * string) : fill_state :=
  let '(stock_name, ticker) := item in
  if bool_decide (stock_name ∈ cols) then
    match yf_download ticker start_date (last_date + 1) with
    | Ok stock_data =>
        if bool_decide (size stock_data = 0%nat) then s
        else foldl (fill_gap stock_name stock_data) s
                   (recent_records start_date (shares s))
    | Raise _ =>
        FillState (shares s)
                  (Stats (filled (stats s)) (S (skipped (stats s))))
                  (filled_positions s) (notes s)
    end
  else s.

(** Conversion of the newly filled USD prices (lines 592-605). *)
Fixpoint convert_filled (currency_df : DataFrame)
    (positions : list (nat * string * Z * float)) (l : list row)
  : result (list row) :=
  match positions with
  | [] => Ok l
  | (idx, stock_name, date_str, original_price) :: positions' =>
      if bool_decide (stock_name ∈ USD_STOCKS) then
        usd_eur_rate ← get_usd_to_eur_rate currency_df (Some date_str);
        match usd_eur_rate with
        | Some _ =>
            let eur_price := convert_usd_to_eur original_price usd_eur_rate in
            convert_filled currency_df positions' (set_loc idx stock_name eur_price l)
        | None => convert_filled currency_df positions' l
        end
      else convert_filled currency_df positions' l
  end.

(** [fill_missing_stock_data (shares_df, currency_df, lookback_days)],
    with the lines it printed for the gaps. *)
Definition fill_missing_stock_data (shares_df currency_df : DataFrame)
    (lookback_days : Z) : result (DataFrame * fill_stats * list fill_note) :=
  match rows shares_df with
  | [] => Ok (shares_df, Stats 0 0, [])
  | _ =>
      match snd <$> idxmax_aux (Date <$> rows shares_df) with
      | None => Raise ValueError
      | Some last_date =>
          let start_date := last_date - lookback_days in
          let s := foldl (fill_stock (columns shares_df) start_date last_date)
                         (FillState (rows shares_df) (Stats 0 0) [] []) STOCKS in
          l ← convert_filled currency_df (filled_positions s) (shares s);
          Ok (Frame (columns shares_df) l, stats s, notes s)
      end
  end.

(** *** Currency rates *)

(** The weekdays of [start_date .. last_date] that have no row
    (first [while] loop, lines 637-647). *)
Definition missing_weekdays (l : list row) (start_date last_date : Z) : list Z :=
  filter (λ d, weekday d < 5 ∧ Some d ∉ Date <$> l)
         (seqZ start_date (last_date - start_date + 1)).

(** The weekdays after [last_date] up to today (second [while] loop,
    lines 650-657). *)
Definition weekdays_after (last_date today_date : Z) : list Z :=
  filter (λ d, weekday d < 5) (seqZ (last_date + 1) (today_date - last_date)).

(** The batch download (lines 675-691): one query per currency; an empty
    answer or an exception leaves the currency out of the cache. *)
Definition download_cache (available_currencies : list string)
    (start_date end_date : Z) : gmap string (gmap Z float) :=
  foldl (λ forex_data_cache currency_code,
           match yf_download (get_yfinance_ticker currency_code)
                             start_date end_date with
           | Ok forex_data =>
               if bool_decide (size forex_data = 0%nat) then forex_data_cache
               else <[currency_code := forex_data]> forex_data_cache
           | Raise _ => forex_data_cache
           end)
        ∅ available_currencies.

(** The rates found in the cache for one missing date, with their count
    (lines 696-708). *)
Definition resolve_rates (forex_data_cache : gmap string (gmap Z float))
    (missing_date : Z) : gmap string float * nat :=
  map_fold (λ currency_code forex_data acc,
              match forex_data !! missing_date with
              | Some close => (<[currency_code := py_round 4 close]> acc.1, S acc.2)
              | None => acc
              end)
           (∅, 0%nat) forex_data_cache.

(** Body of the loop over [missing_dates] (lines 694-718). *)
Definition fill_date (forex_data_cache : gmap string (gmap Z float))
    (s : list row * fill_stats) (missing_date : Z) : list row * fill_stats :=
  let '(new_row, currencies_filled) := resolve_rates forex_data_cache missing_date in
  if (0 <? currencies_filled)%nat
  then (s.1 ++ [Row (Some missing_date) new_row],
        Stats (S (filled s.2)) (skipped s.2))
  else (s.1, Stats (filled s.2) (S (skipped s.2))).

(** The table and the counters of
    [fill_missing_currency_data (currency_df, lookback_days)] when its
    filling loop ends (lines 618-718), [today_date] being
    [datetime.now ().date ()]: the table the function was given when it
    is empty or has no missing date, and otherwise the table with the
    rows that the loop appended.  The lines that follow, 724-731, sort
    the rows and rewrite the 'Date' column; [fill_missing_currency_data]
    below has them. *)
Definition fill_currency_gaps (currency_df : DataFrame) (lookback_days today_date : Z)
  : result (DataFrame * fill_stats) :=
  match rows currency_df with
  | [] => Ok (currency_df, Stats 0 0)
  | _ =>
      match snd <$> idxmax_aux (Date <$> rows currency_df) with
      | None => Raise ValueError
      | Some last_date =>
          let start_date := last_date - lookback_days in
          let existing_currencies := columns currency_df in
          let missing_dates :=
            missing_weekdays (rows currency_df) start_date last_date
            ++ weekdays_after last_date today_date in
          match missing_dates with
          | [] => Ok (currency_df, Stats 0 0)
          | d :: ds =>
              let start_date := foldr Z.min d ds in
              let end_date := foldr Z.max d ds + 1 in
              let forex_data_cache :=
                download_cache existing_currencies start_date end_date in
              let '(l, st) := foldl (fill_date forex_data_cache)
                                    (rows currency_df, Stats 0 0) missing_dates in
              Ok (Frame (columns currency_df) l, st)
          end
      end
  end.

(** *** Conversion of the newly fetched records in [main] *)

Record conversion_stats := ConvStats {
  converted : nat;
  skipped_no_rate : nat;
  skipped_missing_price : nat
}.

(** Body of the loop over [USD_STOCKS] (lines 1119-1129); [new_record] is
    the dict of one new date. *)
Definition convert_stock (usd_eur_rate : option float)
    (s : row * conversion_stats) (stock_name : string) : row * conversion_stats :=
  let '(new_record, st) := s in
  match vals new_record !! stock_name with
  | Some price =>
      if pd_notna price then
        match usd_eur_rate with
        | Some _ =>
            let eur_price := convert_usd_to_eur price usd_eur_rate in
            (set_cell new_record stock_name eur_price,
             ConvStats (S (converted st)) (skipped_no_rate st) (skipped_missing_price st))
        | None =>
            (new_record,
             ConvStats (converted st) (S (skipped_no_rate st)) (skipped_missing_price st))
        end
      else
        (new_record,
         ConvStats (converted st) (skipped_no_rate st) (S (skipped_missing_price st)))
  | None => s
  end.

(** Body of the loop over [new_stock_records] (lines 1112-1129). *)
Definition convert_record (currency_df_updated : DataFrame)
    (new_record : row) (st : conversion_stats) : result (row * conversion_stats) :=
  usd_eur_rate ← get_usd_to_eur_rate currency_df_updated (Date new_record);
  Ok (foldl (convert_stock usd_eur_rate) (new_record, st) (elements USD_STOCKS)).

(** The conversion loop of [main] (lines 1109-1129). *)
Fixpoint convert_new_records (currency_df_updated : DataFrame)
    (new_stock_records : list row) (st : conversion_stats)
  : result (list row * conversion_stats) :=
  match new_stock_records with
  | [] => Ok ([], st)
  | new_record :: records' =>
      '(r, st') ← convert_record currency_df_updated new_record st;
      '(rs, st'') ← convert_new_records currency_df_updated records' st';
      Ok (r :: rs, st'')
  end.

End Providers.

(** ** Multi-currency projection engine *)

Module Projection.

(** A row of a sheet as [pd.read_excel] gives it, no date being parsed:
    the 'Date' cell as it is written, [None] for an empty cell, and the
    numbers of the other cells ([pd.to_numeric (..., errors='coerce')]
    makes a cell that is no number NaN, as an absent one reads). *)
Record sheet_row := SheetRow {
  date_cell : option string;
  sheet_vals : gmap string float
}.

(** A sheet: its headers other than the one of the date column, and its
    rows. *)
Record sheet := Sheet {
  sheet_columns : list string;
  sheet_rows : list sheet_row
}.

Definition sheet_cell (r : sheet_row) (c : string) : float :=
  default nan (sheet_vals r !! c).

(** A row of [merged_data]: 'Date', 'EUR' and the columns of the
    currency sheet (empty when no row of the sheet has the 'Date'
    cell). *)
Record merged_row := Merged {
  m_date : option string;
  m_eur : float;
  m_rates : gmap string float
}.

Definition rate_of (m : merged_row) (currency : string) : float :=
  default nan (m_rates m !! currency).

(** [multi_currency_data.merge (currency_ratios, on='Date', how='left')]:
    every left row, in order, with each right row whose 'Date' cell is
    equal to its own, or alone when there is none.  The cells are
    compared as they are written: two spellings of one day are different
    keys, and empty cells are equal to each other. *)
Definition left_merge (left : list (option string * float)) (right : list sheet_row)
  : list merged_row :=
  left ≫= (λ l,
    match filter (λ r, date_cell r = l.1) right with
    | [] => [Merged l.1 l.2 ∅]
    | matches => (λ r, Merged l.1 l.2 (sheet_vals r)) <$> matches
    end).

(** [valid_mask] (lines 806-808). *)
Definition valid_mask (merged_data : list merged_row) (currency : string) : list bool :=
  (λ m, pd_notna (m_eur m) && pd_notna (rate_of m currency)
        && (0 <? rate_of m currency)%float) <$> merged_data.

(** The new column of [multi_currency_data] (lines 810-814): [None]
    everywhere, then the rounded products where the mask holds; mask and
    values are aligned with the [n] rows of [multi_currency_data] on the
    index. *)
Definition project_currency (n : nat) (merged_data : list merged_row)
    (currency : string) : list (option float) :=
  let mask := valid_mask merged_data currency in
  let column := replicate n None in
  if existsb id mask then
    imap (λ i _,
            match mask !! i, merged_data !! i with
            | Some true, Some m =>
                Some (np_round 2 (m_eur m * rate_of m currency)%float)
            | _, _ => None
            end) column
  else column.

(** The currency columns for one company (lines 792-814);
    [data] holds the 'Date' cells with the prices of the company after
    [pd.to_numeric (..., errors='coerce')].  A currency sheet with a
    column 'EUR' makes the merge rename both 'EUR' columns, and
    [merged_data['EUR']] raises. *)
Definition project_company (data : list (option string * float))
    (currency_ratios : sheet) : result (gmap string (list (option float))) :=
  let available_currencies := sheet_columns currency_ratios in
  let merged_data := left_merge data (sheet_rows currency_ratios) in
  foldl (λ acc currency,
           cols ← acc;
           if bool_decide (currency = "EUR") then Ok cols
           else if bool_decide ("EUR" ∈ available_currencies) then Raise KeyError
           else Ok (<[currency := project_currency (length data) merged_data currency]> cols))
        (Ok ∅) available_currencies.

End Projection.
Export Projection.


(** ** Notions the statements use *)

(** Row [r], at index [i], is the as-of row of the table for [target]:
    its date is at most [target], no row with a date at most [target] is
    later, and the rows before it with such a date are strictly
    earlier. *)
Definition is_asof_row (l : list row) (target : option Z) (i : nat) (r : row) : Prop :=
  l !! i = Some r ∧
  ∃ d, Date r = Some d ∧ date_le (Some d) target ∧
       ∀ j r' d', l !! j = Some r' → Date r' = Some d' → date_le (Some d') target →
                  d' ≤ d ∧ ((j < i)%nat → d' < d).

(** The USD to EUR rate a row of the currency table gives (lines 95-99):
    the reciprocal of its 'USD' cell, absent when the table has no 'USD'
    column or the cell is NaN. *)
Definition usd_to_eur_of (currency_df : DataFrame) (r : row) : result (option float) :=
  if bool_decide ("USD" ∈ columns currency_df) && pd_notna (cell r "USD")
  then x ← truediv 1 (cell r "USD"); Ok (Some x)
  else Ok None.

(** ** Data of the examples *)

Definition usd_row (d : Z) (usd : float) : row := Row (Some d) {[ "USD" := usd ]}.

(** Rates on 1, 3 and 5 January 2024. *)
Definition january (a b c : float) : DataFrame :=
  Frame ["USD"] [usd_row (ymd 2024 1 1) a; usd_row (ymd 2024 1 3) b; usd_row (ymd 2024 1 5) c].

(** The record of a new date has a price for the stock, or has the stock
    with no price. *)
Definition has_price (new_record : row) (stock_name : string) : bool :=
  match vals new_record !! stock_name with
  | Some price => pd_notna price
  | None => false
  end.

Definition has_null_price (new_record : row) (stock_name : string) : bool :=
  match vals new_record !! stock_name with
  | Some price => pd_isna price
  | None => false
  end.

(** A new record with one USD price, and no currency table at all. *)
Definition ibm_record : row := Row (Some (ymd 2024 1 4)) {[ "IBM Share" := 187.5%float ]}.
Definition no_rates : DataFrame := Frame [] [].

(** The records of a series that carry a given date key. *)
Definition with_date (k : option Z) (l : list row) : list row :=
  filter (λ r, Date r = k) l.

Definition price_row (d : Z) (stock_name : string) (price : float) : row :=
  Row (Some d) {[ stock_name := price ]}.

(** A persisted series and a batch of new records that overlap on
    3 January. *)
Definition existing_shares : DataFrame :=
  Frame ["Allianz Share"]
        [price_row (ymd 2024 1 2) "Allianz Share" 240.5;
         price_row (ymd 2024 1 3) "Allianz Share" 241.0].
Definition incoming_shares : DataFrame :=
  Frame ["Allianz Share"]
        [price_row (ymd 2024 1 3) "Allianz Share" 242.25;
         price_row (ymd 2024 1 4) "Allianz Share" 243.0].

(** The provider's answer has a date at most the date of the row. *)
Definition has_prior (stock_data : gmap Z float) (r : row) : Prop :=
  match Date r with
  | Some target_date => Exists (λ d, d ≤ target_date) (index_of stock_data)
  | None => False
  end.

#[global] Instance has_prior_dec stock_data r : Decision (has_prior stock_data r).
Proof. unfold has_prior. destruct (Date r); apply _. Defined.

(** A price series with three gaps and one with no row for 3 January;
    the configuration and two providers: one that has closes for
    3 and 5 January, one that answers every query with no data. *)
Definition alv_row (d : Z) (price : float) : row := price_row d "Allianz Share" price.

Definition gapped_shares : DataFrame :=
  Frame ["Allianz Share"]
        [alv_row (ymd 2024 1 1) nan; alv_row (ymd 2024 1 2) 240.5;
         alv_row (ymd 2024 1 3) nan; alv_row (ymd 2024 1 4) nan;
         alv_row (ymd 2024 1 5) 243.0].


Definition stocks_example : list (string * string) := [("Allianz Share", "ALV.DE")].

Definition alv_closes : gmap Z float :=
  {[ ymd 2024 1 3 := 241.337%float; ymd 2024 1 5 := 243.004%float ]}.

Definition alv_provider (ticker : string) (start_date end_date : Z)
  : result (gmap Z float) :=
  if bool_decide (ticker = "ALV.DE") then Ok alv_closes else Raise DownloadError.

Definition silent_provider (ticker : string) (start_date end_date : Z)
  : result (gmap Z float) := Ok ∅.

(** The state in which the loop over the stocks starts on [gapped_shares]. *)
Definition gapped_start : fill_state := FillState (rows gapped_shares) (Stats 0 0) [] [].

(** A currency table that ends on Tuesday 2 January 2024, and forex
    providers: one with a EUR/USD close for 3 January only, one whose
    close for 3 January is NaN. *)
Definition usd_table : DataFrame := Frame ["USD"] [usd_row (ymd 2024 1 2) 1.0956].

Definition usd_closes : gmap Z float := {[ ymd 2024 1 3 := 1.09452%float ]}.

Definition usd_provider (ticker : string) (start_date end_date : Z)
  : result (gmap Z float) :=
  if bool_decide (ticker = "EURUSD=X") then Ok usd_closes else Raise DownloadError.

Definition nan_provider (ticker : string) (start_date end_date : Z)
  : result (gmap Z float) :=
  if bool_decide (ticker = "EURUSD=X") then Ok {[ ymd 2024 1 3 := nan ]}
  else Raise DownloadError.

(** The rows of a sheet whose 'Date' cell is [k]. *)
Definition with_date_cell (k : option string) (l : list sheet_row) : list sheet_row :=
  filter (λ r, date_cell r = k) l.



(** EUR prices of one company and a currency sheet: a product to round,
    a missing price, a zero rate, a missing rate, a price without rate
    row, a 'Date' cell that the sheet spells differently, and a product
    that is a tie. *)
Definition eur_prices : list (option string * float) :=
  [(Some "02-01-2024", 100.009%float); (Some "03-01-2024", nan);
   (Some "04-01-2024", 50%float); (Some "05-01-2024", 10%float);
   (Some "08-01-2024", 20%float); (Some "09-01-2024", 30%float);
   (Some "10-01-2024", 2.675%float)].

Definition rate_sheet : sheet :=
  Sheet ["USD"; "GBP"]
        [SheetRow (Some "02-01-2024") {[ "USD" := 1.25%float; "GBP" := 0.5%float ]};
         SheetRow (Some "03-01-2024") {[ "USD" := 1.25%float ]};
         SheetRow (Some "04-01-2024") {[ "USD" := 0%float; "GBP" := nan ]};
         SheetRow (Some "05-01-2024") {[ "GBP" := 0.5%float ]};
         SheetRow (Some "9-1-2024") {[ "USD" := 1.25%float; "GBP" := 0.5%float ]};
         SheetRow (Some "10-01-2024") {[ "USD" := 1%float; "GBP" := 0.5%float ]}].

(** A currency sheet with one row of rates. *)
Definition usd_sheet (date : string) (usd : float) : sheet_row :=
  SheetRow (Some date) {[ "USD" := usd ]}.

(** ** Notions of the price gap statement *)

(** What price gap filling leaves in a cell that it has filled with
    [price] (lines 592-602): for a stock of [USD_STOCKS] the price
    converted at the as-of rate of the date of the row, when the currency
    table gives one, and [price] itself otherwise. *)
Definition stored_price (USD_STOCKS : gset string) (currency_df : DataFrame)
    (stock_name : string) (date : Z) (price : float) : float :=
  if bool_decide (stock_name ∈ USD_STOCKS) then
    match get_usd_to_eur_rate currency_df (Some date) with
    | Ok (Some usd_eur_rate) => convert_usd_to_eur price (Some usd_eur_rate)
    | _ => price
    end
  else price.

(** The printed line reports a fill; the stock it names. *)
Definition is_fill_note (n : fill_note) : bool :=
  match n with
  | FilledExact _ _ _ | FilledFrom _ _ _ _ => true
  | NoData _ _ => false
  end.

Definition note_stock (n : fill_note) : string :=
  match n with
  | FilledExact stock_name _ _ | FilledFrom stock_name _ _ _
  | NoData stock_name _ => stock_name
  end.

(** The query of the stock is one whose exception the loop counts: the
    stock is a column of the table and the provider raised. *)
Definition query_raised (yf_download : string → Z → Z → result (gmap Z float))
    (cols : list string) (start_date last_date : Z) (item : string * string) : bool :=
  bool_decide (item.1 ∈ cols)
  && match yf_download item.2 start_date (last_date + 1) with
     | Raise _ => true
     | Ok _ => false
     end.

(** What the loop over [STOCKS] adds to the counters for one stock
    (lines 529-589): nothing when the stock is no column of the table or
    the answer of the provider is empty; one skip when the query raises;
    otherwise, of the rows of the window whose cell is NaN, the number of
    those that have a provider date at or before them and the number of
    those that have none. *)
Definition gap_counts (yf_download : string → Z → Z → result (gmap Z float))
    (cols : list string) (start_date last_date : Z) (l : list row)
    (item : string * string) : nat * nat :=
  if bool_decide (item.1 ∈ cols) then
    match yf_download item.2 start_date (last_date + 1) with
    | Ok stock_data =>
        if bool_decide (size stock_data = 0%nat) then (0%nat, 0%nat)
        else
          let gaps := gap_candidates item.1 start_date l in
          (length (filter (λ ir, has_prior stock_data ir.2) gaps),
           length (filter (λ ir, ¬ has_prior stock_data ir.2) gaps))
    | Raise _ => (0%nat, 1%nat)
    end
  else (0%nat, 0%nat).

(** The date and the price that the loop records for a row, if it fills
    it. *)
Definition gap_price (stock_name : string) (stock_data : gmap Z float) (r : row)
  : option (Z * float) :=
  if pd_notna (cell r stock_name) then None
  else
    match Date r with
    | None => None
    | Some target_date =>
        match stock_data !! target_date with
        | Some close => Some (target_date, py_round 2 close)
        | None =>
            match date_max (filter (λ d, d ≤ target_date) (index_of stock_data)) with
            | Some most_recent_date =>
                Some (target_date, py_round 2 (close_at stock_data most_recent_date))
            | None => None
            end
        end
    end.

(** Two lists of rows agree, row by row, on the dates and on the column
    of a stock. *)
Definition same_column (stock_name : string) (l l' : list row) : Prop :=
  Forall2 (λ r0 r1, Date r1 = Date r0
                    ∧ vals r1 !! stock_name = vals r0 !! stock_name) l l'.

(** Two stocks with gaps: Allianz in euros, IBM in dollars; the answers
    of the provider and a currency table for the conversion. *)
Definition two_stocks : list (string * string) :=
  [("Allianz Share", "ALV.DE"); ("IBM Share", "IBM")].

Definition two_stock_row (d : Z) (allianz ibm : float) : row :=
  Row (Some d) {[ "Allianz Share" := allianz; "IBM Share" := ibm ]}.

Definition two_stock_shares : DataFrame :=
  Frame ["Allianz Share"; "IBM Share"]
        [two_stock_row (ymd 2024 1 1) nan nan;
         two_stock_row (ymd 2024 1 2) 240.5 170.25;
         two_stock_row (ymd 2024 1 3) nan nan;
         two_stock_row (ymd 2024 1 4) nan nan;
         two_stock_row (ymd 2024 1 5) 243.0 nan].

Definition ibm_closes : gmap Z float :=
  {[ ymd 2024 1 3 := 187.512%float; ymd 2024 1 5 := 188.996%float ]}.

Definition two_stock_provider (ticker : string) (start_date end_date : Z)
  : result (gmap Z float) :=
  if bool_decide (ticker = "ALV.DE") then Ok alv_closes
  else if bool_decide (ticker = "IBM") then Ok ibm_closes
       else Raise DownloadError.

(** A provider whose close for 3 January is NaN, after a close for
    2 January. *)
Definition nan_close_provider (ticker : string) (start_date end_date : Z)
  : result (gmap Z float) :=
  Ok {[ ymd 2024 1 2 := 240.5%float; ymd 2024 1 3 := nan ]}.

(** ** New records of [main] *)

(** Body of the loop over the rows of a provider answer in [main]
    (lines 967-982): the record of the date is looked for in
    [new_stock_records], created at the end of the list when there is
    none, and gets the close rounded to two decimals under the name of
    the stock. *)
Definition add_observation (stock_name : string) (new_stock_records : list row)
    (obs : Z * float) : list row :=
  let date_str := Some obs.1 in
  let close_price := py_round 2 obs.2 in
  match list_find (λ record, Date record = date_str) new_stock_records with
  | Some (i, existing_record) =>
      <[i := set_cell existing_record stock_name close_price]> new_stock_records
  | None =>
      new_stock_records ++ [set_cell (Row date_str ∅) stock_name close_price]
  end.

(** The loop over [STOCKS] that fetches the new data (lines 953-990);
    [yf_history ticker start] is [yf.download (ticker, start=start)], its
    rows in index order as (date, close), or the exception it raised. *)
Definition fetch_new_records (STOCKS : list (string * string))
    (yf_history : string → Z → result (list (Z * float))) (last_date : Z)
  : list row :=
  foldl (λ new_stock_records item,
           match yf_history item.2 (last_date + 1) with
           | Ok stock_data =>
               foldl (add_observation item.1) new_stock_records stock_data
           | Raise _ => new_stock_records
           end)
        [] STOCKS.

(** ** Notions of the further properties *)

(** What the conversion loop of [main] makes of a price when the date has
    a rate: a NaN is left as it is. *)
Definition converted_price (rate price : float) : float :=
  if pd_notna price then py_round 2 (price * rate)%float else price.

(** The number of entries of the conversion statistics. *)
Definition accounted (st : conversion_stats) : nat :=
  (converted st + skipped_no_rate st + skipped_missing_price st)%nat.

(** The USD stocks that a new record has an entry for. *)
Definition usd_entries (USD_STOCKS : gset string) (new_record : row) : list string :=
  filter (λ s, is_Some (vals new_record !! s)) (elements USD_STOCKS).

(** The price that a list of records holds for a date and a stock: the
    entry of the first record of that date. *)
Definition price_in (records : list row) (d : Z) (stock_name : string)
  : option float :=
  match list_find (λ record, Date record = Some d) records with
  | Some (_, record) => vals record !! stock_name
  | None => None
  end.

(** The last close that a provider answer has for a date, rounded. *)
Definition last_close (stock_data : list (Z * float)) (d : Z) : option float :=
  (λ obs, py_round 2 obs.2) <$> last (filter (λ obs, obs.1 = d) stock_data).

(** A history provider for the examples: two closes for Allianz, one for
    IBM, an error for every other ticker. *)
Definition history_example (ticker : string) (start_date : Z)
  : result (list (Z * float)) :=
  if bool_decide (ticker = "ALV.DE")
  then Ok [(ymd 2024 1 3, 241.337%float); (ymd 2024 1 4, 243.004%float)]
  else if bool_decide (ticker = "IBM")
       then Ok [(ymd 2024 1 4, 187.512%float)]
       else Raise DownloadError.

Definition stocks_three : list (string * string) :=
  [("Allianz Share", "ALV.DE"); ("IBM Share", "IBM"); ("Unilever Share", "UL")].

(** [cur] has the rows of [orig], in the same order and with the same
    dates, and every cell that is not null in [orig] is the same in
    [cur]. *)
Definition keeps_values (orig cur : list row) : Prop :=
  Forall2 (λ r0 r, Date r = Date r0
                   ∧ ∀ c, pd_notna (cell r0 c) = true → vals r !! c = vals r0 !! c)
          orig cur.

(** The positions recorded for conversion are cells that are null in
    [orig]. *)
Definition null_positions (orig : list row)
    (positions : list (nat * string * Z * float)) : Prop :=
  Forall (λ p, ∀ r0, orig !! p.1.1.1 = Some r0 → pd_notna (cell r0 p.1.1.2) = false)
         positions.

(** The dates that the currency gap filling looks for: the weekdays of
    the window that have no row, then the weekdays after the last date up
    to today. *)
Definition missing_dates_of (currency_df : DataFrame) (lookback_days today_date : Z)
  : list Z :=
  match snd <$> idxmax_aux (Date <$> rows currency_df) with
  | Some last_date =>
      missing_weekdays (rows currency_df) (last_date - lookback_days) last_date
      ++ weekdays_after last_date today_date
  | None => []
  end.

(** What the batch download keeps of the provider's answer for one
    currency: nothing for an empty answer or an exception. *)
Definition usable_answer (yf_download : string → Z → Z → result (gmap Z float))
    (currency_code : string) (start_date end_date : Z) : option (gmap Z float) :=
  match yf_download (get_yfinance_ticker currency_code) start_date end_date with
  | Ok forex_data =>
      if bool_decide (size forex_data = 0%nat) then None else Some forex_data
  | Raise _ => None
  end.

(** ** The stock configuration *)

(** [s.endswith (suffix)]. *)
Definition endswith (s suffix : string) : bool :=
  bool_decide (String.list_ascii_of_string suffix
               `suffix_of` String.list_ascii_of_string s).

(** [d[k] = v] on a Python dict, which keeps its keys in the order of
    their first insertion: a key that is present keeps its place and gets
    the new value. *)
Fixpoint dict_set (k v : string) (d : list (string * string))
  : list (string * string) :=
  match d with
  | [] => [(k, v)]
  | item :: d' =>
      if bool_decide (item.1 = k) then (k, v) :: d'
      else item :: dict_set k v d'
  end.

(** [d.get (k)]. *)
Definition dict_get (k : string) (d : list (string * string)) : option string :=
  snd <$> (snd <$> list_find (λ item, item.1 = k) d).

(** The configuration that is used when the workbook is missing or
    cannot be read (lines 14-18 and 51-55). *)
Definition fallback_configuration : list (string * string) * gset string :=
  ([("Allianz Share", "ALV.DE"); ("IBM Share", "IBM"); ("Unilever Share", "UL")],
   {[ "IBM Share"; "Unilever Share" ]}).

(** Body of the loop over the metadata columns (lines 32-39);
    [column] holds the instrument, the company and the ticker, the ticker
    as [str] gives it. *)
Definition add_stock_column (acc : list (string * string) * gset string)
    (column : string * string * string)
  : list (string * string) * gset string :=
  let instrument := column.1.1 in
  let ticker_str := column.2 in
  let stocks := dict_set instrument ticker_str acc.1 in
  if negb (endswith ticker_str ".DE") && negb (endswith ticker_str ".L")
     && negb (endswith ticker_str ".PA")
  then (stocks, {[ instrument ]} ∪ acc.2)
  else (stocks, acc.2).

(** The loop over the metadata columns (lines 29-39). *)
Definition load_stocks (instruments companies tickers : list string)
  : list (string * string) * gset string :=
  foldl add_stock_column ([], ∅) (zip (zip instruments companies) tickers).

(** [read_stocks_from_metadata] (lines 10-55).  [workbook] is [None]
    when the file does not exist; otherwise it is what reading the
    'Shares' sheet gives: the cells of its first three rows after the
    first column, [None] for an empty cell, or the exception raised.
    [dropna] takes the empty cells out of each row before the rows are
    zipped. *)
Definition read_stocks_from_metadata
    (workbook : option (result (list (option string) * list (option string)
                                * list (option string))))
  : list (string * string) * gset string :=
  match workbook with
  | None => fallback_configuration
  | Some (Ok (header_row, company_row, ticker_row)) =>
      let instruments := omap id header_row in
      let companies := omap id company_row in
      let tickers := omap id ticker_row in
      load_stocks instruments companies tickers
  | Some (Raise _) => fallback_configuration
  end.

(** The ticker is one of a euro-zone, London or Paris listing. *)
Definition european_ticker (ticker_str : string) : bool :=
  endswith ticker_str ".DE" || endswith ticker_str ".L" || endswith ticker_str ".PA".

(** ** Company files *)

Record company_stats := CompanyStats {
  companies_found : nat;
  files_created : nat;
  files_failed : nat
}.

Section CompanyFiles.

(** Writing [multi_currency_data] to the file of a company (lines
    818-819): the file name, the 'Date' and 'EUR' columns and the
    currency columns; [Raise] is an exception of the writer. *)
Variable write_excel :
  string → list (option string * float) → gmap string (list (option float))
  → result ().

(** The loop over the companies (lines 769-831).  [base_shares_eur] is
    the 'Shares' sheet read with its second row as header, so that the
    column 'Company' holds the 'Date' cells: [date_cell] is the cell of
    that column and [sheet_columns] lists all the headers, 'Company'
    among them.  The result is the statistics and the exception that
    left the loop, if any. *)
Fixpoint company_loop (base_shares_eur currency_ratios : sheet)
    (companies : list string) (stats : company_stats)
  : company_stats * option exn :=
  match companies with
  | [] => (stats, None)
  | company :: rest =>
      let company_file := ("hist_" +:+ company +:+ ".xlsx")%string in
      let data_rows := tail (sheet_rows base_shares_eur) in
      if bool_decide ("Company" ∈ sheet_columns base_shares_eur) then
        if bool_decide (company ∈ sheet_columns base_shares_eur) then
          let data := (λ r, (date_cell r, sheet_cell r company)) <$> data_rows in
          match project_company data currency_ratios with
          | Ok cols =>
              match write_excel company_file data cols with
              | Ok _ =>
                  company_loop base_shares_eur currency_ratios rest
                    (CompanyStats (companies_found stats)
                                  (files_created stats + 1) (files_failed stats))
              | Raise _ =>
                  company_loop base_shares_eur currency_ratios rest
                    (CompanyStats (companies_found stats)
                                  (files_created stats) (files_failed stats + 1))
              end
          | Raise e => (stats, Some e)
          end
        else
          company_loop base_shares_eur currency_ratios rest
            (CompanyStats (companies_found stats)
                          (files_created stats) (files_failed stats + 1))
      else (stats, Some KeyError)
  end%nat.

(** [generate_company_specific_files] (lines 736-840); [workbook] is
    what reading the two sheets of hist_base.xlsx gives. *)
Definition generate_company_specific_files
    (workbook : result (sheet * sheet)) : company_stats :=
  match workbook with
  | Ok (base_shares_eur, currency_ratios) =>
      let companies :=
        filter (λ col, col ≠ "Company") (sheet_columns base_shares_eur) in
      let company_stats := CompanyStats (length companies) 0 0 in
      match company_loop base_shares_eur currency_ratios companies
                         company_stats with
      | (company_stats, None) => company_stats
      | (company_stats, Some _) =>
          CompanyStats (companies_found company_stats)
                       (files_created company_stats)
                       (companies_found company_stats)
      end
  | Raise _ => CompanyStats 0 0 0
  end.

(** The file of a company has been written: the projection of its
    prices completed and the writer accepted it. *)
Definition file_written (base_shares_eur currency_ratios : sheet)
    (company : string) : Prop :=
  let data := (λ r, (date_cell r, sheet_cell r company))
                <$> tail (sheet_rows base_shares_eur) in
  ∃ cols, project_company data currency_ratios = Ok cols
          ∧ write_excel ("hist_" +:+ company +:+ ".xlsx")%string data cols = Ok ().

End CompanyFiles.

(** ** Data quality analysis *)

(** A [datetime]: the date and the microseconds since midnight, at least
    0 and less than a day. *)
Record datetime := DateTime { dt_date : Z; dt_micros : Z }.

(** [date >= start_date] between a parsed date, at midnight, and a
    [datetime]; NaT compares false. *)
Definition timestamp_ge (date : option Z) (start_date : datetime) : bool :=
  match date with
  | Some d => (dt_date start_date <? d)
              || ((dt_date start_date =? d) && (dt_micros start_date <=? 0))
  | None => false
  end.

(** [(end_date - date).days]: the whole days of the difference; the time
    of day of [end_date] adds less than a day. *)
Definition timedelta_days (end_date : datetime) (date : Z) : Z :=
  dt_date end_date - date.

(** [needle in haystack] on strings. *)
Fixpoint contains (needle haystack : string) : bool :=
  String.prefix needle haystack
  || match haystack with
     | EmptyString => false
     | String _ rest => contains needle rest
     end.

Definition date_min (l : list Z) : option Z :=
  foldr (λ d acc, Some (from_option (Z.min d) d acc)) None l.

Inductive health := HEALTHY | WARNING | CRITICAL.

(** An entry of [data_gaps]; the message names the stock, or the
    currency table, and the days of staleness. *)
Inductive data_gap :=
| StaleStock (stock_name : string) (days : Z)
| StaleCurrency (days : Z).

(** An entry of [shares_data], without the coverage percentage; the
    dates are kept as dates. *)
Record stock_quality := StockQuality {
  total_records : nat;
  first_date : option Z;
  last_date : option Z;
  recent_gaps : nat;
  staleness_days : Z
}.

(** [currency_data], without the coverage percentages. *)
Record currency_quality := CurrencyQuality {
  currency_records : nat;
  latest_date : option Z;
  currency_staleness_days : Z;
  key_currencies : list (string * nat)
}.

(** The quality report, without the texts made for the mail: the
    analysis period and the formatted rows of the last days. *)
Record quality_report := QualityReport {
  shares_data : list (string * stock_quality);
  currency_data : option currency_quality;
  data_gaps : list data_gap;
  overall_health : health
}.

Definition staleness_threshold (stock_name : string) : Z :=
  if contains "Allianz" stock_name then 3 else 5.

(** The rows of a stock that hold a price. *)
Definition priced_rows (shares_df : DataFrame) (stock_name : string) : list row :=
  filter (λ r, pd_notna (cell r stock_name) = true) (rows shares_df).

(** Body of the loop over the stocks (lines 216-245); the keys of
    [STOCKS] are distinct, so that each gets an entry of its own in
    [shares_data].  The minimum and the maximum of the dates skip NaT;
    when the priced rows have no date that parses they are NaT, which is
    true as a condition and has no [strftime]. *)
Definition analyze_stock (shares_df : DataFrame) (end_date start_date : datetime)
    (st : list (string * stock_quality) * list data_gap * health)
    (stock_name : string)
  : result (list (string * stock_quality) * list data_gap * health) :=
  if bool_decide (stock_name ∈ columns shares_df) then
    let stock_data := priced_rows shares_df stock_name in
    let non_null_records := length stock_data in
    let recent_shares :=
      filter (λ r, timestamp_ge (Date r) start_date = true) (rows shares_df) in
    let recent_gaps :=
      length (filter (λ r, pd_notna (cell r stock_name) = false) recent_shares) in
    match stock_data with
    | [] =>
        Ok (st.1.1 ++ [(stock_name,
                        StockQuality non_null_records None None recent_gaps 999)],
            st.1.2, st.2)
    | _ :: _ =>
        match date_min (omap Date stock_data), date_max (omap Date stock_data) with
        | Some first_date, Some last_date =>
            let days := timedelta_days end_date last_date in
            let shares_data :=
              st.1.1 ++ [(stock_name,
                          StockQuality non_null_records (Some first_date)
                                       (Some last_date) recent_gaps days)] in
            if staleness_threshold stock_name <? days
            then Ok (shares_data, st.1.2 ++ [StaleStock stock_name days], WARNING)
            else Ok (shares_data, st.1.2, st.2)
        | _, _ => Raise ValueError
        end
    end
  else Ok st.

(** The analysis of the currency table (lines 248-275). *)
Definition analyze_currency (currency_df : DataFrame) (end_date : datetime)
    (st : list data_gap * health)
  : result (option currency_quality * list data_gap * health) :=
  match rows currency_df with
  | [] => Ok (None, st.1, st.2)
  | _ :: _ =>
      let total_currency_records := length (rows currency_df) in
      match date_max (omap Date (rows currency_df)) with
      | Some latest_currency =>
          let days := timedelta_days end_date latest_currency in
          let key_currencies :=
            (λ currency,
               (currency,
                length (filter (λ r, pd_notna (cell r currency) = true)
                               (rows currency_df))))
              <$> filter (λ currency, currency ∈ columns currency_df)
                         ["USD"; "GBP"; "CAD"; "CNY"; "JPY"] in
          let currency_data :=
            CurrencyQuality total_currency_records (Some latest_currency) days
                            key_currencies in
          if 1 <? days
          then Ok (Some currency_data, st.1 ++ [StaleCurrency days], WARNING)
          else Ok (Some currency_data, st.1, st.2)
      | None => Raise ValueError
      end
  end.

(** [analyze_data_quality] (lines 184-296); [STOCKS] is the
    configuration, [end_date] is [datetime.now ()]. *)
Definition analyze_data_quality (STOCKS : list (string * string))
    (shares_df currency_df : DataFrame) (days : Z) (end_date : datetime)
  : result quality_report :=
  let start_date := DateTime (dt_date end_date - days) (dt_micros end_date) in
  st ← foldl (λ acc stock_name,
                st ← acc; analyze_stock shares_df end_date start_date st stock_name)
             (Ok ([], [], HEALTHY)) STOCKS.*1;
  cur ← analyze_currency currency_df end_date (st.1.2, st.2);
  Ok (QualityReport st.1.1 cur.1.1 cur.1.2
        (if (2 <? length cur.1.2)%nat then CRITICAL else cur.2)).

(** The last date on which a stock has a price. *)
Definition last_priced (shares_df : DataFrame) (stock_name : string) : option Z :=
  date_max (omap Date (priced_rows shares_df stock_name)).

(** The stock is reported stale: it is a column of the table and its
    last price is older than its threshold. *)
Definition stale_stock (shares_df : DataFrame) (end_date : datetime)
    (stock_name : string) : option data_gap :=
  if bool_decide (stock_name ∈ columns shares_df) then
    match last_priced shares_df stock_name with
    | Some last_date =>
        if staleness_threshold stock_name <? timedelta_days end_date last_date
        then Some (StaleStock stock_name (timedelta_days end_date last_date))
        else None
    | None => None
    end
  else None.

(** The currency table is reported stale: its latest date is more than
    a day old. *)
Definition stale_currency (currency_df : DataFrame) (end_date : datetime)
  : option data_gap :=
  match date_max (omap Date (rows currency_df)) with
  | Some latest_currency =>
      if 1 <? timedelta_days end_date latest_currency
      then Some (StaleCurrency (timedelta_days end_date latest_currency))
      else None
  | None => None
  end.

(** Every row of the table has a date that parses. *)
Definition dated (df : DataFrame) : Prop :=
  Forall (λ r, is_Some (Date r)) (rows df).

Definition health_of (gaps : nat) : health :=
  match gaps with
  | 0%nat => HEALTHY
  | 1%nat | 2%nat => WARNING
  | _ => CRITICAL
  end.

(** ** The final report *)

(** The entries of [functional_failures]. *)
Inductive functional_failure :=
| NoShareUpdates
| NoCurrencyUpdates
| CompanyFilesFailed (failed_count total_count : nat)
| NoCompanyFiles
| NoCompanyStatistics.

(** How the call ends: [exit (code)], or a plain return. *)
Inductive outcome := Exit (code : Z) | Returned.

(** The checks of lines 1213-1236; [company_file_stats] is [None] when
    the argument is missing. *)
Definition functional_failures (new_records currency_updates gaps_filled : nat)
    (company_file_stats : option company_stats) (data_was_current : bool)
  : list functional_failure :=
  (if data_was_current then []
   else (if (new_records =? 0)%nat then [NoShareUpdates] else [])
        ++ (if (currency_updates =? 0)%nat && (gaps_filled =? 0)%nat
            then [NoCurrencyUpdates] else []))
  ++ match company_file_stats with
     | Some stats =>
         (if (0 <? files_failed stats)%nat
          then [CompanyFilesFailed (files_failed stats) (companies_found stats)]
          else [])
         ++ (if (files_created stats =? 0)%nat then [NoCompanyFiles] else [])
     | None => [NoCompanyStatistics]
     end.

(** [generate_final_report_and_exit] (lines 1181-1283);
    [github_actions] tells whether the variable GITHUB_ACTIONS is set to a
    non-empty value.
    An exception of the analysis leaves the function. *)
Definition generate_final_report_and_exit (STOCKS : list (string * string))
    (shares_df currency_df : DataFrame)
    (new_records currency_updates gaps_filled conversions : nat)
    (company_file_stats : option company_stats) (data_was_current : bool)
    (end_date : datetime) (github_actions : bool) : result outcome :=
  quality_report ← analyze_data_quality STOCKS shares_df currency_df 5 end_date;
  match functional_failures new_records currency_updates gaps_filled
                            company_file_stats data_was_current with
  | _ :: _ => Ok (Exit 1)
  | [] => if github_actions then Ok (Exit 0) else Ok Returned
  end.

(** ** Today's currency row of [main] *)

Section TodayRates.

(** [yf.download (ticker, start=..., end=...)]: the rows of the answer
    in index order, as (date, close), or the exception raised while the
    answer is read. *)
Variable yf_download_rows : string → Z → Z → result (list (Z * float)).

(** Body of the loop over the currencies (lines 1028-1045): the first
    close of the answer; the rate of the API only when the download
    raised. *)
Definition add_today_rate (currency_rates : gmap string float) (today_date : Z)
    (acc : row * nat) (currency_code : string) : row * nat :=
  match yf_download_rows (get_yfinance_ticker currency_code)
                         today_date (today_date + 1) with
  | Ok forex_data =>
      match forex_data with
      | obs :: _ =>
          (set_cell acc.1 currency_code (py_round 4 obs.2), (acc.2 + 1)%nat)
      | [] => acc
      end
  | Raise _ =>
      match currency_rates !! currency_code with
      | Some api_rate =>
          (set_cell acc.1 currency_code (py_round 4 api_rate), (acc.2 + 1)%nat)
      | None => acc
      end
  end.

(** [currency_rows] of step 5 of [main] (lines 997-1058); [api] is the
    'rates' entry of the answer of the exchange-rate API, or the
    exception of the request, and [today_date] is today. *)
Definition today_currency_rows (api : result (gmap string float))
    (currency_df_existing : DataFrame) (today_date : Z) : list row :=
  match api with
  | Ok currency_rates =>
      let existing_currencies := columns currency_df_existing in
      if bool_decide (weekday today_date < 5) then
        let has_today :=
          bool_decide (Some today_date ∈ Date <$> rows currency_df_existing) in
        if negb has_today then
          let filled :=
            foldl (add_today_rate currency_rates today_date)
                  (Row (Some today_date) ∅, 0%nat) existing_currencies in
          if (0 <? filled.2)%nat then [filled.1] else []
        else []
      else []
  | Raise _ => []
  end.

(** [new_currency_data] and the currency table after the merge of step 6
    (lines 1060-1061 and 1094-1095). *)
Definition update_currencies (api : result (gmap string float))
    (currency_df_existing : DataFrame) (today_date : Z) : DataFrame :=
  let currency_rows := today_currency_rows api currency_df_existing today_date in
  let new_currency_data :=
    match currency_rows with
    | currency_row :: _ =>
        Frame (filter (λ c, is_Some (vals currency_row !! c))
                      (columns currency_df_existing))
              currency_rows
    | [] => Frame [] []
    end in
  merge currency_df_existing new_currency_data.

(** The rate that today's row gets for a currency. *)
Definition today_rate (currency_rates : gmap string float) (today_date : Z)
    (currency_code : string) : option float :=
  match yf_download_rows (get_yfinance_ticker currency_code)
                         today_date (today_date + 1) with
  | Ok (obs :: _) => Some (py_round 4 obs.2)
  | Ok [] => None
  | Raise _ => py_round 4 <$> currency_rates !! currency_code
  end.

End TodayRates.

(** ** The cells that the price gap filling may write *)

(** [cur] has the rows of [orig], in the same order and with the same
    dates, and differs from [orig] in cells that [touchable] allows
    only. *)
Definition changes_only (touchable : row → string → Prop) (orig cur : list row)
  : Prop :=
  Forall2 (λ r0 r, Date r = Date r0
                   ∧ ∀ c, ¬ touchable r0 c → vals r !! c = vals r0 !! c)
          orig cur.

(** The cell of a configured stock that is a column of the table, on a
    row of the window that starts at [start_date]. *)
Definition in_window (STOCKS : list (string * string)) (cols : list string)
    (start_date : Z) (r0 : row) (c : string) : Prop :=
  c ∈ STOCKS.*1 ∧ c ∈ cols ∧ date_le (Some start_date) (Date r0).

(** The positions recorded for conversion are cells that [touchable]
    allows. *)
Definition touchable_positions (touchable : row → string → Prop)
    (orig : list row) (positions : list (nat * string * Z * float)) : Prop :=
  Forall (λ p, ∀ r0, orig !! p.1.1.1 = Some r0 → touchable r0 p.1.1.2) positions.

(** ** The end of the currency gap filling *)

(** The order of [sort_values ('Date_parsed')]: by date, NaT last. *)
Definition date_order (r1 r2 : row) : Prop :=
  match Date r1, Date r2 with
  | Some a, Some b => a ≤ b
  | _, None => True
  | None, Some _ => False
  end.

#[global] Instance date_order_dec r1 r2 : Decision (date_order r1 r2).
Proof. unfold date_order. destruct (Date r1), (Date r2); apply _. Defined.

(** The range of the batch download (lines 668-669): from the first of
    the missing dates to the day after the last. *)
Definition batch_range (missing_dates : list Z) : option (Z * Z) :=
  match missing_dates with
  | [] => None
  | d :: ds => Some (foldr Z.min d ds, foldr Z.max d ds + 1)
  end.

Section CurrencyCleanUp.

(** [to_datetime dates i] is the date that
    [pd.to_datetime (currency_df['Date'], errors='coerce')] (line 727)
    gives for the 'Date' cell of row [i], [None] for NaT, in a table
    whose 'Date' cells stand for [dates].  The call names no format: the
    cells are timestamps or texts written day first, and what pandas
    makes of such a text (the date itself, the date with day and month
    exchanged, or NaT) depends on its version and on the other cells of
    the column, which the source does not fix. *)
Variable to_datetime : list (option Z) → nat → option Z.

Variable yf_download : string → Z → Z → result (gmap Z float).

(** Lines 724-731: the 'Date' column is read again, the rows are sorted
    by what was read, NaT last, and 'Date' is rewritten from it.
    [sort_values] makes no promise on the order of rows with equal
    dates; [merge_sort] stands for it, and no statement below depends on
    that order. *)
Definition clean_up (l : list row) : list row :=
  merge_sort date_order
    (imap (λ i r, Row (to_datetime (Date <$> l) i) (vals r)) l).

(** [fill_missing_currency_data (currency_df, lookback_days)] (lines
    613-734).  The function returns before the clean-up when the table
    is empty (lines 618-619) or has no missing date (lines 658-660). *)
Definition fill_missing_currency_data (currency_df : DataFrame)
    (lookback_days today_date : Z) : result (DataFrame * fill_stats) :=
  '(filled_df, fill_stats) ←
    fill_currency_gaps yf_download currency_df lookback_days today_date;
  match missing_dates_of currency_df lookback_days today_date with
  | [] => Ok (filled_df, fill_stats)
  | _ :: _ => Ok (Frame (columns filled_df) (clean_up (rows filled_df)), fill_stats)
  end.

End CurrencyCleanUp.

(** A [to_datetime] that reads every date back as it was written. *)
Definition read_back (dates : list (option Z)) (i : nat) : option Z :=
  mjoin (dates !! i).

(* ===================================================================== *)
(** * Part II: properties                                                 *)
(* ===================================================================== *)

(** ** Lists *)

Lemma filter_none {A} (P : A → Prop) `{∀ x, Decision (P x)} (l : list A) :
  (∀ x, x ∈ l → ¬ P x) → filter P l = [].
Proof.
  intros Hno. destruct (filter P l) as [|x k] eqn:E; [done|].
  assert (x ∈ filter P l) as [? ?]%list_elem_of_filter by (rewrite E; left).
  by destruct (Hno x).
Qed.


(** ** As-of lookup *)

Lemma idxmax_aux_elem s i m : idxmax_aux s = Some (i, m) → Some m ∈ s.
Proof.
  revert i m. induction s as [|d s IH]; intros i m; simpl; [done|].
  destruct (idxmax_aux s) as [[j m']|] eqn:E; simpl.
  - destruct d as [x|]; simpl.
    + destruct (x <? m'); intros [= <- <-]; [right; eauto | left].
    + intros [= <- <-]. right; eauto.
  - destruct d as [x|]; simpl; [|done]. intros [= <- <-]. left.
Qed.

Lemma idxmax_aux_split s1 m s2 :
  (∀ x, Some x ∈ s1 → x < m) → (∀ x, Some x ∈ s2 → x ≤ m) →
  idxmax_aux (s1 ++ Some m :: s2) = Some (length s1, m).
Proof.
  intros H1 H2. induction s1 as [|a s1 IH]; simpl.
  - destruct (idxmax_aux s2) as [[j m']|] eqn:E; simpl; [|done].
    apply idxmax_aux_elem, H2 in E.
    destruct (Z.ltb_spec m m'); [lia | done].
  - rewrite IH by (intros x Hx; apply H1; by right). simpl.
    destruct a as [x|]; [|done].
    assert (x < m) by (apply H1; left).
    destruct (Z.ltb_spec x m); [done | lia].
Qed.

Lemma asof_row_selected (l : list row) target i r :
  is_asof_row l target i r →
  let available_dates := filter (λ r, date_le (Date r) target) l in
  idxmax (Date <$> available_dates) ≫= (available_dates !!.) = Some r
  ∧ available_dates ≠ [].
Proof.
  intros (Hi & d & Hd & Hle & Hmax). simpl.
  assert (filter (λ r, date_le (Date r) target) l
          = filter (λ r, date_le (Date r) target) (take i l)
            ++ r :: filter (λ r, date_le (Date r) target) (drop (S i) l)) as ->.
  { rewrite <- (take_drop_middle l i r Hi) at 1.
    by rewrite filter_app, filter_cons_True by (by rewrite Hd). }
  split; [|by destruct (filter _ (take i l))].
  rewrite fmap_app, fmap_cons, Hd. unfold idxmax.
  rewrite idxmax_aux_split; simpl.
  - rewrite length_fmap. by rewrite list_lookup_middle.
  - intros x [r' [Hx Hr']]%list_elem_of_fmap.
    apply list_elem_of_filter in Hr' as [Hc Hr'].
    apply list_elem_of_lookup in Hr' as [j Hj].
    pose proof (lookup_lt_Some _ _ _ Hj) as Hlt. rewrite length_take in Hlt.
    rewrite lookup_take_lt in Hj by lia.
    rewrite <- Hx in Hc. apply (Hmax j r' x); [done.. | lia].
  - intros x [r' [Hx Hr']]%list_elem_of_fmap.
    apply list_elem_of_filter in Hr' as [Hc Hr'].
    apply list_elem_of_lookup in Hr' as [j Hj].
    rewrite lookup_drop in Hj. rewrite <- Hx in Hc.
    by apply (Hmax (S i + j)%nat r' x).
Qed.

Lemma lookup_at_asof_row currency_df target i r :
  is_asof_row (rows currency_df) target i r →
  get_usd_to_eur_rate currency_df target = usd_to_eur_of currency_df r.
Proof.
  intros Has. destruct (asof_row_selected _ _ _ _ Has) as [Hsel Hne].
  unfold get_usd_to_eur_rate, usd_to_eur_of.
  destruct (rows currency_df) as [|r0 l] eqn:El.
  { by destruct Has as [? _]. }
  simpl in Hsel, Hne.
  destruct (filter _ (r0 :: l)) as [|a av] eqn:Ef; [done|].
  by rewrite Hsel.
Qed.

Lemma asof_row_exists (l : list row) target :
  (∃ r, r ∈ l ∧ date_le (Date r) target) → ∃ i r, is_asof_row l target i r.
Proof.
  induction l as [|a l IH]; intros (r & Hr & Hc).
  { by apply elem_of_nil in Hr. }
  destruct (decide (Exists (λ r, date_le (Date r) target) l)) as [Hex|Hno].
  - destruct IH as (i & r0 & Hi & d0 & Hd0 & Hle0 & Hmax).
    { apply Exists_exists in Hex. naive_solver. }
    destruct (decide (date_le (Date a) target ∧ date_le (Some d0) (Date a)))
      as [[Ha Hge]|Hn].
    + destruct (Date a) as [da|] eqn:Eda; [|done]. simpl in Hge.
      exists 0%nat, a. split; [done|]. exists da. split_and!; [done..|].
      intros [|j] r' d' Hj Hd' Hc'; simpl in Hj.
      * simplify_eq. lia.
      * destruct (Hmax j r' d' Hj Hd' Hc'). lia.
    + exists (S i), r0. split; [done|]. exists d0. split_and!; [done..|].
      intros [|j] r' d' Hj Hd' Hc'; simpl in Hj.
      * simplify_eq. rewrite Hd' in Hn.
        assert (d' < d0); [|lia].
        destruct (decide (d' < d0)); [done|]. exfalso. apply Hn.
        split; [done|]. simpl. lia.
      * destruct (Hmax j r' d' Hj Hd' Hc'). split; [done|]. lia.
  - assert (date_le (Date a) target) as Ha.
    { apply elem_of_cons in Hr as [->|Hr]; [done|].
      exfalso. apply Hno, Exists_exists. eauto. }
    destruct (Date a) as [da|] eqn:Eda; [|done].
    exists 0%nat, a. split; [done|]. exists da. split_and!; [done..|].
    intros [|j] r' d' Hj Hd' Hc'; simpl in Hj.
    + simplify_eq. lia.
    + exfalso. apply Hno, Exists_exists. exists r'.
      split; [by eapply list_elem_of_lookup_2 | by rewrite Hd'].
Qed.

Lemma lookup_no_candidate currency_df target :
  (∀ r, r ∈ rows currency_df → ¬ date_le (Date r) target) →
  get_usd_to_eur_rate currency_df target = Ok None.
Proof.
  intros Hno. unfold get_usd_to_eur_rate.
  destruct (rows currency_df) as [|r0 l] eqn:El; [done|].
  assert (filter (λ r, date_le (Date r) target) (r0 :: l) = []) as ->; [|done].
  apply filter_none. intros r Hr. by apply Hno.
Qed.



Example lookup_4_january :
  get_usd_to_eur_rate (january 1.10 1.25 1.30) (Some (ymd 2024 1 4))
  = Ok (Some 0.8%float).
Proof. reflexivity. Qed.

Lemma january_asof_row a b c :
  is_asof_row (rows (january a b c)) (Some (ymd 2024 1 4)) 1
              (usd_row (ymd 2024 1 3) b).
Proof.
  split; [reflexivity|]. exists (ymd 2024 1 3).
  split_and!; [reflexivity | vm_compute; discriminate |].
  intros [|[|[|j]]] r' d' Hj Hd' Hle; simplify_eq/=;
    vm_compute in Hle; vm_compute; split; try done; lia.
Qed.

(** C10. For the as-of row of the lookup: when the table has a 'USD'
    column and the row's 'USD' cell is not NaN, [get_usd_to_eur_rate]
    gives what [1.0 / USD] gives, the reciprocal of the stored rate (the
    division raises on a stored zero); when the row has no 'USD' value it
    returns absent, whatever the earlier rows hold. *)
Theorem lookup_reciprocal_no_fallback currency_df target i r :
  is_asof_row (rows currency_df) target i r →
  ("USD" ∈ columns currency_df → pd_notna (cell r "USD") = true →
     get_usd_to_eur_rate currency_df target
     = (x ← truediv 1 (cell r "USD"); Ok (Some x))
     ∧ ((cell r "USD" =? 0)%float = false →
        get_usd_to_eur_rate currency_df target
        = Ok (Some (1 / cell r "USD")%float)))
  ∧ ("USD" ∉ columns currency_df ∨ pd_notna (cell r "USD") = false →
     get_usd_to_eur_rate currency_df target = Ok None).
Proof.
  intros Has. rewrite (lookup_at_asof_row _ _ _ _ Has). unfold usd_to_eur_of.
  split.
  - intros Hcol Hna. rewrite bool_decide_eq_true_2, Hna by done. simpl.
    split; [done|]. intros Hz. unfold truediv. by rewrite Hz.
  - intros [Hcol|Hna].
    + by rewrite bool_decide_eq_false_2.
    + rewrite Hna. by rewrite andb_false_r.
Qed.

Lemma lookup_reciprocal_no_fallback_witness :
  get_usd_to_eur_rate (january 1.10 1.25 1.30) (Some (ymd 2024 1 4))
  = Ok (Some (1 / 1.25)%float)
  ∧ get_usd_to_eur_rate (january 1.10 nan 1.30) (Some (ymd 2024 1 4)) = Ok None.
Proof.
  split.
  - apply (lookup_reciprocal_no_fallback (january 1.10 1.25 1.30) _ 1
             (usd_row (ymd 2024 1 3) 1.25) (january_asof_row _ _ _));
      [left | reflexivity | reflexivity].
  - apply (lookup_reciprocal_no_fallback (january 1.10 nan 1.30) _ 1
             (usd_row (ymd 2024 1 3) nan) (january_asof_row _ _ _)).
    right. reflexivity.
Defined.

(** An earlier row with a rate is not used when the as-of row has none,
    and a stored zero makes the lookup raise. *)
Example lookup_does_not_fall_back :
  get_usd_to_eur_rate (january 1.10 nan 1.30) (Some (ymd 2024 1 4)) = Ok None
  ∧ get_usd_to_eur_rate (january 1.10 1.25 1.30) (Some (ymd 2024 1 2))
    = Ok (Some (1 / 1.10)%float)
  ∧ get_usd_to_eur_rate (january 1.10 0 1.30) (Some (ymd 2024 1 4))
    = Raise ZeroDivisionError.
Proof. split_and!; reflexivity. Qed.

(** ** Conversion *)

(** C7. For a price (a number, not NaN) and a present rate,
    [convert_usd_to_eur] is the product of price and rate rounded to two
    decimals by Python's [round]; 100.00 at rate 0.92 gives exactly
    92.00.  The rounding is to the nearest hundredth of the product as
    the machine holds it, with a tie going to the even hundredth:
    187.512 at 0.9137 (171.3297144) gives 171.33 and 99.99 at 0.915
    (91.49085) gives 91.49; 0.125 and 0.375 at rate 1 are ties and give
    0.12 and 0.38; 2.675 and 1.005 at rate 1 are held a little below
    the tie and give 2.67 and 1.0. *)
Theorem convert_rounds_product :
  (∀ usd_price rate, pd_notna usd_price = true →
     convert_usd_to_eur usd_price (Some rate) = py_round 2 (usd_price * rate)%float)
  ∧ convert_usd_to_eur 100 (Some 0.92%float) = 92%float
  ∧ convert_usd_to_eur 187.512 (Some 0.9137%float) = 171.33%float
  ∧ convert_usd_to_eur 99.99 (Some 0.915%float) = 91.49%float
  ∧ convert_usd_to_eur 0.125 (Some 1%float) = 0.12%float
  ∧ convert_usd_to_eur 0.375 (Some 1%float) = 0.38%float
  ∧ convert_usd_to_eur 2.675 (Some 1%float) = 2.67%float
  ∧ convert_usd_to_eur 1.005 (Some 1%float) = 1%float.
Proof.
  split; [|split_and!; vm_compute; reflexivity].
  intros p r Hp. unfold convert_usd_to_eur, pd_isna.
  unfold pd_notna in Hp. by destruct (is_nan p).
Qed.

Lemma convert_rounds_product_witness :
  convert_usd_to_eur 241.337 (Some 0.9137%float) = 220.51%float.
Proof.
  etrans.
  - apply (proj1 convert_rounds_product 241.337%float 0.9137%float). reflexivity.
  - vm_compute. reflexivity.
Defined.

Example convert_examples :
  convert_usd_to_eur 187.5 (Some 0.8%float) = 150%float
  ∧ convert_usd_to_eur 2.675 (Some 1%float) = 2.67%float
  ∧ convert_usd_to_eur nan (Some 0.92%float) = nan.
Proof. split_and!; reflexivity. Qed.

Lemma convert_stock_no_rate_step new_record st s :
  convert_stock None (new_record, st) s
  = (new_record,
     ConvStats (converted st)
               (skipped_no_rate st + (if has_price new_record s then 1 else 0))
               (skipped_missing_price st
                + (if has_null_price new_record s then 1 else 0)))%nat.
Proof.
  unfold convert_stock, has_price, has_null_price, pd_isna, pd_notna.
  destruct st as [a b c]; simpl.
  destruct (vals new_record !! s) as [p|]; [destruct (is_nan p)|]; simpl;
    f_equal; f_equal; lia.
Qed.

Lemma convert_stock_no_rate (l : list string) new_record st :
  foldl (convert_stock None) (new_record, st) l
  = (new_record,
     ConvStats (converted st)
               (skipped_no_rate st + length (filter (λ s, has_price new_record s) l))
               (skipped_missing_price st
                + length (filter (λ s, has_null_price new_record s) l)))%nat.
Proof.
  revert st. induction l as [|s l IH]; intros st.
  { destruct st. simpl. by rewrite !Nat.add_0_r. }
  cbn [foldl]. rewrite convert_stock_no_rate_step, IH, !filter_cons. simpl.
  destruct (has_price new_record s), (has_null_price new_record s); simpl;
    f_equal; f_equal; lia.
Qed.

(** C8. With no rate, [convert_usd_to_eur] returns the price it was
    given; and in the conversion loop of [main], a new record whose date
    has no as-of rate keeps its prices, each USD stock with a price in the
    record adding one to [skipped_no_rate]. *)
Theorem missing_rate_passes_through (USD_STOCKS : gset string) :
  (∀ usd_price, convert_usd_to_eur usd_price None = usd_price)
  ∧ (∀ currency_df new_record st,
       get_usd_to_eur_rate currency_df (Date new_record) = Ok None →
       convert_record USD_STOCKS currency_df new_record st
       = Ok (new_record,
             ConvStats
               (converted st)
               (skipped_no_rate st
                + length (filter (λ s, has_price new_record s) (elements USD_STOCKS)))
               (skipped_missing_price st
                + length (filter (λ s, has_null_price new_record s)
                                 (elements USD_STOCKS))))%nat).
Proof.
  split; [done|]. intros currency_df new_record st Hrate.
  unfold convert_record. rewrite Hrate. simpl.
  by rewrite convert_stock_no_rate.
Qed.

Lemma missing_rate_passes_through_witness :
  convert_record {[ "IBM Share"; "Unilever Share" ]} no_rates ibm_record
                 (ConvStats 0 0 0)
  = Ok (ibm_record, ConvStats 0 1 0).
Proof.
  etrans.
  - apply (proj2 (missing_rate_passes_through {[ "IBM Share"; "Unilever Share" ]})
                 no_rates ibm_record (ConvStats 0 0 0)).
    reflexivity.
  - vm_compute. reflexivity.
Defined.

(** ** Merge *)

Lemma with_date_nil k (l : list row) : k ∉ Date <$> l → with_date k l = [].
Proof.
  intros Hk. apply filter_none. intros r Hr Hd. apply Hk.
  apply list_elem_of_fmap. eauto.
Qed.

Lemma with_date_not_nil k (l : list row) : k ∈ Date <$> l → with_date k l ≠ [].
Proof.
  intros (r & -> & Hr)%list_elem_of_fmap Hnil.
  by apply (filter_nil_not_elem_of _ _ r) in Hnil.
Qed.

Lemma drop_duplicates_keeps_last k (l : list row) :
  with_date k (drop_duplicates_last l) = option_list (last (with_date k l)).
Proof.
  induction l as [|r l IH]; [done|]. simpl. unfold with_date in *.
  case_bool_decide as Hin.
  - rewrite IH, filter_cons. case_decide as Hk; [|done]. subst k.
    pose proof (with_date_not_nil _ _ Hin) as Hne. unfold with_date in Hne.
    by destruct (filter _ l).
  - rewrite !filter_cons. case_decide as Hk; [|done]. subst k.
    rewrite IH. pose proof (with_date_nil _ _ Hin) as Hnil.
    unfold with_date in Hnil. by rewrite Hnil.
Qed.

(** C2. In the merge of an existing and an incoming series, a date key
    that occurs more than once in the concatenation is left with exactly
    one record, the last one supplied; a key that occurs once keeps its
    record; and a key that the incoming series has is left with the last
    incoming record of that key. *)
Theorem merge_last_write_wins (existing incoming : DataFrame) (k : option Z) :
  let supplied := rows existing ++ rows incoming in
  let kept := with_date k (rows (merge existing incoming)) in
  ((1 < length (with_date k supplied))%nat →
     ∃ r, kept = [r] ∧ last (with_date k supplied) = Some r)
  ∧ (length (with_date k supplied) = 1%nat → kept = with_date k supplied)
  ∧ (k ∈ Date <$> rows incoming →
     ∃ r, kept = [r] ∧ last (with_date k (rows incoming)) = Some r).
Proof.
  simpl. rewrite drop_duplicates_keeps_last. split_and!.
  - intros Hlen.
    destruct (last (with_date k (rows existing ++ rows incoming))) as [r|] eqn:E.
    + by exists r.
    + apply last_None in E. rewrite E in Hlen. simpl in Hlen. lia.
  - intros Hlen.
    destruct (with_date k (rows existing ++ rows incoming)) as [|r [|r' l]];
      simplify_eq/=. done.
  - intros Hin. apply with_date_not_nil in Hin.
    unfold with_date in *. rewrite filter_app, last_app.
    destruct (last (filter _ (rows incoming))) as [r|] eqn:E.
    + by exists r.
    + by apply last_None in E.
Qed.

Lemma merge_last_write_wins_witness :
  with_date (Some (ymd 2024 1 3)) (rows (merge existing_shares incoming_shares))
  = [price_row (ymd 2024 1 3) "Allianz Share" 242.25]
  ∧ with_date (Some (ymd 2024 1 2)) (rows (merge existing_shares incoming_shares))
    = [price_row (ymd 2024 1 2) "Allianz Share" 240.5].
Proof.
  split.
  - destruct (proj1 (merge_last_write_wins existing_shares incoming_shares
                       (Some (ymd 2024 1 3)))) as (r & -> & Hr).
    + vm_compute. lia.
    + vm_compute in Hr. by injection Hr as <-.
  - rewrite (proj1 (proj2 (merge_last_write_wins existing_shares incoming_shares
                             (Some (ymd 2024 1 2))))); reflexivity.
Defined.

Example merge_overlap :
  (Date <$> rows (merge existing_shares incoming_shares))
  = [Some (ymd 2024 1 2); Some (ymd 2024 1 3); Some (ymd 2024 1 4)].
Proof. reflexivity. Qed.

(** ** Price gap filling *)

Lemma date_max_None l : date_max l = None ↔ l = [].
Proof. by destruct l. Qed.

Lemma date_max_Some l m :
  date_max l = Some m → m ∈ l ∧ ∀ x, x ∈ l → x ≤ m.
Proof.
  revert m. induction l as [|d l IH]; intros m; [done|]. simpl.
  destruct (date_max l) as [m'|] eqn:E; simpl; intros [= <-].
  - destruct (IH m' eq_refl) as [Hin Hmax]. split.
    + destruct (Z.max_spec d m') as [[_ ->]|[_ ->]]; [by right | left].
    + intros x [->|Hx]%elem_of_cons; [lia|]. specialize (Hmax x Hx). lia.
  - apply date_max_None in E as ->. split; [left|].
    intros x [->|Hx]%elem_of_cons; [lia | by apply elem_of_nil in Hx].
Qed.

Lemma date_max_greatest l m :
  m ∈ l → (∀ x, x ∈ l → x ≤ m) → date_max l = Some m.
Proof.
  intros Hin Hmax. destruct (date_max l) as [m'|] eqn:E.
  - destruct (date_max_Some _ _ E) as [Hin' Hmax'].
    f_equal. specialize (Hmax m' Hin'). specialize (Hmax' m Hin). lia.
  - apply date_max_None in E as ->. by apply elem_of_nil in Hin.
Qed.

Lemma elem_of_index_of (stock_data : gmap Z float) d :
  d ∈ index_of stock_data ↔ is_Some (stock_data !! d).
Proof. unfold index_of. by rewrite elem_of_elements, elem_of_dom. Qed.

Lemma has_prior_iff (stock_data : gmap Z float) r :
  has_prior stock_data r
  ↔ ∃ t d, Date r = Some t ∧ is_Some (stock_data !! d) ∧ d ≤ t.
Proof.
  unfold has_prior. destruct (Date r) as [t|].
  - rewrite Exists_exists. split.
    + intros (d & Hd%elem_of_index_of & Hle). by exists t, d.
    + intros (t' & d & [= <-] & Hd & Hle). exists d.
      split; [by apply elem_of_index_of | done].
  - split; [done|]. by intros (t & d & [=] & _).
Qed.

Lemma set_loc_lookup_eq i c v (l : list row) r :
  l !! i = Some r → set_loc i c v l !! i = Some (set_cell r c v).
Proof.
  intros Hi. unfold set_loc. rewrite Hi.
  apply list_lookup_insert_eq. by eapply lookup_lt_Some.
Qed.

Lemma set_loc_lookup_ne i j c v (l : list row) :
  i ≠ j → set_loc i c v l !! j = l !! j.
Proof.
  intros Hne. unfold set_loc. destruct (l !! i); [|done].
  by apply list_lookup_insert_ne.
Qed.

Section FillGap.
Context (stock_name : string) (stock_data : gmap Z float).

Lemma fill_gap_present s i r :
  pd_notna (cell r stock_name) = true →
  fill_gap stock_name stock_data s (i, r) = s.
Proof. intros Hna. unfold fill_gap. by rewrite Hna. Qed.

Lemma fill_gap_exact s i r t v :
  pd_notna (cell r stock_name) = false → Date r = Some t →
  stock_data !! t = Some v →
  fill_gap stock_name stock_data s (i, r)
  = FillState (set_loc i stock_name (py_round 2 v) (shares s))
              (Stats (S (filled (stats s))) (skipped (stats s)))
              (filled_positions s ++ [(i, stock_name, t, py_round 2 v)])
              (notes s ++ [FilledExact stock_name t (py_round 2 v)]).
Proof. intros Hna Hd Hv. unfold fill_gap. by rewrite Hna, Hd, Hv. Qed.

Lemma fill_gap_fallback s i r t d v :
  pd_notna (cell r stock_name) = false → Date r = Some t →
  stock_data !! t = None → stock_data !! d = Some v → d ≤ t →
  (∀ d', is_Some (stock_data !! d') → d' ≤ t → d' ≤ d) →
  fill_gap stock_name stock_data s (i, r)
  = FillState (set_loc i stock_name (py_round 2 v) (shares s))
              (Stats (S (filled (stats s))) (skipped (stats s)))
              (filled_positions s ++ [(i, stock_name, t, py_round 2 v)])
              (notes s ++ [FilledFrom stock_name t (py_round 2 v) d]).
Proof.
  intros Hna Hd Hnone Hv Hle Hmax. unfold fill_gap.
  rewrite Hna, Hd, Hnone.
  rewrite (date_max_greatest _ d).
  - unfold close_at. by rewrite Hv.
  - apply list_elem_of_filter. split; [done|]. apply elem_of_index_of. eauto.
  - intros x [Hx Hin]%list_elem_of_filter. apply Hmax; [|done].
    by apply elem_of_index_of.
Qed.

Lemma fill_gap_unresolved s i r t :
  pd_notna (cell r stock_name) = false → Date r = Some t →
  (∀ d', is_Some (stock_data !! d') → ¬ d' ≤ t) →
  fill_gap stock_name stock_data s (i, r)
  = FillState (shares s)
              (Stats (filled (stats s)) (S (skipped (stats s))))
              (filled_positions s)
              (notes s ++ [NoData stock_name t]).
Proof.
  intros Hna Hd Hno. unfold fill_gap. rewrite Hna, Hd.
  destruct (stock_data !! t) as [v|] eqn:Hv.
  { destruct (Hno t); [eauto | lia]. }
  rewrite filter_none; [done|].
  intros x Hx. apply Hno. by apply elem_of_index_of.
Qed.

(** Every date either has an observation, or a latest earlier one, or
    nothing at or before it. *)
Lemma provider_cases t :
  (∃ v, stock_data !! t = Some v)
  ∨ (∃ d v, stock_data !! t = None ∧ stock_data !! d = Some v ∧ d ≤ t
            ∧ ∀ d', is_Some (stock_data !! d') → d' ≤ t → d' ≤ d)
  ∨ (∀ d', is_Some (stock_data !! d') → ¬ d' ≤ t).
Proof.
  destruct (stock_data !! t) as [v|] eqn:Hv; [left; eauto | right].
  destruct (date_max (filter (λ d, d ≤ t) (index_of stock_data))) as [d|] eqn:E.
  - left. apply date_max_Some in E as [[Hle Hin]%list_elem_of_filter Hmax].
    apply elem_of_index_of in Hin as [v Hd]. exists d, v. split_and!; [done..|].
    intros d' Hd' Hle'. apply Hmax, list_elem_of_filter.
    split; [done | by apply elem_of_index_of].
  - right. apply date_max_None in E. intros d' Hd' Hle.
    apply (filter_nil_not_elem_of (λ d, d ≤ t) (index_of stock_data) d' E Hle).
    by apply elem_of_index_of.
Qed.

Lemma fill_gap_stats s i r :
  is_Some (Date r) →
  stats (fill_gap stock_name stock_data s (i, r))
  = if pd_notna (cell r stock_name) then stats s
    else if decide (has_prior stock_data r)
         then Stats (S (filled (stats s))) (skipped (stats s))
         else Stats (filled (stats s)) (S (skipped (stats s))).
Proof.
  intros [t Ht]. destruct (pd_notna (cell r stock_name)) eqn:Hna.
  { by rewrite fill_gap_present. }
  destruct (provider_cases t) as [[v Hv]|[(d & v & Hn & Hv & Hle & Hmax)|Hno]].
  - rewrite (fill_gap_exact _ _ _ t v), decide_True; [done| |done..].
    apply has_prior_iff. exists t, t. split_and!; [done | eauto | lia].
  - rewrite (fill_gap_fallback _ _ _ t d v), decide_True; [done| |done..].
    apply has_prior_iff. exists t, d. eauto.
  - rewrite (fill_gap_unresolved _ _ _ t), decide_False; [done| |done..].
    intros (t' & d & Ht' & Hd & Hle)%has_prior_iff. simplify_eq. by eapply Hno.
Qed.

Lemma fill_gap_shares_other s i r j :
  i ≠ j → shares (fill_gap stock_name stock_data s (i, r)) !! j = shares s !! j.
Proof.
  intros Hne. unfold fill_gap.
  repeat case_match; simpl; try done; by apply set_loc_lookup_ne.
Qed.

Lemma fill_gap_notes s ir n :
  n ∈ notes s → n ∈ notes (fill_gap stock_name stock_data s ir).
Proof.
  intros Hn. destruct ir as [i r]. unfold fill_gap.
  repeat case_match; simpl; try done; apply elem_of_app; by left.
Qed.

Lemma fold_fill_gap_other recs s j :
  j ∉ recs.*1 →
  shares (foldl (fill_gap stock_name stock_data) s recs) !! j = shares s !! j.
Proof.
  revert s. induction recs as [|[i r] recs IH]; intros s Hj; [done|].
  cbn [foldl]. rewrite IH.
  - apply fill_gap_shares_other. intros ->. apply Hj. left.
  - intros Hin. apply Hj. by right.
Qed.

Lemma fold_fill_gap_notes recs s n :
  n ∈ notes s → n ∈ notes (foldl (fill_gap stock_name stock_data) s recs).
Proof.
  revert s. induction recs as [|ir recs IH]; intros s Hn; [done|].
  cbn [foldl]. by apply IH, fill_gap_notes.
Qed.

Lemma fold_fill_gap_at recs s i r :
  NoDup recs.*1 → (i, r) ∈ recs →
  ∃ s0, shares s0 !! i = shares s !! i
        ∧ shares (foldl (fill_gap stock_name stock_data) s recs) !! i
          = shares (fill_gap stock_name stock_data s0 (i, r)) !! i
        ∧ ∀ n, n ∈ notes (fill_gap stock_name stock_data s0 (i, r)) →
               n ∈ notes (foldl (fill_gap stock_name stock_data) s recs).
Proof.
  intros Hnd (l1 & l2 & ->)%list_elem_of_split.
  rewrite fmap_app, fmap_cons in Hnd.
  apply NoDup_app in Hnd as (_ & Hl1 & [Hl2 _]%NoDup_cons).
  exists (foldl (fill_gap stock_name stock_data) s l1).
  rewrite foldl_app. cbn [foldl]. split_and!.
  - apply fold_fill_gap_other. intros Hin. apply (Hl1 i Hin). left.
  - by apply fold_fill_gap_other.
  - intros n. apply fold_fill_gap_notes.
Qed.

Lemma fold_fill_gap_stats recs s :
  Forall (λ ir, is_Some (Date ir.2)) recs →
  let gaps := filter (λ ir, pd_notna (cell ir.2 stock_name) = false) recs in
  stats (foldl (fill_gap stock_name stock_data) s recs)
  = Stats (filled (stats s)
           + length (filter (λ ir, has_prior stock_data ir.2) gaps))
          (skipped (stats s)
           + length (filter (λ ir, ¬ has_prior stock_data ir.2) gaps)).
Proof.
  simpl. revert s. induction recs as [|[i r] recs IH]; intros s Hd.
  { destruct s as [? [] ? ?]. simpl. by rewrite !Nat.add_0_r. }
  apply Forall_cons in Hd as [Hr Hd]. cbn [foldl].
  rewrite IH, fill_gap_stats, filter_cons by done. simpl.
  destruct (pd_notna (cell r stock_name)); simpl; [done|].
  rewrite !filter_cons. simpl.
  destruct (decide (has_prior stock_data r)).
  - rewrite decide_False by tauto. simpl. f_equal; lia.
  - rewrite decide_True by done. simpl. f_equal; lia.
Qed.

End FillGap.

Lemma idxmax_aux_None s x : idxmax_aux s = None → Some x ∉ s.
Proof.
  induction s as [|d s IH]; simpl; intros E Hx.
  { by apply elem_of_nil in Hx. }
  destruct d as [y|].
  - by destruct (idxmax_aux s) as [[j m]|]; simpl in E; [destruct (y <? m)|].
  - apply elem_of_cons in Hx as [[=]|Hx]. apply IH; [|done].
    by destruct (idxmax_aux s).
Qed.

Lemma idxmax_aux_greatest s i m :
  idxmax_aux s = Some (i, m) → ∀ x, Some x ∈ s → x ≤ m.
Proof.
  revert i m. induction s as [|d s IH]; intros i m; simpl; [done|].
  destruct (idxmax_aux s) as [[j m']|] eqn:E; simpl.
  - specialize (IH j m' eq_refl). destruct d as [y|]; simpl.
    + destruct (Z.ltb_spec y m'); intros [= <- <-] x [[= ->]|Hx]%elem_of_cons;
        try lia; specialize (IH x Hx); lia.
    + intros [= <- <-] x [[=]|Hx]%elem_of_cons. by apply IH.
  - destruct d as [y|]; simpl; [|done].
    intros [= <- <-] x [[= ->]|Hx]%elem_of_cons; [lia|].
    by apply idxmax_aux_None with (x := x) in E.
Qed.

Lemma elem_of_recent_records start_date (l : list row) i r :
  (i, r) ∈ recent_records start_date l
  ↔ l !! i = Some r ∧ date_le (Some start_date) (Date r).
Proof.
  unfold recent_records. rewrite list_elem_of_filter, elem_of_lookup_imap. simpl.
  split.
  - intros [Hle (j & y & [= -> ->] & Hj)]. done.
  - intros [Hi Hle]. split; [done|]. by exists i, r.
Qed.

Lemma recent_records_NoDup start_date (l : list row) :
  NoDup (recent_records start_date l).*1.
Proof.
  unfold recent_records.
  apply (sublist_NoDup _ (imap pair l).*1).
  - assert ((imap pair l).*1 = seq 0 (length l)) as ->; [|apply NoDup_seq].
    apply list_eq. intros i.
    rewrite list_lookup_fmap, list_lookup_imap.
    destruct (l !! i) as [r|] eqn:E; simpl.
    + symmetry. apply lookup_seq. split; [done|]. by eapply lookup_lt_Some.
    + symmetry. apply lookup_seq_ge. by apply lookup_ge_None.
  - apply fmap_sublist, sublist_filter.
Qed.

Lemma recent_records_dated start_date (l : list row) :
  Forall (λ ir, is_Some (Date ir.2)) (recent_records start_date l).
Proof.
  apply Forall_forall. intros [i r] [_ Hle]%elem_of_recent_records. simpl.
  by destruct (Date r).
Qed.

Lemma elem_of_gap_candidates stock_name start_date (l : list row) i r :
  (i, r) ∈ gap_candidates stock_name start_date l
  ↔ l !! i = Some r ∧ pd_notna (cell r stock_name) = false
    ∧ ∃ d, Date r = Some d ∧ start_date ≤ d.
Proof.
  unfold gap_candidates. rewrite list_elem_of_filter, elem_of_recent_records.
  simpl. split.
  - intros (Hna & Hi & Hle). split_and!; [done..|].
    destruct (Date r) as [d|]; [by exists d | done].
  - intros (Hi & Hna & d & Hd & Hle). by rewrite Hd.
Qed.

(** *** What a step of the loops does to the state *)

Lemma same_column_refl stock_name (l : list row) : same_column stock_name l l.
Proof. apply Forall_Forall2_diag, Forall_forall. done. Qed.

Lemma same_column_trans stock_name (l1 l2 l3 : list row) :
  same_column stock_name l1 l2 → same_column stock_name l2 l3 →
  same_column stock_name l1 l3.
Proof.
  intros H12. revert l3. induction H12 as [|r1 r2 l1 l2 [Hd Hv] _ IH];
    intros l3 H23; inversion H23 as [|? r3 ? l3' [Hd' Hv'] Hrest]; subst;
    constructor; [|by apply IH].
  split; congruence.
Qed.

Lemma same_column_lookup stock_name (l l' : list row) i r :
  same_column stock_name l l' → l !! i = Some r →
  ∃ r', l' !! i = Some r' ∧ Date r' = Date r
        ∧ vals r' !! stock_name = vals r !! stock_name.
Proof.
  intros Hsame Hi. destruct (Forall2_lookup_l _ _ _ _ _ Hsame Hi) as (r' & Hi' & H).
  exists r'. by destruct H.
Qed.

Lemma same_column_set_loc stock_name other i v (l : list row) :
  other ≠ stock_name → same_column other l (set_loc i stock_name v l).
Proof.
  intros Hne. unfold set_loc. destruct (l !! i) as [r|] eqn:Hi;
    [|apply same_column_refl].
  apply Forall2_same_length_lookup. split; [by rewrite length_insert|].
  intros j r0 r1 H0 H1. destruct (decide (j = i)) as [->|Hj].
  - rewrite list_lookup_insert_eq in H1 by (by eapply lookup_lt_Some).
    simplify_eq. split; [done|]. simpl. by rewrite lookup_insert_ne.
  - rewrite list_lookup_insert_ne in H1 by done. by simplify_eq.
Qed.

Section FillGapSummary.
Context (stock_name : string) (stock_data : gmap Z float).

Lemma gap_price_exact r t v :
  pd_notna (cell r stock_name) = false → Date r = Some t →
  stock_data !! t = Some v →
  gap_price stock_name stock_data r = Some (t, py_round 2 v).
Proof. intros Hna Hd Hv. unfold gap_price. by rewrite Hna, Hd, Hv. Qed.

Lemma gap_price_fallback r t d v :
  pd_notna (cell r stock_name) = false → Date r = Some t →
  stock_data !! t = None → stock_data !! d = Some v → d ≤ t →
  (∀ d', is_Some (stock_data !! d') → d' ≤ t → d' ≤ d) →
  gap_price stock_name stock_data r = Some (t, py_round 2 v).
Proof.
  intros Hna Hd Hnone Hv Hle Hmax. unfold gap_price.
  rewrite Hna, Hd, Hnone. rewrite (date_max_greatest _ d).
  - unfold close_at. by rewrite Hv.
  - apply list_elem_of_filter. split; [done|]. apply elem_of_index_of. eauto.
  - intros x [Hx Hin]%list_elem_of_filter. apply Hmax; [|done].
    by apply elem_of_index_of.
Qed.

Lemma gap_price_unresolved r t :
  Date r = Some t →
  (∀ d', is_Some (stock_data !! d') → ¬ d' ≤ t) →
  gap_price stock_name stock_data r = None.
Proof.
  intros Hd Hno. unfold gap_price. destruct (pd_notna _); [done|]. rewrite Hd.
  destruct (stock_data !! t) as [v|] eqn:Hv.
  { destruct (Hno t); [eauto | lia]. }
  rewrite filter_none; [done|].
  intros x Hx. apply Hno. by apply elem_of_index_of.
Qed.

Lemma fill_gap_summary s i r :
  let s' := fill_gap stock_name stock_data s (i, r) in
  (shares s' = match gap_price stock_name stock_data r with
               | Some tp => set_loc i stock_name tp.2 (shares s)
               | None => shares s
               end)
  ∧ filled_positions s'
    = filled_positions s
      ++ option_list ((λ tp, (i, stock_name, tp.1, tp.2))
                        <$> gap_price stock_name stock_data r)
  ∧ ∃ ns, notes s' = notes s ++ ns
          ∧ Forall (λ n, note_stock n = stock_name) ns
          ∧ filled (stats s')
            = (filled (stats s) + length (filter (λ n, is_fill_note n = true) ns))%nat
          ∧ skipped (stats s')
            = (skipped (stats s) + length (filter (λ n, is_fill_note n = false) ns))%nat.
Proof.
  cbv zeta. unfold fill_gap, gap_price.
  destruct (pd_notna (cell r stock_name)).
  { simpl. rewrite app_nil_r. split_and!; [done..|]. exists [].
    rewrite app_nil_r. simpl. split_and!; [done | constructor | lia | lia]. }
  destruct (Date r) as [t|].
  2: { simpl. rewrite app_nil_r. split_and!; [done..|]. exists [].
       rewrite app_nil_r. simpl. split_and!; [done | constructor | lia | lia]. }
  destruct (stock_data !! t) as [close|].
  { simpl. split_and!; [done..|].
    exists [FilledExact stock_name t (py_round 2 close)].
    split_and!; [done | by repeat constructor | simpl; lia | simpl; lia]. }
  destruct (date_max _) as [d|].
  { simpl. split_and!; [done..|].
    exists [FilledFrom stock_name t (py_round 2 (close_at stock_data d)) d].
    split_and!; [done | by repeat constructor | simpl; lia | simpl; lia]. }
  simpl. rewrite app_nil_r. split_and!; [done..|].
  exists [NoData stock_name t].
  split_and!; [done | by repeat constructor | simpl; lia | simpl; lia].
Qed.

Lemma fold_fill_gap_summary recs s :
  let s' := foldl (fill_gap stock_name stock_data) s recs in
  (∀ other, other ≠ stock_name → same_column other (shares s) (shares s'))
  ∧ filled_positions s'
    = filled_positions s
      ++ omap (λ ir, (λ tp, (ir.1, stock_name, tp.1, tp.2))
                       <$> gap_price stock_name stock_data ir.2) recs
  ∧ ∃ ns, notes s' = notes s ++ ns
          ∧ Forall (λ n, note_stock n = stock_name) ns
          ∧ filled (stats s')
            = (filled (stats s) + length (filter (λ n, is_fill_note n = true) ns))%nat
          ∧ skipped (stats s')
            = (skipped (stats s) + length (filter (λ n, is_fill_note n = false) ns))%nat.
Proof.
  revert s. induction recs as [|[i r] recs IH]; intros s; cbv zeta.
  { simpl. rewrite app_nil_r. split_and!; [intros; apply same_column_refl | done |].
    exists []. rewrite app_nil_r. simpl. split_and!; [done | constructor | lia | lia]. }
  cbn [foldl].
  destruct (fill_gap_summary s i r) as (Hsh & Hpos & ns1 & Hn1 & Hs1 & Hf1 & Hk1).
  destruct (IH (fill_gap stock_name stock_data s (i, r)))
    as (Hsame & Hpos' & ns2 & Hn2 & Hs2 & Hf2 & Hk2).
  cbv zeta in *. split_and!.
  - intros other Hne. eapply same_column_trans; [|by apply Hsame].
    rewrite Hsh. destruct (gap_price _ _ r); [|apply same_column_refl].
    by apply same_column_set_loc.
  - rewrite Hpos', Hpos, <- app_assoc. f_equal. simpl.
    by destruct (gap_price stock_name stock_data r).
  - exists (ns1 ++ ns2). rewrite Hn2, Hn1, <- app_assoc.
    rewrite !filter_app, !length_app.
    split_and!; [done | by apply Forall_app | lia | lia].
Qed.

End FillGapSummary.

Lemma set_loc_length i c v (l : list row) : length (set_loc i c v l) = length l.
Proof. unfold set_loc. destruct (l !! i); [apply length_insert | done]. Qed.

Lemma set_loc_lookup_other i c v (l : list row) idx stock_name r :
  ¬ (i = idx ∧ c = stock_name) → l !! idx = Some r →
  ∃ r', set_loc i c v l !! idx = Some r' ∧ Date r' = Date r
        ∧ vals r' !! stock_name = vals r !! stock_name.
Proof.
  intros Hkey Hidx. destruct (decide (i = idx)) as [->|Hi].
  - exists (set_cell r c v). split; [by apply set_loc_lookup_eq|].
    split; [done|]. simpl. apply lookup_insert_ne. intros ->. by apply Hkey.
  - exists r. by rewrite set_loc_lookup_ne.
Qed.

Lemma fold_fill_gap_positions stock_name stock_data recs s idx r :
  NoDup recs.*1 → (idx, r) ∈ recs →
  ∃ before after,
    filled_positions (foldl (fill_gap stock_name stock_data) s recs)
    = filled_positions s
      ++ before
      ++ option_list ((λ tp, (idx, stock_name, tp.1, tp.2))
                        <$> gap_price stock_name stock_data r)
      ++ after
    ∧ Forall (λ p : nat * string * Z * float, p.1.1.1 ≠ idx) before
    ∧ Forall (λ p : nat * string * Z * float, p.1.1.1 ≠ idx) after.
Proof.
  intros Hnd (l1 & l2 & ->)%list_elem_of_split.
  rewrite fmap_app, fmap_cons in Hnd.
  apply NoDup_app in Hnd as (_ & Hl1 & [Hl2 _]%NoDup_cons). simpl in *.
  destruct (fold_fill_gap_summary stock_name stock_data
              (l1 ++ (idx, r) :: l2) s) as (_ & -> & _).
  set (g := λ ir : nat * row,
              (λ tp : Z * float, (ir.1, stock_name, tp.1, tp.2))
                <$> gap_price stock_name stock_data ir.2).
  assert (∀ l : list (nat * row), idx ∉ l.*1 →
            Forall (λ p : nat * string * Z * float, p.1.1.1 ≠ idx) (omap g l))
    as Hfree.
  { intros l Hl. apply Forall_forall. intros p ([i r0] & Hin & Hg)%list_elem_of_omap.
    unfold g in Hg. simpl in Hg.
    destruct (gap_price stock_name stock_data r0) as [tp|]; simplify_eq/=.
    intros ->. apply Hl, list_elem_of_fmap. by exists (idx, r0). }
  exists (omap g l1), (omap g l2). split_and!.
  - f_equal. rewrite omap_app. f_equal. simpl. unfold g at 1. simpl.
    by destruct (gap_price stock_name stock_data r).
  - apply Hfree. intros Hin. by apply (Hl1 idx); [|left].
  - by apply Hfree.
Qed.

(** *** The conversion of the filled cells *)

Section ConvertFilled.
Context (USD_STOCKS : gset string) (currency_df : DataFrame).

Lemma convert_filled_app ps1 ps2 l :
  convert_filled USD_STOCKS currency_df (ps1 ++ ps2) l
  = convert_filled USD_STOCKS currency_df ps1 l
      ≫= convert_filled USD_STOCKS currency_df ps2.
Proof.
  revert l. induction ps1 as [|[[[i c] t] price] ps1 IH]; intros l; [done|].
  cbn [app convert_filled]. case_bool_decide; [|apply IH].
  destruct (get_usd_to_eur_rate currency_df (Some t)) as [[rate|]|e];
    [apply IH | apply IH | done].
Qed.

Lemma convert_filled_length ps l l' :
  convert_filled USD_STOCKS currency_df ps l = Ok l' → length l' = length l.
Proof.
  revert l. induction ps as [|[[[i c] t] price] ps IH]; intros l Hok.
  { by simplify_eq/=. }
  cbn [convert_filled] in Hok. case_bool_decide; [|by apply IH].
  destruct (get_usd_to_eur_rate currency_df (Some t)) as [[rate|]|e];
    [|by apply IH | done].
  apply IH in Hok. by rewrite Hok, set_loc_length.
Qed.

Lemma convert_filled_other ps l l' idx stock_name r :
  Forall (λ p : nat * string * Z * float,
            ¬ (p.1.1.1 = idx ∧ p.1.1.2 = stock_name)) ps →
  convert_filled USD_STOCKS currency_df ps l = Ok l' →
  l !! idx = Some r →
  ∃ r', l' !! idx = Some r' ∧ Date r' = Date r
        ∧ vals r' !! stock_name = vals r !! stock_name.
Proof.
  revert l r. induction ps as [|[[[i c] t] price] ps IH]; intros l r Hfree Hok Hidx.
  { simplify_eq/=. by exists r. }
  apply Forall_cons in Hfree as [Hkey Hfree]. simpl in Hkey.
  cbn [convert_filled] in Hok. case_bool_decide; [|by eapply IH].
  destruct (get_usd_to_eur_rate currency_df (Some t)) as [[rate|]|e];
    [|by eapply IH | done].
  simpl in Hok.
  destruct (set_loc_lookup_other i c
              (convert_usd_to_eur price (Some rate)) l idx stock_name r Hkey Hidx)
    as (r1 & Hr1 & Hd1 & Hv1).
  destruct (IH _ r1 Hfree Hok Hr1) as (r' & Hr' & Hd' & Hv').
  exists r'. split_and!; [done | congruence | congruence].
Qed.

Lemma convert_filled_one idx stock_name t price l l' r :
  convert_filled USD_STOCKS currency_df [(idx, stock_name, t, price)] l = Ok l' →
  l !! idx = Some r → vals r !! stock_name = Some price →
  ∃ r', l' !! idx = Some r' ∧ Date r' = Date r
        ∧ vals r' !! stock_name
          = Some (stored_price USD_STOCKS currency_df stock_name t price).
Proof.
  intros Hok Hidx Hcell. cbn [convert_filled] in Hok. unfold stored_price.
  case_bool_decide; [|simplify_eq/=; by exists r].
  destruct (get_usd_to_eur_rate currency_df (Some t)) as [[rate|]|e];
    [|simplify_eq/=; by exists r | done].
  simpl in Hok. simplify_eq.
  exists (set_cell r stock_name (convert_usd_to_eur price (Some rate))).
  split; [by apply set_loc_lookup_eq|]. split; [done|]. simpl.
  apply lookup_insert_eq.
Qed.

Lemma convert_filled_at before after idx stock_name filled_cell l l' r :
  Forall (λ p : nat * string * Z * float,
            ¬ (p.1.1.1 = idx ∧ p.1.1.2 = stock_name)) before →
  Forall (λ p : nat * string * Z * float,
            ¬ (p.1.1.1 = idx ∧ p.1.1.2 = stock_name)) after →
  convert_filled USD_STOCKS currency_df
    (before
     ++ option_list ((λ tp : Z * float, (idx, stock_name, tp.1, tp.2)) <$> filled_cell)
     ++ after) l = Ok l' →
  l !! idx = Some r →
  (∀ tp, filled_cell = Some tp → vals r !! stock_name = Some tp.2) →
  ∃ r', l' !! idx = Some r' ∧ Date r' = Date r
        ∧ vals r' !! stock_name
          = match filled_cell with
            | Some tp => Some (stored_price USD_STOCKS currency_df stock_name tp.1 tp.2)
            | None => vals r !! stock_name
            end.
Proof.
  intros Hbefore Hafter Hok Hidx Hcell.
  rewrite convert_filled_app in Hok.
  destruct (convert_filled USD_STOCKS currency_df before l) as [l1|e] eqn:E1;
    simpl in Hok; [|done].
  rewrite convert_filled_app in Hok.
  destruct (convert_filled_other _ _ _ _ _ _ Hbefore E1 Hidx)
    as (r1 & Hr1 & Hd1 & Hv1).
  destruct (convert_filled USD_STOCKS currency_df
              (option_list ((λ tp : Z * float, (idx, stock_name, tp.1, tp.2))
                              <$> filled_cell)) l1) as [l2|e] eqn:E2;
    simpl in Hok; [|done].
  destruct filled_cell as [[t price]|]; simpl in E2.
  - destruct (convert_filled_one idx stock_name t price l1 l2 r1)
      as (r2 & Hr2 & Hd2 & Hv2); [done | done | |].
    { rewrite Hv1. by apply (Hcell (t, price)). }
    destruct (convert_filled_other _ _ _ _ _ _ Hafter Hok Hr2)
      as (r' & Hr' & Hd' & Hv').
    exists r'. simpl. split_and!; [done | congruence | congruence].
  - simplify_eq.
    destruct (convert_filled_other _ _ _ _ _ _ Hafter Hok Hr1)
      as (r' & Hr' & Hd' & Hv').
    exists r'. split_and!; [done | congruence | congruence].
Qed.

Lemma convert_filled_same_column ps l l' stock_name :
  Forall (λ p : nat * string * Z * float, p.1.1.2 ≠ stock_name) ps →
  convert_filled USD_STOCKS currency_df ps l = Ok l' →
  same_column stock_name l l'.
Proof.
  intros Hfree Hok. apply Forall2_same_length_lookup.
  split; [symmetry; by eapply convert_filled_length|].
  intros i r r' Hr Hr'.
  destruct (convert_filled_other ps l l' i stock_name r) as (r1 & Hr1 & H);
    [|done|done|by simplify_eq].
  eapply Forall_impl; [exact Hfree|]. simpl. intros p Hp [_ Hname]. done.
Qed.

End ConvertFilled.

(** *** The gaps of a column do not depend on the other columns *)

Lemma same_column_cell stock_name (r r' : row) :
  vals r' !! stock_name = vals r !! stock_name →
  cell r' stock_name = cell r stock_name.
Proof. unfold cell. by intros ->. Qed.

Lemma gap_candidates_same_column stock_name start_date (Q : row → Prop)
    `{∀ r, Decision (Q r)} (l l' : list row) :
  same_column stock_name l l' →
  (∀ r r', Date r' = Date r → Q r ↔ Q r') →
  length (filter (λ ir : nat * row, Q ir.2) (gap_candidates stock_name start_date l))
  = length (filter (λ ir : nat * row, Q ir.2)
                   (gap_candidates stock_name start_date l')).
Proof.
  intros Hsame HQ. unfold gap_candidates, recent_records.
  rewrite !list_filter_filter.
  change (imap pair l) with (imap (λ i (x : row), (id i, x)) l).
  change (imap pair l') with (imap (λ i (x : row), (id i, x)) l').
  generalize (@id nat). induction Hsame as [|r r' l l' [Hd Hv] _ IH]; intros g;
    [done|].
  rewrite !imap_cons, !filter_cons.
  specialize (IH (g ∘ S)). simpl in *.
  apply same_column_cell in Hv. rewrite Hv, Hd.
  specialize (HQ r r' Hd).
  repeat case_decide; simpl;
    first [f_equal; exact IH | exact IH | exfalso; tauto].
Qed.

Lemma gap_counts_same_column yf_download cols start_date last_date l l' item :
  same_column item.1 l l' →
  gap_counts yf_download cols start_date last_date l' item
  = gap_counts yf_download cols start_date last_date l item.
Proof.
  intros Hsame. unfold gap_counts. case_bool_decide; [|done].
  destruct (yf_download item.2 start_date (last_date + 1)) as [stock_data|]; [|done].
  case_bool_decide; [done|]. cbv zeta. f_equal; symmetry.
  - apply gap_candidates_same_column; [done|].
    intros r r' Hd. unfold has_prior. by rewrite Hd.
  - apply (@gap_candidates_same_column item.1 start_date
             (λ r, ¬ has_prior stock_data r)
             (λ r, not_dec (has_prior_dec stock_data r)) l l'); [done|].
    intros r r' Hd. unfold has_prior. by rewrite Hd.
Qed.

Section PriceGaps.
Context (yf_download : string → Z → Z → result (gmap Z float)).

Lemma fill_stock_nonempty cols start_date last_date s stock_name ticker stock_data :
  stock_name ∈ cols →
  yf_download ticker start_date (last_date + 1) = Ok stock_data →
  stock_data ≠ ∅ →
  fill_stock yf_download cols start_date last_date s (stock_name, ticker)
  = foldl (fill_gap stock_name stock_data) s (recent_records start_date (shares s)).
Proof.
  intros Hcol Hdl Hne. unfold fill_stock.
  rewrite bool_decide_eq_true_2, Hdl by done.
  rewrite bool_decide_eq_false_2; [done|]. by apply map_size_non_empty_iff.
Qed.

Lemma fill_stock_summary cols start_date last_date s item :
  let s' := fill_stock yf_download cols start_date last_date s item in
  (∀ other, other ≠ item.1 → same_column other (shares s) (shares s'))
  ∧ (∃ ps, filled_positions s' = filled_positions s ++ ps
           ∧ Forall (λ p : nat * string * Z * float, p.1.1.2 = item.1) ps)
  ∧ (∃ ns, notes s' = notes s ++ ns
           ∧ Forall (λ n, note_stock n = item.1) ns
           ∧ filled (stats s')
             = (filled (stats s)
                + length (filter (λ n, is_fill_note n = true) ns))%nat
           ∧ skipped (stats s')
             = (skipped (stats s)
                + length (filter (λ n, is_fill_note n = false) ns)
                + if query_raised yf_download cols start_date last_date item
                  then 1 else 0)%nat)
  ∧ stats s'
    = Stats (filled (stats s)
             + (gap_counts yf_download cols start_date last_date (shares s) item).1)
            (skipped (stats s)
             + (gap_counts yf_download cols start_date last_date (shares s) item).2).
Proof.
  destruct item as [stock_name ticker]. cbv zeta.
  assert (∀ s0 : fill_state,
            (∀ other, other ≠ stock_name → same_column other (shares s0) (shares s0))
            ∧ (∃ ps, filled_positions s0 = filled_positions s0 ++ ps
                     ∧ Forall (λ p : nat * string * Z * float,
                                 p.1.1.2 = stock_name) ps)
            ∧ (∃ ns, notes s0 = notes s0 ++ ns
                     ∧ Forall (λ n, note_stock n = stock_name) ns
                     ∧ filled (stats s0)
                       = (filled (stats s0)
                          + length (filter (λ n, is_fill_note n = true) ns))%nat
                     ∧ skipped (stats s0)
                       = (skipped (stats s0)
                          + length (filter (λ n, is_fill_note n = false) ns)
                          + 0)%nat)
            ∧ stats s0 = Stats (filled (stats s0) + 0) (skipped (stats s0) + 0))
    as Hsame.
  { intros s0. split_and!.
    - intros. apply same_column_refl.
    - exists []. by rewrite app_nil_r.
    - exists []. rewrite app_nil_r. simpl. split_and!; [done | constructor | lia | lia].
    - destruct s0 as [? [] ? ?]. simpl. f_equal; lia. }
  unfold fill_stock, query_raised, gap_counts. simpl.
  case_bool_decide as Hcol; simpl; [|apply Hsame].
  destruct (yf_download ticker start_date (last_date + 1)) as [stock_data|e].
  - case_bool_decide as Hsize; simpl; [apply Hsame|].
    destruct (fold_fill_gap_summary stock_name stock_data
                (recent_records start_date (shares s)) s)
      as (Hcols & Hpos & ns & Hns & Hnames & Hfilled & Hskipped).
    split_and!; [done | | |].
    + eexists. split; [exact Hpos|]. apply Forall_forall.
      intros p ([i r] & Hin & Hg)%list_elem_of_omap. simpl in Hg.
      by destruct (gap_price stock_name stock_data r); simplify_eq/=.
    + exists ns. split_and!; [done | done | done | lia].
    + apply fold_fill_gap_stats, recent_records_dated.
  - simpl. split_and!.
    + intros. apply same_column_refl.
    + exists []. by rewrite app_nil_r.
    + exists []. rewrite app_nil_r. simpl. split_and!; [done | constructor | lia | lia].
    + f_equal; lia.
Qed.

Lemma fold_fill_stock_summary cols start_date last_date l s :
  let s' := foldl (fill_stock yf_download cols start_date last_date) s l in
  (∀ other, other ∉ l.*1 → same_column other (shares s) (shares s'))
  ∧ (∃ ps, filled_positions s' = filled_positions s ++ ps
           ∧ Forall (λ p : nat * string * Z * float, p.1.1.2 ∈ l.*1) ps)
  ∧ ∃ ns, notes s' = notes s ++ ns
          ∧ Forall (λ n, note_stock n ∈ l.*1) ns
          ∧ filled (stats s')
            = (filled (stats s)
               + length (filter (λ n, is_fill_note n = true) ns))%nat
          ∧ skipped (stats s')
            = (skipped (stats s)
               + length (filter (λ n, is_fill_note n = false) ns)
               + length (filter (λ item,
                                   query_raised yf_download cols start_date
                                                last_date item = true) l))%nat.
Proof.
  revert s. induction l as [|item l IH]; intros s; cbv zeta.
  { simpl. split_and!.
    - intros. apply same_column_refl.
    - exists []. by rewrite app_nil_r.
    - exists []. rewrite app_nil_r. simpl. split_and!; [done | constructor | lia | lia]. }
  cbn [foldl].
  destruct (fill_stock_summary cols start_date last_date s item)
    as (Hc1 & (ps1 & Hp1 & Hq1) & (ns1 & Hn1 & Hm1 & Hf1 & Hk1) & _).
  destruct (IH (fill_stock yf_download cols start_date last_date s item))
    as (Hc2 & (ps2 & Hp2 & Hq2) & (ns2 & Hn2 & Hm2 & Hf2 & Hk2)).
  cbv zeta in *. split_and!.
  - intros other Hother. rewrite fmap_cons, not_elem_of_cons in Hother.
    destruct Hother as [Hne Hother].
    eapply same_column_trans; [by apply Hc1 | by apply Hc2].
  - exists (ps1 ++ ps2). rewrite Hp2, Hp1, <- app_assoc. split; [done|].
    apply Forall_app. split.
    + eapply Forall_impl; [exact Hq1|]. simpl. intros p ->. left.
    + eapply Forall_impl; [exact Hq2|]. simpl. intros p Hp. by right.
  - exists (ns1 ++ ns2). rewrite Hn2, Hn1, <- app_assoc.
    rewrite !filter_app, !length_app, filter_cons.
    split_and!; [done | | lia |].
    + apply Forall_app. split.
      * eapply Forall_impl; [exact Hm1|]. simpl. intros n ->. left.
      * eapply Forall_impl; [exact Hm2|]. simpl. intros n Hn. by right.
    + rewrite Hk2, Hk1.
      destruct (query_raised yf_download cols start_date last_date item);
        [rewrite decide_True by done | rewrite decide_False by done];
        simpl; lia.
Qed.

Lemma fill_stock_idle cols start_date last_date s stock_name ticker :
  stock_name ∉ cols
  ∨ yf_download ticker start_date (last_date + 1) = Ok ∅
  ∨ (∃ e, yf_download ticker start_date (last_date + 1) = Raise e) →
  let s' := fill_stock yf_download cols start_date last_date s (stock_name, ticker) in
  shares s' = shares s ∧ filled_positions s' = filled_positions s
  ∧ notes s' = notes s.
Proof.
  intros Hidle. cbv zeta. unfold fill_stock. case_bool_decide; [|done].
  destruct Hidle as [?|[->|[e ->]]]; [done| |done].
  by rewrite map_size_empty.
Qed.

Lemma fold_fill_stock_stats cols start_date last_date original l s :
  NoDup l.*1 →
  (∀ item, item ∈ l → same_column item.1 original (shares s)) →
  stats (foldl (fill_stock yf_download cols start_date last_date) s l)
  = Stats (filled (stats s)
           + sum_list ((λ item, (gap_counts yf_download cols start_date last_date
                                            original item).1) <$> l))
          (skipped (stats s)
           + sum_list ((λ item, (gap_counts yf_download cols start_date last_date
                                            original item).2) <$> l)).
Proof.
  revert s. induction l as [|item l IH]; intros s Hnd Hsame.
  { destruct s as [? [] ? ?]. simpl. f_equal; lia. }
  rewrite fmap_cons in Hnd. apply NoDup_cons in Hnd as [Hitem Hnd].
  cbn [foldl].
  destruct (fill_stock_summary cols start_date last_date s item)
    as (Hcols & _ & _ & Hstats).
  rewrite IH; [|done|].
  - rewrite Hstats. simpl.
    rewrite (gap_counts_same_column _ _ _ _ original (shares s) item)
      by (apply Hsame; left).
    f_equal; symmetry; apply Nat.add_assoc.
  - intros item' Hin. eapply same_column_trans; [apply Hsame; by right|].
    apply Hcols. intros Heq. apply Hitem. rewrite <- Heq.
    apply list_elem_of_fmap. by exists item'.
Qed.

Lemma fill_missing_stock_data_unfold STOCKS USD_STOCKS shares_df currency_df
    lookback_days last_date :
  snd <$> idxmax_aux (Date <$> rows shares_df) = Some last_date →
  fill_missing_stock_data STOCKS USD_STOCKS yf_download shares_df currency_df
                          lookback_days
  = let s := foldl (fill_stock yf_download (columns shares_df)
                               (last_date - lookback_days) last_date)
                   (FillState (rows shares_df) (Stats 0 0) [] []) STOCKS in
    l ← convert_filled USD_STOCKS currency_df (filled_positions s) (shares s);
    Ok (Frame (columns shares_df) l, stats s, notes s).
Proof.
  intros Hlast. unfold fill_missing_stock_data.
  destruct (rows shares_df) as [|r0 l0]; [discriminate|].
  by rewrite Hlast.
Qed.

(** C3, as the code has it.  [fill_missing_stock_data] is run on a table
    whose latest date is [last_date], with the stocks of [STOCKS] under
    distinct names, and returns the table [filled_df], the counters [st]
    and the lines [printed].  For a stock that is a column of the table
    and for which the provider answers with at least one observation,
    every row of the window whose cell is NaN comes back as follows.  If
    the answer has a close for the date of the row and that close is a
    number, the cell holds the close rounded to two decimals - converted
    to euros at the as-of rate when the stock is one of [USD_STOCKS] and
    the currency table has a rate - and the line printed is that of an
    exact fill.  Otherwise, if the answer has a date at or before the
    date of the row and the close of the latest such date is a number,
    the cell holds that close, rounded and converted alike, and the line
    names that date.  If the answer has no date at or before the date of
    the row, the cell comes back as it was and the line reports that no
    data is available.  For a stock that is no column, or for which the
    provider answers with no observation or raises, the column comes
    back as it was and no line is printed.  [skipped] is the number of
    gaps, over the stocks with an answer, that have no provider date at
    or before them, plus one for each stock whose query raised; it is
    also the number of lines that report no data plus the number of
    queries that raised.  When every close of every answer is a number,
    [filled] is the number of gaps that have a provider date at or
    before them, and the number of fill lines.  The statement is about
    closes that are numbers; [price_gap_nan_close] shows what the code
    does with a close that is NaN. *)
Theorem price_gap_resolution (STOCKS : list (string * string))
    (USD_STOCKS : gset string) (shares_df currency_df : DataFrame)
    lookback_days last_date filled_df st printed :
  NoDup STOCKS.*1 →
  snd <$> idxmax_aux (Date <$> rows shares_df) = Some last_date →
  fill_missing_stock_data STOCKS USD_STOCKS yf_download shares_df currency_df
                          lookback_days
  = Ok (filled_df, st, printed) →
  let start_date := last_date - lookback_days in
  let cols := columns shares_df in
  (∀ stock_name ticker,
     (stock_name, ticker) ∈ STOCKS →
     (stock_name ∈ cols →
      ∀ stock_data,
        yf_download ticker start_date (last_date + 1) = Ok stock_data →
        stock_data ≠ ∅ →
        ∀ idx r target,
          rows shares_df !! idx = Some r → Date r = Some target →
          start_date ≤ target → pd_notna (cell r stock_name) = false →
          ∃ r', rows filled_df !! idx = Some r' ∧ Date r' = Some target
                ∧ (∀ v, stock_data !! target = Some v → pd_notna v = true →
                     vals r' !! stock_name
                     = Some (stored_price USD_STOCKS currency_df stock_name target
                                          (py_round 2 v))
                     ∧ FilledExact stock_name target (py_round 2 v) ∈ printed)
                ∧ (∀ d v, stock_data !! target = None →
                     stock_data !! d = Some v → d ≤ target →
                     (∀ d', is_Some (stock_data !! d') → d' ≤ target → d' ≤ d) →
                     pd_notna v = true →
                     vals r' !! stock_name
                     = Some (stored_price USD_STOCKS currency_df stock_name target
                                          (py_round 2 v))
                     ∧ FilledFrom stock_name target (py_round 2 v) d ∈ printed)
                ∧ ((∀ d', is_Some (stock_data !! d') → ¬ d' ≤ target) →
                   vals r' !! stock_name = vals r !! stock_name
                   ∧ NoData stock_name target ∈ printed))
     ∧ (stock_name ∉ cols
        ∨ yf_download ticker start_date (last_date + 1) = Ok ∅
        ∨ (∃ e, yf_download ticker start_date (last_date + 1) = Raise e) →
        same_column stock_name (rows shares_df) (rows filled_df)
        ∧ ∀ n, n ∈ printed → note_stock n ≠ stock_name))
  ∧ skipped st
    = sum_list ((λ item, (gap_counts yf_download cols start_date last_date
                                     (rows shares_df) item).2) <$> STOCKS)
  ∧ skipped st
    = (length (filter (λ n, is_fill_note n = false) printed)
       + length (filter (λ item, query_raised yf_download cols start_date last_date
                                              item = true) STOCKS))%nat
  ∧ ((∀ stock_name ticker stock_data d v,
        (stock_name, ticker) ∈ STOCKS → stock_name ∈ cols →
        yf_download ticker start_date (last_date + 1) = Ok stock_data →
        stock_data !! d = Some v → pd_notna v = true) →
     filled st
     = sum_list ((λ item, (gap_counts yf_download cols start_date last_date
                                      (rows shares_df) item).1) <$> STOCKS)
     ∧ filled st = length (filter (λ n, is_fill_note n = true) printed)).
Proof.
  intros Hnd Hlast Hrun. cbv zeta.
  rewrite (fill_missing_stock_data_unfold _ _ _ _ _ _ Hlast) in Hrun.
  cbv zeta in Hrun.
  set (cols := columns shares_df) in *.
  set (start_date := last_date - lookback_days) in *.
  set (s0 := FillState (rows shares_df) (Stats 0 0) [] []) in *.
  destruct (convert_filled USD_STOCKS currency_df _ _) as [lF|e] eqn:Hconv;
    [|done].
  simpl in Hrun. injection Hrun as <- <- <-. simpl.
  split_and!.
  - intros stock_name ticker (l1 & l2 & HS)%list_elem_of_split.
    rewrite HS, fmap_app, fmap_cons in Hnd.
    apply NoDup_app in Hnd as (_ & Hl1 & [Hl2 _]%NoDup_cons). simpl in *.
    assert (stock_name ∉ l1.*1) as Hnot1.
    { intros Hin. by apply (Hl1 stock_name); [|left]. }
    clear Hl1. revert Hconv. rewrite HS, foldl_app. cbn [foldl]. intros Hconv.
    destruct (fold_fill_stock_summary cols start_date last_date l1 s0)
      as (Hc1 & (ps1 & Hp1 & Hq1) & (ns1 & Hn1 & Hm1 & _)).
    cbv zeta in *. specialize (Hc1 stock_name Hnot1).
    set (s1 := foldl (fill_stock yf_download cols start_date last_date) s0 l1) in *.
    destruct (fold_fill_stock_summary cols start_date last_date l2
                (fill_stock yf_download cols start_date last_date s1
                            (stock_name, ticker)))
      as (Hc3 & (ps3 & Hp3 & Hq3) & (ns3 & Hn3 & Hm3 & _)).
    cbv zeta in *. specialize (Hc3 stock_name Hl2).
    assert (Forall (λ p : nat * string * Z * float, p.1.1.2 ≠ stock_name) ps1)
      as Hfree1.
    { eapply Forall_impl; [exact Hq1|]. simpl. intros p Hp Heq. by rewrite Heq in Hp. }
    assert (Forall (λ p : nat * string * Z * float, p.1.1.2 ≠ stock_name) ps3)
      as Hfree3.
    { eapply Forall_impl; [exact Hq3|]. simpl. intros p Hp Heq. by rewrite Heq in Hp. }
    simpl in Hp1, Hn1.
    split.
    + intros Hcol stock_data Hdl Hne idx r target Hidx Hd Hstart Hna.
      rewrite (fill_stock_nonempty _ _ _ _ _ _ _ Hcol Hdl Hne) in *.
      destruct (same_column_lookup _ _ _ _ _ Hc1 Hidx) as (r1 & Hr1 & Hd1 & Hv1).
      assert (pd_notna (cell r1 stock_name) = false) as Hna1.
      { by rewrite (same_column_cell _ _ _ Hv1). }
      assert (Date r1 = Some target) as Hdate1 by congruence.
      assert ((idx, r1) ∈ recent_records start_date (shares s1)) as Hin.
      { apply elem_of_recent_records. by rewrite Hdate1. }
      destruct (fold_fill_gap_at stock_name stock_data _ s1 idx r1
                  (recent_records_NoDup _ _) Hin) as (sg & Hsg & Hsh & Hnotes).
      destruct (fold_fill_gap_positions stock_name stock_data _ s1 idx r1
                  (recent_records_NoDup _ _) Hin)
        as (before & after & Hpos & Hbefore & Hafter).
      destruct (fill_gap_summary stock_name stock_data sg idx r1)
        as (Hshg & _).
      cbv zeta in Hshg. rewrite Hr1 in Hsg.
      set (s2 := foldl (fill_gap stock_name stock_data) s1
                       (recent_records start_date (shares s1))) in *.
      assert (∃ r2, shares s2 !! idx = Some r2 ∧ Date r2 = Some target
                    ∧ vals r2 !! stock_name
                      = match gap_price stock_name stock_data r1 with
                        | Some tp => Some tp.2
                        | None => vals r !! stock_name
                        end) as (r2 & Hr2 & Hd2 & Hv2).
      { rewrite Hsh, Hshg.
        destruct (gap_price stock_name stock_data r1) as [tp|].
        - exists (set_cell r1 stock_name tp.2).
          split; [by apply set_loc_lookup_eq|]. split; [done|].
          simpl. apply lookup_insert_eq.
        - by exists r1. }
      destruct (same_column_lookup _ _ _ _ _ Hc3 Hr2) as (r3 & Hr3 & Hd3 & Hv3).
      rewrite Hp3, Hpos, Hp1 in Hconv.
      assert (∀ other : list (nat * string * Z * float),
                ((ps1 ++ before ++ other ++ after) ++ ps3)
                = (ps1 ++ before) ++ other ++ (after ++ ps3)) as Hassoc.
      { intros other. by rewrite <- !app_assoc. }
      rewrite Hassoc in Hconv.
      destruct (convert_filled_at USD_STOCKS currency_df _ _ idx stock_name
                  (gap_price stock_name stock_data r1) _ _ r3
                  ltac:(apply Forall_app; split;
                        [eapply Forall_impl; [exact Hfree1|]
                        |eapply Forall_impl; [exact Hbefore|]];
                        simpl; intros p Hp [H1 H2]; done)
                  ltac:(apply Forall_app; split;
                        [eapply Forall_impl; [exact Hafter|]
                        |eapply Forall_impl; [exact Hfree3|]];
                        simpl; intros p Hp [H1 H2]; done)
                  Hconv Hr3) as (r' & Hr' & Hd' & Hv').
      { intros tp Htp. rewrite Hv3, Hv2, Htp. done. }
      exists r'. split; [done|]. split; [congruence|].
      assert (∀ n, n ∈ notes s2 →
                   n ∈ notes (foldl (fill_stock yf_download cols start_date last_date)
                                    s2 l2)) as Hkeep.
      { intros n Hn. rewrite Hn3. apply elem_of_app. by left. }
      split_and!.
      * intros v Hv _.
        rewrite (gap_price_exact _ _ _ target v) in Hv' by done.
        split; [exact Hv'|]. apply Hkeep, Hnotes.
        rewrite (fill_gap_exact _ _ _ _ _ target v) by done.
        simpl. apply elem_of_app. right. left.
      * intros d v Hnone Hv Hle Hmax _.
        rewrite (gap_price_fallback _ _ _ target d v) in Hv' by done.
        split; [exact Hv'|]. apply Hkeep, Hnotes.
        rewrite (fill_gap_fallback _ _ _ _ _ target d v) by done.
        simpl. apply elem_of_app. right. left.
      * intros Hno.
        rewrite (gap_price_unresolved _ _ _ target) in Hv', Hv2 by done.
        split; [congruence|]. apply Hkeep, Hnotes.
        rewrite (fill_gap_unresolved _ _ _ _ _ target) by done.
        simpl. apply elem_of_app. right. left.
    + intros Hidle.
      destruct (fill_stock_idle cols start_date last_date s1 stock_name ticker Hidle)
        as (Hsh & Hpos & Hnotes). cbv zeta in *.
      rewrite Hsh in Hc3. rewrite Hpos in Hp3. rewrite Hnotes in Hn3.
      split.
      * eapply same_column_trans; [exact Hc1|].
        eapply same_column_trans; [exact Hc3|].
        eapply convert_filled_same_column; [|exact Hconv].
        rewrite Hp3, Hp1. simpl. by apply Forall_app.
      * intros n. rewrite Hn3, Hn1. simpl. rewrite elem_of_app.
        intros [Hn|Hn] Heq.
        -- apply Hnot1. rewrite <- Heq. by eapply Forall_forall in Hm1.
        -- apply Hl2. rewrite <- Heq. by eapply Forall_forall in Hm3.
  - rewrite (fold_fill_stock_stats cols start_date last_date (rows shares_df));
      [done | done |].
    intros. apply same_column_refl.
  - destruct (fold_fill_stock_summary cols start_date last_date STOCKS s0)
      as (_ & _ & ns & -> & _ & _ & ->). done.
  - intros _. split.
    + rewrite (fold_fill_stock_stats cols start_date last_date (rows shares_df));
        [done | done |].
      intros. apply same_column_refl.
    + destruct (fold_fill_stock_summary cols start_date last_date STOCKS s0)
        as (_ & _ & ns & -> & _ & -> & _). done.
Qed.


End PriceGaps.

(** Closed decidable facts are settled by evaluation. *)
Ltac by_evaluation := apply (bool_decide_unpack _); vm_compute; exact I.

(** Facts about every date of a concrete provider answer, by enumerating
    its index. *)
Ltac by_index H :=
  apply elem_of_index_of in H;
  match type of H with
  | _ ∈ index_of ?m =>
      let l := eval vm_compute in (index_of m) in
      change (index_of m) with l in H
  end;
  repeat (apply elem_of_cons in H as [->|H]);
  [..| by apply elem_of_nil in H].

Lemma price_gap_resolution_witness :
  match fill_missing_stock_data two_stocks {[ "IBM Share" ]} two_stock_provider
                                two_stock_shares usd_table 10 with
  | Ok (filled_df, st, printed) =>
      (∃ r', rows filled_df !! 2%nat = Some r' ∧ Date r' = Some (ymd 2024 1 3)
             ∧ vals r' !! "IBM Share" = Some 171.15%float
             ∧ FilledExact "IBM Share" (ymd 2024 1 3) 187.51 ∈ printed)
      ∧ (∃ r', rows filled_df !! 3%nat = Some r' ∧ Date r' = Some (ymd 2024 1 4)
               ∧ vals r' !! "IBM Share" = Some 171.15%float
               ∧ FilledFrom "IBM Share" (ymd 2024 1 4) 187.51 (ymd 2024 1 3)
                   ∈ printed)
      ∧ (∃ r', rows filled_df !! 0%nat = Some r' ∧ Date r' = Some (ymd 2024 1 1)
               ∧ vals r' !! "IBM Share" = Some nan
               ∧ NoData "IBM Share" (ymd 2024 1 1) ∈ printed)
      ∧ (∃ r', rows filled_df !! 2%nat = Some r' ∧ Date r' = Some (ymd 2024 1 3)
               ∧ vals r' !! "Allianz Share" = Some 241.34%float
               ∧ FilledExact "Allianz Share" (ymd 2024 1 3) 241.34 ∈ printed)
      ∧ filled st = 5%nat ∧ skipped st = 2%nat
      ∧ length (filter (λ n, is_fill_note n = true) printed) = 5%nat
  | Raise _ => False
  end.
Proof.
  destruct (fill_missing_stock_data two_stocks {[ "IBM Share" ]} two_stock_provider
              two_stock_shares usd_table 10) as [[[filled_df st] printed]|e] eqn:Hrun;
    [|vm_compute in Hrun; discriminate].
  assert (NoDup two_stocks.*1) as Hnd.
  { apply (bool_decide_unpack _). vm_compute. exact I. }
  destruct (price_gap_resolution two_stock_provider two_stocks {[ "IBM Share" ]}
              two_stock_shares usd_table 10 (ymd 2024 1 5) filled_df st printed
              Hnd eq_refl Hrun) as (Hstock & Hskipped & _ & Hfilled).
  cbv zeta in *.
  assert (ibm_closes ≠ ∅) as Hibm.
  { apply map_size_non_empty_iff. vm_compute. discriminate. }
  assert (alv_closes ≠ ∅) as Halv.
  { apply map_size_non_empty_iff. vm_compute. discriminate. }
  destruct (Hstock "IBM Share" "IBM") as [Hgaps _]; [by_evaluation|].
  specialize (Hgaps ltac:(by_evaluation) ibm_closes eq_refl Hibm).
  destruct (Hstock "Allianz Share" "ALV.DE") as [Hgaps' _]; [by_evaluation|].
  specialize (Hgaps' ltac:(by_evaluation) alv_closes eq_refl Halv).
  assert (∀ stock_name ticker stock_data d v,
            (stock_name, ticker) ∈ two_stocks →
            stock_name ∈ columns two_stock_shares →
            two_stock_provider ticker (ymd 2024 1 5 - 10) (ymd 2024 1 5 + 1)
            = Ok stock_data →
            stock_data !! d = Some v → pd_notna v = true) as Hnumbers.
  { intros stock_name ticker stock_data d v Hin _ Hdl Hv.
    assert (is_Some (stock_data !! d)) as Hd by eauto.
    unfold two_stocks in Hin.
    apply elem_of_cons in Hin as [Heq|Hin];
      [|apply list_elem_of_singleton in Hin as Heq]; injection Heq as -> ->.
    - change (Ok alv_closes = Ok stock_data) in Hdl. injection Hdl as <-.
      clear -Hd Hv. by_index Hd; vm_compute in Hv; injection Hv as <-; reflexivity.
    - change (Ok ibm_closes = Ok stock_data) in Hdl. injection Hdl as <-.
      clear -Hd Hv. by_index Hd; vm_compute in Hv; injection Hv as <-; reflexivity. }
  assert (stored_price {[ "IBM Share" ]} usd_table "IBM Share" (ymd 2024 1 3)
                       (py_round 2 187.512) = 171.15%float) as Hthird
    by (vm_compute; reflexivity).
  assert (stored_price {[ "IBM Share" ]} usd_table "IBM Share" (ymd 2024 1 4)
                       (py_round 2 187.512) = 171.15%float) as Hfourth
    by (vm_compute; reflexivity).
  assert (py_round 2 187.512 = 187.51%float) as Hibm_close
    by (vm_compute; reflexivity).
  assert (stored_price {[ "IBM Share" ]} usd_table "Allianz Share" (ymd 2024 1 3)
                       (py_round 2 241.337) = 241.34%float) as Halv_third
    by (vm_compute; reflexivity).
  assert (py_round 2 241.337 = 241.34%float) as Halv_close
    by (vm_compute; reflexivity).
  split_and!.
  - destruct (Hgaps 2%nat (two_stock_row (ymd 2024 1 3) nan nan) (ymd 2024 1 3))
      as (r' & Hr' & Hd' & Hexact & _);
      [reflexivity | reflexivity | vm_compute; discriminate | reflexivity |].
    exists r'. rewrite <- Hthird, <- Hibm_close. split_and!; [done | done | |];
      by apply (Hexact 187.512%float).
  - destruct (Hgaps 3%nat (two_stock_row (ymd 2024 1 4) nan nan) (ymd 2024 1 4))
      as (r' & Hr' & Hd' & _ & Hfrom & _);
      [reflexivity | reflexivity | vm_compute; discriminate | reflexivity |].
    exists r'. rewrite <- Hfourth, <- Hibm_close.
    assert (∀ d', is_Some (ibm_closes !! d') → d' ≤ ymd 2024 1 4 → d' ≤ ymd 2024 1 3)
      as Hmax.
    { intros d' Hd'' Hle. clear -Hd'' Hle. by_index Hd''; vm_compute in Hle |- *;
        first [discriminate | exfalso; apply Hle; reflexivity]. }
    split_and!; [done | done | |];
      apply (Hfrom (ymd 2024 1 3) 187.512%float);
      first [reflexivity | exact Hmax | vm_compute; discriminate].
  - destruct (Hgaps 0%nat (two_stock_row (ymd 2024 1 1) nan nan) (ymd 2024 1 1))
      as (r' & Hr' & Hd' & _ & _ & Hnone);
      [reflexivity | reflexivity | vm_compute; discriminate | reflexivity |].
    assert (∀ d', is_Some (ibm_closes !! d') → ¬ d' ≤ ymd 2024 1 1) as Hno.
    { intros d' Hd'' Hle. clear -Hd'' Hle.
      by_index Hd''; vm_compute in Hle; apply Hle; reflexivity. }
    exists r'. split_and!; [done | done | |]; by apply Hnone.
  - destruct (Hgaps' 2%nat (two_stock_row (ymd 2024 1 3) nan nan) (ymd 2024 1 3))
      as (r' & Hr' & Hd' & Hexact & _);
      [reflexivity | reflexivity | vm_compute; discriminate | reflexivity |].
    exists r'.
    split_and!; [done | done | rewrite <- Halv_third | rewrite <- Halv_close];
      by apply (Hexact 241.337%float).
  - rewrite (proj1 (Hfilled Hnumbers)). vm_compute. reflexivity.
  - rewrite Hskipped. vm_compute. reflexivity.
  - rewrite <- (proj2 (Hfilled Hnumbers)), (proj1 (Hfilled Hnumbers)).
    vm_compute. reflexivity.
Defined.

(** A close that is NaN is taken like any other.  The provider has
    240.5 for 2 January and NaN for 3 January: the gaps of 3 and
    4 January are reported and counted as filled, and their cells are as
    null as they were; no earlier close is looked for. *)
Example price_gap_nan_close :
  match fill_missing_stock_data stocks_example ∅ nan_close_provider gapped_shares
                                no_rates 10 with
  | Ok (filled_df, st, printed) =>
      st = Stats 2 1
      ∧ (λ r, pd_notna (cell r "Allianz Share")) <$> rows filled_df
        = [false; true; false; false; true]
      ∧ is_fill_note <$> printed = [false; true; true]
  | Raise _ => False
  end.
Proof. vm_compute. done. Qed.

(** C3 as stated fails when the provider answers with no data: the row of
    1 January is a gap candidate, the provider has no date at or before
    it, and yet nothing is counted as skipped and no line is printed. *)
Lemma silent_provider_gap_not_counted :
  (0%nat, alv_row (ymd 2024 1 1) nan)
    ∈ gap_candidates "Allianz Share" (ymd 2024 1 5 - 10) (rows gapped_shares)
  ∧ silent_provider "ALV.DE" (ymd 2024 1 5 - 10) (ymd 2024 1 5 + 1) = Ok ∅
  ∧ fill_stock silent_provider ["Allianz Share"] (ymd 2024 1 5 - 10) (ymd 2024 1 5)
               gapped_start ("Allianz Share", "ALV.DE") = gapped_start
  ∧ fill_missing_stock_data stocks_example ∅ silent_provider gapped_shares no_rates 10
    = Ok (gapped_shares, Stats 0 0, []).
Proof.
  split_and!; try reflexivity.
  apply elem_of_gap_candidates. split_and!; [reflexivity..|].
  exists (ymd 2024 1 1). split; [reflexivity | vm_compute; discriminate].
Qed.



Example gap_fill_run :
  fill_missing_stock_data stocks_example ∅ alv_provider gapped_shares no_rates 10
  = Ok (Frame ["Allianz Share"]
              [alv_row (ymd 2024 1 1) nan; alv_row (ymd 2024 1 2) 240.5;
               alv_row (ymd 2024 1 3) 241.34; alv_row (ymd 2024 1 4) 241.34;
               alv_row (ymd 2024 1 5) 243.0],
        Stats 2 1,
        [NoData "Allianz Share" (ymd 2024 1 1);
         FilledExact "Allianz Share" (ymd 2024 1 3) 241.34;
         FilledFrom "Allianz Share" (ymd 2024 1 4) 241.34 (ymd 2024 1 3)]).
Proof. vm_compute. reflexivity. Qed.

(** ** Currency gap filling *)

Lemma resolve_rates_spec (forex_data_cache : gmap string (gmap Z float)) missing_date :
  (∀ currency_code,
     (resolve_rates forex_data_cache missing_date).1 !! currency_code
     = forex_data_cache !! currency_code
       ≫= (λ forex_data, py_round 4 <$> forex_data !! missing_date))
  ∧ (resolve_rates forex_data_cache missing_date).2
    = size (resolve_rates forex_data_cache missing_date).1.
Proof.
  unfold resolve_rates.
  apply (map_fold_weak_ind
           (λ acc (m : gmap string (gmap Z float)),
              (∀ c, acc.1 !! c = m !! c ≫= (λ data, py_round 4 <$> data !! missing_date))
              ∧ acc.2 = size acc.1)).
  - split; [|done]. intros c. by rewrite !lookup_empty.
  - intros i data m [new_row n] Hi [Hrow Hn]. simpl in *.
    assert (new_row !! i = None) as Hfresh by (by rewrite Hrow, Hi).
    destruct (data !! missing_date) as [close|] eqn:Hc; simpl.
    + split.
      * intros c. destruct (decide (i = c)) as [->|Hne].
        -- rewrite !lookup_insert_eq. simpl. by rewrite Hc.
        -- by rewrite !lookup_insert_ne.
      * rewrite map_size_insert_None by done. by rewrite Hn.
    + split; [|done]. intros c. destruct (decide (i = c)) as [->|Hne].
      * rewrite lookup_insert_eq. simpl. by rewrite Hc.
      * by rewrite lookup_insert_ne.
Qed.

Lemma fill_date_spec (forex_data_cache : gmap string (gmap Z float)) l st missing_date :
  let new_row := (resolve_rates forex_data_cache missing_date).1 in
  fill_date forex_data_cache (l, st) missing_date
  = if decide (new_row = ∅)
    then (l, Stats (filled st) (S (skipped st)))
    else (l ++ [Row (Some missing_date) new_row], Stats (S (filled st)) (skipped st)).
Proof.
  cbv zeta. unfold fill_date.
  destruct (resolve_rates_spec forex_data_cache missing_date) as [_ Hn].
  destruct (resolve_rates forex_data_cache missing_date) as [new_row n].
  simpl in *. subst n. destruct (decide (new_row = ∅)) as [->|Hne].
  - by rewrite map_size_empty.
  - apply map_size_non_empty_iff in Hne.
    destruct (size new_row); [done|]. done.
Qed.

(** C5, as the code has it.  For a missing date, each currency of the
    cache is resolved on its own and by exact date only: the new row has
    a rate for a currency exactly when the cached data of that currency
    has an observation for the date itself, and the rate is that
    observation rounded to four decimals; a currency whose cached data
    has no observation for the date gets no rate, whatever earlier dates
    the cache holds.  The row is appended when it has a rate, and the
    date is counted as skipped when it has none. *)
Theorem currency_gap_exact_match_only
    (forex_data_cache : gmap string (gmap Z float)) (missing_date : Z)
    (l : list row) (st : fill_stats) :
  let new_row := (resolve_rates forex_data_cache missing_date).1 in
  (∀ currency_code,
     new_row !! currency_code
     = forex_data_cache !! currency_code
       ≫= (λ forex_data, py_round 4 <$> forex_data !! missing_date))
  ∧ (∀ currency_code forex_data,
       forex_data_cache !! currency_code = Some forex_data →
       forex_data !! missing_date = None →
       new_row !! currency_code = None)
  ∧ fill_date forex_data_cache (l, st) missing_date
    = if decide (new_row = ∅)
      then (l, Stats (filled st) (S (skipped st)))
      else (l ++ [Row (Some missing_date) new_row],
            Stats (S (filled st)) (skipped st)).
Proof.
  cbv zeta.
  destruct (resolve_rates_spec forex_data_cache missing_date) as [Hrow _].
  split_and!.
  - exact Hrow.
  - intros c data Hc Hnone. by rewrite Hrow, Hc; simpl; rewrite Hnone.
  - apply fill_date_spec.
Qed.

Lemma currency_gap_exact_match_only_witness :
  (resolve_rates {[ "USD" := usd_closes ]} (ymd 2024 1 4)).1 !! "USD" = None.
Proof.
  apply (proj1 (proj2 (currency_gap_exact_match_only
                         {[ "USD" := usd_closes ]} (ymd 2024 1 4) [] (Stats 0 0)))
               "USD" usd_closes); reflexivity.
Defined.

(** C5 as stated fails where the price policy would fall back: the cache
    has a EUR/USD close for 3 January and none for 4 January; 4 January
    gets no rate and is counted as skipped. *)
Lemma currency_gap_no_fallback :
  usd_closes !! ymd 2024 1 4 = None
  ∧ usd_closes !! ymd 2024 1 3 = Some 1.09452%float
  ∧ ymd 2024 1 3 ≤ ymd 2024 1 4
  ∧ resolve_rates {[ "USD" := usd_closes ]} (ymd 2024 1 4) = (∅, 0%nat)
  ∧ fill_currency_gaps usd_provider usd_table 0 (ymd 2024 1 4)
    = Ok (Frame ["USD"] [usd_row (ymd 2024 1 2) 1.0956;
                         usd_row (ymd 2024 1 3) 1.0945],
          Stats 1 1).
Proof.
  split_and!; try reflexivity; vm_compute; discriminate.
Qed.

(** A date is filled for the currencies that have it and left open for
    the others. *)
Example currencies_resolved_independently :
  resolve_rates {[ "USD" := usd_closes; "GBP" := {[ ymd 2024 1 2 := 0.8667%float ]} ]}
                (ymd 2024 1 3)
  = ({[ "USD" := 1.0945%float ]}, 1%nat).
Proof. vm_compute. reflexivity. Qed.

(** A row is appended for a missing date exactly when the cache has an
    observation for that date for some currency; otherwise the table is
    left as it was and the date is counted as skipped. *)
Lemma fill_date_appends_iff (forex_data_cache : gmap string (gmap Z float))
    l st missing_date :
  ((∃ c forex_data close, forex_data_cache !! c = Some forex_data
                          ∧ forex_data !! missing_date = Some close) →
   ∃ new_row, new_row ≠ ∅
     ∧ fill_date forex_data_cache (l, st) missing_date
       = (l ++ [Row (Some missing_date) new_row], Stats (S (filled st)) (skipped st)))
  ∧ ((∀ c forex_data, forex_data_cache !! c = Some forex_data →
                      forex_data !! missing_date = None) →
     fill_date forex_data_cache (l, st) missing_date
     = (l, Stats (filled st) (S (skipped st)))).
Proof.
  rewrite fill_date_spec. cbv zeta.
  destruct (resolve_rates_spec forex_data_cache missing_date) as [Hrow _].
  split.
  - intros (c & data & close & Hc & Hclose).
    exists (resolve_rates forex_data_cache missing_date).1.
    assert ((resolve_rates forex_data_cache missing_date).1 ≠ ∅) as Hne.
    { intros Hempty. specialize (Hrow c).
      rewrite Hempty, lookup_empty, Hc in Hrow. simpl in Hrow.
      by rewrite Hclose in Hrow. }
    split; [done|]. by rewrite decide_False.
  - intros Hnone. rewrite decide_True; [done|].
    apply map_eq. intros c. rewrite Hrow, lookup_empty.
    destruct (forex_data_cache !! c) as [data|] eqn:Hc; simpl; [|done].
    by rewrite (Hnone c data).
Qed.

(** Saturdays and Sundays are not looked for: from Tuesday 2 January to
    Monday 8 January the missing dates are 3, 4, 5 and 8 January. *)
Example currency_gaps_skip_weekend :
  weekdays_after (ymd 2024 1 2) (ymd 2024 1 8)
  = [ymd 2024 1 3; ymd 2024 1 4; ymd 2024 1 5; ymd 2024 1 8]
  ∧ fill_currency_gaps usd_provider usd_table 0 (ymd 2024 1 8)
    = Ok (Frame ["USD"] [usd_row (ymd 2024 1 2) 1.0956;
                         usd_row (ymd 2024 1 3) 1.0945],
          Stats 1 3).
Proof. split; vm_compute; reflexivity. Qed.

(** C9 fails on a close that is NaN: the provider has an observation for
    Wednesday 3 January whose close is NaN; the date counts as resolved,
    and the row appended for it has no rate that is not null. *)
Theorem nan_close_appends_row_without_rate :
  fill_currency_gaps nan_provider usd_table 0 (ymd 2024 1 3)
  = Ok (Frame ["USD"] [usd_row (ymd 2024 1 2) 1.0956; usd_row (ymd 2024 1 3) nan],
        Stats 1 0)
  ∧ ∀ currency_code, pd_notna (cell (usd_row (ymd 2024 1 3) nan) currency_code) = false.
Proof.
  split; [vm_compute; reflexivity|].
  intros c. unfold cell, usd_row. simpl.
  destruct (decide (c = "USD")) as [->|Hne].
  - by rewrite lookup_singleton_eq.
  - by rewrite lookup_singleton_ne.
Qed.

(** ** Projection *)

(** A sheet whose 'Date' cells are all different has at most one row for
    each. *)
Lemma with_date_cell_unique k (l : list sheet_row) :
  NoDup (date_cell <$> l) → (length (with_date_cell k l) ≤ 1)%nat.
Proof.
  unfold with_date_cell. induction l as [|a l IH]; [simpl; lia|].
  rewrite fmap_cons, NoDup_cons. intros [Ha Hl]. rewrite filter_cons.
  case_decide as Hk; [|by apply IH].
  rewrite filter_none; [simpl; lia|]. intros r Hr Hd. apply Ha.
  apply list_elem_of_fmap. exists r. split; [congruence | done].
Qed.









Example projection_run :
  project_company eur_prices rate_sheet
  = Ok {[ "USD" := [Some 125.01%float; None; None; None; None; None; Some 2.68%float];
          "GBP" := [Some 50%float; None; None; Some 5%float; None; None;
                    Some 1.34%float] ]}.
Proof. vm_compute. reflexivity. Qed.

(** The rows are matched on the text of the 'Date' cell: the sheet has
    rates for 2 and 3 January, written otherwise than in the price
    series, and only the cell of 4 January is filled. *)
Example projection_matches_text :
  project_company
    [(Some "02-01-2024", 100%float); (Some "03-01-2024", 200%float);
     (Some "04-01-2024", 300%float)]
    (Sheet ["USD"] [usd_sheet "2-1-2024" 1.25; usd_sheet "2024-01-03" 1.5;
                    usd_sheet "04-01-2024" 2])
  = Ok {[ "USD" := [None; None; Some 600%float] ]}.
Proof. vm_compute. reflexivity. Qed.

(* ===================================================================== *)
(** * Part III: further properties of the code                            *)
(* ===================================================================== *)

(** ** The merge keeps a date-keyed series *)

Lemma with_date_elem k (l : list row) : k ∈ Date <$> l ↔ with_date k l ≠ [].
Proof.
  split; [apply with_date_not_nil|]. intros Hne.
  destruct (decide (k ∈ Date <$> l)) as [|Hnot]; [done|].
  by apply with_date_nil in Hnot.
Qed.

Lemma drop_duplicates_dates k (l : list row) :
  k ∈ Date <$> drop_duplicates_last l ↔ k ∈ Date <$> l.
Proof.
  rewrite !with_date_elem, drop_duplicates_keeps_last.
  destruct (last (with_date k l)) as [r|] eqn:E; simpl.
  - split; [|done]. intros _ Hnil. by rewrite Hnil in E.
  - apply last_None in E. by rewrite E.
Qed.

Lemma drop_duplicates_NoDup (l : list row) :
  NoDup (Date <$> drop_duplicates_last l).
Proof.
  induction l as [|r l IH]; simpl; [constructor|].
  case_bool_decide as Hin; [done|].
  rewrite fmap_cons. constructor; [|done]. by rewrite drop_duplicates_dates.
Qed.

Lemma drop_duplicates_unique (l : list row) :
  NoDup (Date <$> l) → drop_duplicates_last l = l.
Proof.
  induction l as [|r l IH]; [done|].
  rewrite fmap_cons, NoDup_cons. intros [Hr Hl]. simpl.
  rewrite bool_decide_eq_false_2 by done. by rewrite IH.
Qed.

Lemma drop_duplicates_app (l1 l2 : list row) :
  drop_duplicates_last (l1 ++ l2)
  = filter (λ r, Date r ∉ Date <$> l2) (drop_duplicates_last l1)
    ++ drop_duplicates_last l2.
Proof.
  induction l1 as [|r l1 IH]; [done|]. simpl.
  rewrite fmap_app. case_bool_decide as Hin.
  - apply elem_of_app in Hin as [Hin|Hin].
    + by rewrite bool_decide_eq_true_2.
    + case_bool_decide; [done|]. by rewrite filter_cons_False by tauto.
  - apply not_elem_of_app in Hin as [Hin1 Hin2].
    rewrite bool_decide_eq_false_2 by done.
    by rewrite filter_cons_True, IH.
Qed.

(** X1. Whatever the two series hold, the merged series is date-keyed:
    it has at most one record for each date key, and its date keys are
    exactly those of the existing series and those of the incoming one,
    so the merge neither loses nor invents a date. *)
Theorem merge_date_keyed (existing incoming : DataFrame) :
  NoDup (Date <$> rows (merge existing incoming))
  ∧ ∀ k, k ∈ Date <$> rows (merge existing incoming)
         ↔ k ∈ Date <$> rows existing ∨ k ∈ Date <$> rows incoming.
Proof.
  split; [apply drop_duplicates_NoDup|]. intros k. simpl.
  by rewrite drop_duplicates_dates, fmap_app, elem_of_app.
Qed.

(** X2. Merging the same incoming records a second time changes nothing:
    neither the rows nor the columns. *)
Theorem merge_idempotent (existing incoming : DataFrame) :
  merge (merge existing incoming) incoming = merge existing incoming.
Proof.
  unfold merge, concat. simpl. f_equal.
  - rewrite <- (app_nil_r (columns existing ++ _)) at 2. f_equal.
    apply filter_none. intros c Hc Hnot. apply Hnot.
    destruct (decide (c ∈ columns existing)) as [Hin|Hnin].
    + apply elem_of_app. by left.
    + apply elem_of_app. right. by apply list_elem_of_filter.
  - rewrite (drop_duplicates_app (drop_duplicates_last _)).
    rewrite drop_duplicates_unique by apply drop_duplicates_NoDup.
    rewrite (drop_duplicates_app (rows existing)) at 1.
    rewrite filter_app, list_filter_filter.
    rewrite (filter_none _ (drop_duplicates_last (rows incoming))).
    + rewrite app_nil_r, drop_duplicates_app. f_equal.
      apply list_filter_iff. tauto.
    + intros r Hr Hnot. apply Hnot. apply drop_duplicates_dates.
      apply list_elem_of_fmap. eauto.
Qed.

Lemma drop_duplicates_sublist (l : list row) : drop_duplicates_last l `sublist_of` l.
Proof.
  induction l as [|r l IH]; simpl; [done|].
  case_bool_decide; [by apply sublist_cons | by apply sublist_skip].
Qed.

(** X3. The merge keeps the order in which the records were supplied
    (existing first, then incoming), and when no date occurs twice in the
    two series together it is their plain concatenation: nothing is
    dropped. *)
Theorem merge_keeps_order (existing incoming : DataFrame) :
  rows (merge existing incoming) `sublist_of` rows existing ++ rows incoming
  ∧ (NoDup (Date <$> (rows existing ++ rows incoming)) →
     rows (merge existing incoming) = rows existing ++ rows incoming).
Proof.
  split; [apply drop_duplicates_sublist|].
  intros Hnd. simpl. by apply drop_duplicates_unique.
Qed.

Lemma merge_keeps_order_witness :
  rows (merge existing_shares (Frame ["Allianz Share"]
                                 [price_row (ymd 2024 1 4) "Allianz Share" 243.0]))
  = rows existing_shares ++ [price_row (ymd 2024 1 4) "Allianz Share" 243.0].
Proof.
  apply (proj2 (merge_keeps_order existing_shares
                  (Frame ["Allianz Share"]
                     [price_row (ymd 2024 1 4) "Allianz Share" 243.0]))).
  apply (bool_decide_unpack _). vm_compute. exact I.
Defined.

(** ** The as-of lookup does not depend on the order of the rows *)

Lemma asof_row_permutation (l l' : list row) target i r :
  NoDup (Date <$> l) → l ≡ₚ l' →
  is_asof_row l target i r → ∃ i', is_asof_row l' target i' r.
Proof.
  intros Hnd Hperm (Hi & d & Hd & Hle & Hmax).
  assert (r ∈ l') as [i' Hi']%list_elem_of_lookup.
  { rewrite <- Hperm. by eapply list_elem_of_lookup_2. }
  assert (NoDup (Date <$> l')) as Hnd' by (by rewrite <- Hperm).
  exists i'. split; [done|]. exists d. split_and!; [done..|].
  intros j r' d' Hj Hd' Hle'.
  assert (r' ∈ l) as [j0 Hj0]%list_elem_of_lookup.
  { rewrite Hperm. by eapply list_elem_of_lookup_2. }
  destruct (Hmax j0 r' d' Hj0 Hd' Hle') as [Hdd _]. split; [done|].
  intros Hlt. destruct (decide (d' = d)) as [->|]; [|lia].
  exfalso. assert (j = i'); [|lia].
  apply (NoDup_lookup (Date <$> l') j i' (Some d)); [done|..];
    rewrite list_lookup_fmap; [by rewrite Hj; simpl; rewrite Hd'
                              | by rewrite Hi'; simpl; rewrite Hd].
Qed.

(** X4. For a rate table whose dates are all different, the as-of lookup
    depends only on the rows, not on their order: the table need not be
    sorted by date. *)
Theorem lookup_order_independent cols (l l' : list row) target :
  NoDup (Date <$> l) → l ≡ₚ l' →
  get_usd_to_eur_rate (Frame cols l) target
  = get_usd_to_eur_rate (Frame cols l') target.
Proof.
  intros Hnd Hperm.
  destruct (decide (Exists (λ r, date_le (Date r) target) l)) as [Hex|Hno].
  - destruct (asof_row_exists l target) as (i & r & Has).
    { apply Exists_exists in Hex as (r & Hr & Hc). eauto. }
    destruct (asof_row_permutation l l' target i r Hnd Hperm Has) as [i' Has'].
    rewrite (lookup_at_asof_row (Frame cols l) target i r Has).
    by rewrite (lookup_at_asof_row (Frame cols l') target i' r Has').
  - rewrite !lookup_no_candidate; [done|..]; simpl; intros r Hr Hc;
      apply Hno, Exists_exists; exists r; split; [|done| |done]; [|done].
    by rewrite Hperm.
Qed.

Lemma lookup_order_independent_witness :
  get_usd_to_eur_rate (january 1.10 1.25 1.30) (Some (ymd 2024 1 4))
  = get_usd_to_eur_rate
      (Frame ["USD"] [usd_row (ymd 2024 1 5) 1.30; usd_row (ymd 2024 1 3) 1.25;
                      usd_row (ymd 2024 1 1) 1.10])
      (Some (ymd 2024 1 4)).
Proof.
  apply (lookup_order_independent ["USD"] (rows (january 1.10 1.25 1.30))).
  - apply (bool_decide_unpack _). vm_compute. exact I.
  - simpl. etrans; [apply perm_swap|].
    etrans; [apply perm_skip, perm_swap|]. apply perm_swap.
Defined.

(** ** The conversion loop of [main] *)

Lemma filter_ext_elem {A} (P Q : A → Prop) `{∀ x, Decision (P x)}
    `{∀ x, Decision (Q x)} (l : list A) :
  (∀ x, x ∈ l → P x ↔ Q x) → filter P l = filter Q l.
Proof.
  induction l as [|x l IH]; intros Hext; [done|].
  rewrite !filter_cons.
  rewrite IH by (intros y Hy; apply Hext; by right).
  destruct (decide (P x)) as [Hp|Hp].
  - rewrite decide_True; [done|]. apply Hext; [left | done].
  - rewrite decide_False; [done|]. intros Hq. apply Hp, Hext; [left | done].
Qed.

Lemma convert_stock_rate_step rate new_record st s0 :
  convert_stock (Some rate) (new_record, st) s0
  = (match vals new_record !! s0 with
     | Some p => if pd_notna p
                 then set_cell new_record s0 (converted_price rate p)
                 else new_record
     | None => new_record
     end,
     ConvStats (converted st + (if has_price new_record s0 then 1 else 0))
               (skipped_no_rate st)
               (skipped_missing_price st
                + (if has_null_price new_record s0 then 1 else 0)))%nat.
Proof.
  unfold convert_stock, has_price, has_null_price, converted_price,
    convert_usd_to_eur, pd_isna, pd_notna.
  destruct st as [a b c]; simpl.
  destruct (vals new_record !! s0) as [p|]; [destruct (is_nan p)|]; simpl;
    f_equal; f_equal; lia.
Qed.

Lemma convert_stock_rate_fold (rate : float) (l : list string) :
  NoDup l → ∀ new_record st,
  let res := foldl (convert_stock (Some rate)) (new_record, st) l in
  Date res.1 = Date new_record
  ∧ (∀ s, vals res.1 !! s
          = if decide (s ∈ l) then converted_price rate <$> vals new_record !! s
            else vals new_record !! s)
  ∧ res.2 = ConvStats
              (converted st + length (filter (λ s, has_price new_record s) l))
              (skipped_no_rate st)
              (skipped_missing_price st
               + length (filter (λ s, has_null_price new_record s) l)).
Proof.
  induction l as [|s0 l IH]; intros Hnd rec st; cbv zeta.
  { simpl. split_and!; [done | done |].
    destruct st. simpl. by rewrite !Nat.add_0_r. }
  apply NoDup_cons in Hnd as [Hs0 Hnd]. cbn [foldl].
  rewrite convert_stock_rate_step.
  set (rec1 := match vals rec !! s0 with
               | Some p => if pd_notna p
                           then set_cell rec s0 (converted_price rate p) else rec
               | None => rec
               end).
  assert (Date rec1 = Date rec) as Hd1.
  { unfold rec1. by repeat case_match. }
  assert (∀ s, vals rec1 !! s
               = if decide (s = s0) then converted_price rate <$> vals rec !! s0
                 else vals rec !! s) as Hv1.
  { intros s. unfold rec1. destruct (decide (s = s0)) as [->|Hne].
    - destruct (vals rec !! s0) as [p|] eqn:Hp; [|by rewrite Hp].
      destruct (pd_notna p) eqn:Hna; simpl.
      + by rewrite lookup_insert_eq.
      + rewrite Hp. f_equal. unfold converted_price. by rewrite Hna.
    - repeat case_match; try done. simpl. by rewrite lookup_insert_ne. }
  destruct (IH Hnd rec1 (ConvStats
              (converted st + (if has_price rec s0 then 1 else 0))
              (skipped_no_rate st)
              (skipped_missing_price st + (if has_null_price rec s0 then 1 else 0))))
    as (Hd & Hv & Hst).
  cbv zeta in *. rewrite Hd, Hst. simpl.
  assert (filter (λ s, has_price rec1 s) l = filter (λ s, has_price rec s) l) as ->.
  { apply filter_ext_elem. intros s Hs. unfold has_price.
    rewrite Hv1, decide_False; [done|]. by intros ->. }
  assert (filter (λ s, has_null_price rec1 s) l
          = filter (λ s, has_null_price rec s) l) as ->.
  { apply filter_ext_elem. intros s Hs. unfold has_null_price.
    rewrite Hv1, decide_False; [done|]. by intros ->. }
  split_and!; [done| |].
  - intros s. rewrite Hv, Hv1.
    destruct (decide (s = s0)) as [->|Hne].
    + by rewrite decide_False, decide_True by (done || left).
    + destruct (decide (s ∈ l)) as [Hin|Hnin].
      * rewrite decide_True; [done | by right].
      * rewrite decide_False; [done|]. by intros [->|?]%elem_of_cons.
  - rewrite !filter_cons.
    destruct (has_price rec s0), (has_null_price rec s0); simpl; f_equal; lia.
Qed.

(** X5. In the conversion loop of [main], a new record whose date has an
    as-of rate has each price of a USD stock replaced by
    [round (price * rate, 2)], once; its date, the prices of the other
    stocks and the NaN entries stay as they are; [converted] grows by the
    number of USD prices of the record and [skipped_no_rate] does not
    change. *)
Theorem convert_record_with_rate (USD_STOCKS : gset string) currency_df
    new_record st rate :
  get_usd_to_eur_rate currency_df (Date new_record) = Ok (Some rate) →
  ∃ converted_record st',
    convert_record USD_STOCKS currency_df new_record st = Ok (converted_record, st')
    ∧ Date converted_record = Date new_record
    ∧ (∀ s, vals converted_record !! s
            = if decide (s ∈ USD_STOCKS)
              then converted_price rate <$> vals new_record !! s
              else vals new_record !! s)
    ∧ converted st'
      = (converted st
         + length (filter (λ s, has_price new_record s) (elements USD_STOCKS)))%nat
    ∧ skipped_no_rate st' = skipped_no_rate st.
Proof.
  intros Hrate. unfold convert_record. rewrite Hrate. simpl.
  destruct (convert_stock_rate_fold rate (elements USD_STOCKS)
              (NoDup_elements USD_STOCKS) new_record st) as (Hd & Hv & Hst).
  cbv zeta in *.
  destruct (foldl _ _ _) as [rec' st'] eqn:E. simpl in *.
  exists rec', st'. split_and!; [done | done | | by subst st' | by subst st'].
  intros s. rewrite Hv.
  destruct (decide (s ∈ USD_STOCKS)) as [Hin|Hnin].
  - rewrite decide_True; [done | by apply elem_of_elements].
  - rewrite decide_False; [done | by rewrite elem_of_elements].
Qed.

Lemma convert_stock_accounted rate (l : list string) :
  ∀ new_record st,
  let res := foldl (convert_stock rate) (new_record, st) l in
  Date res.1 = Date new_record
  ∧ (∀ s, is_Some (vals res.1 !! s) ↔ is_Some (vals new_record !! s))
  ∧ accounted res.2
    = (accounted st
       + length (filter (λ s, is_Some (vals new_record !! s)) l))%nat.
Proof.
  induction l as [|s0 l IH]; intros rec st; cbv zeta.
  { simpl. split_and!; [done | done | lia]. }
  cbn [foldl]. rewrite filter_cons.
  assert (∃ rec1 st1,
            convert_stock rate (rec, st) s0 = (rec1, st1)
            ∧ Date rec1 = Date rec
            ∧ (∀ s, is_Some (vals rec1 !! s) ↔ is_Some (vals rec !! s))
            ∧ accounted st1
              = (accounted st + if decide (is_Some (vals rec !! s0)) then 1 else 0)%nat)
    as (rec1 & st1 & -> & Hd1 & Hk1 & Ha1).
  { unfold convert_stock, accounted.
    destruct (vals rec !! s0) as [p|] eqn:Hp.
    - rewrite decide_True by eauto.
      destruct (pd_notna p); [destruct rate|]; eexists _, _;
        (split; [reflexivity|]); simpl; (split_and!; [done| |lia]);
        try done.
      intros s. destruct (decide (s = s0)) as [->|Hne].
      + rewrite lookup_insert_eq, Hp. split; eauto.
      + by rewrite lookup_insert_ne.
    - rewrite decide_False by (by intros [? ?]).
      eexists _, _. split; [reflexivity|]. split_and!; [done | done | lia]. }
  destruct (IH rec1 st1) as (Hd & Hk & Ha). cbv zeta in *.
  rewrite Hd, Hd1, Ha, Ha1.
  rewrite (list_filter_iff _ (λ s, is_Some (vals rec !! s))) by apply Hk1.
  split_and!; [done| |].
  - intros s. by rewrite Hk, Hk1.
  - destruct (decide (is_Some (vals rec !! s0))); simpl; lia.
Qed.

(** X6. The conversion loop of [main] keeps the new records and their
    dates, and accounts for every USD entry exactly once: over all
    records, the three counters together grow by the number of entries
    that the records have for USD stocks. *)
Theorem convert_new_records_accounted (USD_STOCKS : gset string) currency_df
    (new_stock_records : list row) st records st' :
  convert_new_records USD_STOCKS currency_df new_stock_records st
  = Ok (records, st') →
  Date <$> records = Date <$> new_stock_records
  ∧ accounted st'
    = (accounted st
       + sum_list (length ∘ usd_entries USD_STOCKS <$> new_stock_records))%nat.
Proof.
  revert st records st'.
  induction new_stock_records as [|rec recs IH]; intros st records st'; simpl.
  { intros [= <- <-]. split; [done | lia]. }
  unfold convert_record.
  destruct (get_usd_to_eur_rate currency_df (Date rec)) as [rate|e]; simpl; [|done].
  destruct (convert_stock_accounted rate (elements USD_STOCKS) rec st)
    as (Hd & _ & Ha). cbv zeta in *.
  destruct (foldl _ _ _) as [rec1 st1] eqn:E. simpl in *.
  destruct (convert_new_records USD_STOCKS currency_df recs st1)
    as [[rs st2]|e] eqn:Hrest; simpl; [|done].
  intros [= <- <-]. destruct (IH st1 rs st2 Hrest) as [Hds Has].
  split; [by rewrite fmap_cons, Hd, Hds|].
  rewrite Has, Ha. unfold usd_entries, compose. simpl.
  rewrite <- Nat.add_assoc. reflexivity.
Qed.

Lemma convert_new_records_accounted_witness :
  Date <$> [ibm_record] = Date <$> [ibm_record]
  ∧ accounted (ConvStats 0 1 0)
    = (accounted (ConvStats 0 0 0)
       + sum_list (length ∘ usd_entries {[ "IBM Share"; "Unilever Share" ]}
                     <$> [ibm_record]))%nat.
Proof.
  apply (convert_new_records_accounted {[ "IBM Share"; "Unilever Share" ]}
           no_rates [ibm_record] (ConvStats 0 0 0) [ibm_record] (ConvStats 0 1 0)).
  vm_compute. reflexivity.
Defined.

Lemma convert_record_with_rate_witness :
  ∃ converted_record st',
    convert_record {[ "IBM Share"; "Unilever Share" ]} (january 1.10 1.25 1.30)
                   ibm_record (ConvStats 0 0 0)
    = Ok (converted_record, st')
    ∧ Date converted_record = Date ibm_record
    ∧ (∀ s, vals converted_record !! s
            = if decide (s ∈ ({[ "IBM Share"; "Unilever Share" ]} : gset string))
              then converted_price 0.8 <$> vals ibm_record !! s
              else vals ibm_record !! s)
    ∧ converted st'
      = (converted (ConvStats 0 0 0)
         + length (filter (λ s, has_price ibm_record s)
                          (elements ({[ "IBM Share"; "Unilever Share" ]}
                                     : gset string))))%nat
    ∧ skipped_no_rate st' = skipped_no_rate (ConvStats 0 0 0).
Proof.
  apply (convert_record_with_rate {[ "IBM Share"; "Unilever Share" ]}
           (january 1.10 1.25 1.30) ibm_record (ConvStats 0 0 0) 0.8%float).
  reflexivity.
Defined.

(** ** The new records fetched by [main] *)

Lemma find_date_fmap k (l : list row) :
  fst <$> list_find (λ r, Date r = k) l = fst <$> list_find (λ d, d = k) (Date <$> l).
Proof.
  rewrite list_find_fmap. by destruct (list_find _ l) as [[i r]|].
Qed.

Lemma add_observation_dates stock_name (records : list row) obs :
  Date <$> add_observation stock_name records obs
  = (Date <$> records)
    ++ (if decide (Some obs.1 ∈ Date <$> records) then [] else [Some obs.1]).
Proof.
  unfold add_observation.
  destruct (list_find _ records) as [[i r]|] eqn:E.
  - apply list_find_Some in E as (Hi & Hd & _).
    rewrite decide_True.
    + rewrite app_nil_r, list_fmap_insert. simpl.
      apply list_insert_id. by rewrite list_lookup_fmap, Hi.
    + apply list_elem_of_fmap. exists r. split; [done|].
      by eapply list_elem_of_lookup_2.
  - apply list_find_None in E. rewrite decide_False.
    + by rewrite fmap_app.
    + intros (r & Hd & Hr)%list_elem_of_fmap.
      by apply (proj1 (Forall_forall _ _) E r Hr).
Qed.

Lemma add_observation_NoDup stock_name (records : list row) obs :
  NoDup (Date <$> records) →
  NoDup (Date <$> add_observation stock_name records obs).
Proof.
  intros Hnd. rewrite add_observation_dates.
  destruct (decide (Some obs.1 ∈ Date <$> records)) as [Hin|Hnin].
  - by rewrite app_nil_r.
  - apply NoDup_app. split_and!; [done| |apply NoDup_singleton].
    intros k Hk ->%list_elem_of_singleton. done.
Qed.

(** X7. The new records that [main] collects from the provider answers
    have pairwise different dates, whatever the provider returns and in
    whatever order: each date gets one record, shared by the stocks. *)
Theorem fetch_new_records_unique_dates STOCKS yf_history last_date :
  NoDup (Date <$> fetch_new_records STOCKS yf_history last_date).
Proof.
  unfold fetch_new_records.
  assert (∀ records, NoDup (Date <$> records) →
            NoDup (Date <$> foldl
                     (λ new_stock_records (item : string * string),
                        match yf_history item.2 (last_date + 1) with
                        | Ok stock_data =>
                            foldl (add_observation item.1) new_stock_records stock_data
                        | Raise _ => new_stock_records
                        end) records STOCKS)) as Hfold.
  { induction STOCKS as [|item STOCKS IH]; intros records Hnd; [done|].
    cbn [foldl]. apply IH.
    destruct (yf_history item.2 (last_date + 1)) as [stock_data|]; [|done].
    clear IH. revert records Hnd.
    induction stock_data as [|obs stock_data IHd]; intros records Hnd; [done|].
    cbn [foldl]. by apply IHd, add_observation_NoDup. }
  apply Hfold. constructor.
Qed.

Lemma price_in_add_observation stock_name (records : list row) d c d' s' :
  price_in (add_observation stock_name records (d, c)) d' s'
  = if decide (d' = d ∧ s' = stock_name) then Some (py_round 2 c)
    else price_in records d' s'.
Proof.
  unfold price_in, add_observation. simpl.
  destruct (list_find (λ record, Date record = Some d) records)
    as [[i r]|] eqn:E.
  - apply list_find_Some in E as (Hi & Hd & Hfirst).
    destruct (list_find (λ record, Date record = Some d') records)
      as [[j r']|] eqn:E'.
    + pose proof E' as (Hj & Hd' & Hfirst')%list_find_Some.
      destruct (decide (d' = d)) as [->|Hne].
      * assert (j = i) as ->.
        { destruct (Nat.lt_trichotomy j i) as [Hlt|[->|Hlt]]; [|done|].
          - by destruct (Hfirst j r' Hj Hlt).
          - by destruct (Hfirst' i r Hi Hlt). }
        simplify_eq.
        assert (list_find (λ record, Date record = Some d)
                  (<[i := set_cell r stock_name (py_round 2 c)]> records)
                = Some (i, set_cell r stock_name (py_round 2 c))) as ->.
        { apply list_find_Some. split_and!.
          - apply list_lookup_insert_eq. by eapply lookup_lt_Some.
          - done.
          - intros j y Hy Hlt. rewrite list_lookup_insert_ne in Hy by lia.
            by apply (Hfirst j). }
        simpl. destruct (decide (s' = stock_name)) as [->|Hs].
        -- rewrite decide_True by done. by rewrite lookup_insert_eq.
        -- rewrite decide_False by tauto. by rewrite lookup_insert_ne.
      * assert (j ≠ i) as Hji by (intros ->; simplify_eq; congruence).
        assert (list_find (λ record, Date record = Some d')
                  (<[i := set_cell r stock_name (py_round 2 c)]> records)
                = Some (j, r')) as ->.
        { apply list_find_Some. split_and!.
          - by rewrite list_lookup_insert_ne.
          - done.
          - intros j0 y Hy Hlt. destruct (decide (j0 = i)) as [->|Hne0].
            + rewrite list_lookup_insert_eq in Hy by (by eapply lookup_lt_Some).
              injection Hy as <-. simpl. congruence.
            + rewrite list_lookup_insert_ne in Hy by done. by apply (Hfirst' j0). }
        by rewrite decide_False by tauto.
    + assert (d' ≠ d) as Hne.
      { intros ->. apply list_find_None in E'.
        apply (proj1 (Forall_forall _ _) E' r); [|done].
        by eapply list_elem_of_lookup_2. }
      rewrite decide_False by tauto.
      assert (list_find (λ record, Date record = Some d')
                (<[i := set_cell r stock_name (py_round 2 c)]> records) = None) as ->.
      { apply list_find_None, Forall_forall. intros y Hy Hdy.
        apply list_elem_of_lookup in Hy as [j Hj].
        apply list_find_None in E'.
        destruct (decide (j = i)) as [->|Hji].
        - rewrite list_lookup_insert_eq in Hj by (by eapply lookup_lt_Some).
          injection Hj as <-. simpl in Hdy. congruence.
        - rewrite list_lookup_insert_ne in Hj by done.
          apply (proj1 (Forall_forall _ _) E' y); [|done].
          by eapply list_elem_of_lookup_2. }
      done.
  - destruct (list_find (λ record, Date record = Some d') records)
      as [[j r']|] eqn:E'.
    + rewrite (list_find_app_l _ _ _ _ _ E').
      rewrite decide_False; [done|]. intros [-> _].
      apply list_find_None in E. apply list_find_Some in E' as (Hj & Hd' & _).
      apply (proj1 (Forall_forall _ _) E r'); [|done].
      by eapply list_elem_of_lookup_2.
    + rewrite list_find_app_r by done. simpl.
      destruct (decide (d' = d)) as [->|Hne].
      * rewrite decide_True by done. simpl.
        destruct (decide (s' = stock_name)) as [->|Hs].
        -- rewrite decide_True by done. by rewrite lookup_insert_eq.
        -- rewrite decide_False by tauto.
           by rewrite lookup_insert_ne, lookup_empty.
      * rewrite decide_False by congruence. simpl.
        by rewrite decide_False by tauto.
Qed.

Lemma price_in_add_stock stock_name (stock_data : list (Z * float)) :
  ∀ records d s',
  price_in (foldl (add_observation stock_name) records stock_data) d s'
  = if decide (s' = stock_name)
    then match last_close stock_data d with
         | Some v => Some v
         | None => price_in records d stock_name
         end
    else price_in records d s'.
Proof.
  unfold last_close.
  induction stock_data as [|[d0 c0] data IH]; intros records d s'.
  { simpl. by destruct (decide (s' = stock_name)) as [->|]. }
  cbn [foldl]. rewrite IH, filter_cons. simpl.
  destruct (decide (s' = stock_name)) as [->|Hs].
  - rewrite !price_in_add_observation.
    destruct (decide (d0 = d)) as [->|Hne].
    + rewrite decide_True by done.
      destruct (filter _ data) as [|o l] eqn:Ef; [done|].
      change (last ((d, c0) :: o :: l)) with (last (o :: l)).
      destruct (last (o :: l)) eqn:El; [done|]. by apply last_None in El.
    + rewrite decide_False; [done|]. intros [-> _]. done.
  - rewrite price_in_add_observation. by rewrite decide_False by tauto.
Qed.

(** X8. For a configuration with one entry per instrument and a provider
    that answers for the ticker of an instrument, the new records hold,
    for every date, the close of that date rounded to two decimals under
    the name of the instrument (the last one, if the answer has the date
    twice), and no price for the instrument on a date that the answer
    does not have. *)
Theorem fetch_new_records_prices STOCKS yf_history last_date stock_name ticker
    stock_data d :
  NoDup STOCKS.*1 →
  (stock_name, ticker) ∈ STOCKS →
  yf_history ticker (last_date + 1) = Ok stock_data →
  price_in (fetch_new_records STOCKS yf_history last_date) d stock_name
  = last_close stock_data d.
Proof.
  intros Hnd Hin Hdl. unfold fetch_new_records.
  set (step := λ (new_stock_records : list row) (item : string * string), _).
  assert (∀ l records, stock_name ∉ l.*1 →
            price_in (foldl step records l) d stock_name
            = price_in records d stock_name) as Hother.
  { induction l as [|[s t] l IH]; intros records Hl; [done|].
    rewrite fmap_cons in Hl. apply not_elem_of_cons in Hl as [Hs Hl].
    cbn [foldl]. rewrite IH by done. unfold step. simpl.
    destruct (yf_history t (last_date + 1)) as [data|]; [|done].
    rewrite price_in_add_stock. by rewrite decide_False. }
  apply list_elem_of_split in Hin as (l1 & l2 & ->).
  rewrite fmap_app, fmap_cons in Hnd.
  apply NoDup_app in Hnd as (_ & Hl1 & [Hl2 _]%NoDup_cons).
  rewrite foldl_app. cbn [foldl]. rewrite Hother by done.
  unfold step at 1. simpl. rewrite Hdl, price_in_add_stock.
  rewrite decide_True by done.
  destruct (last_close stock_data d); [done|].
  rewrite Hother; [done|]. intros Hs. apply (Hl1 stock_name Hs). left.
Qed.

Lemma fetch_new_records_prices_witness :
  price_in (fetch_new_records stocks_three history_example (ymd 2024 1 2))
           (ymd 2024 1 4) "IBM Share"
  = last_close [(ymd 2024 1 4, 187.512%float)] (ymd 2024 1 4).
Proof.
  apply (fetch_new_records_prices stocks_three history_example (ymd 2024 1 2)
           "IBM Share" "IBM").
  - apply (bool_decide_unpack _). vm_compute. exact I.
  - right. left.
  - reflexivity.
Defined.

Example fetch_new_records_run :
  fetch_new_records stocks_three history_example (ymd 2024 1 2)
  = [Row (Some (ymd 2024 1 3)) {[ "Allianz Share" := 241.34%float ]};
     Row (Some (ymd 2024 1 4)) {[ "Allianz Share" := 243%float;
                                  "IBM Share" := 187.51%float ]}].
Proof. vm_compute. reflexivity. Qed.

(** ** Gap filling never overwrites an observation *)

Lemma keeps_values_refl (l : list row) : keeps_values l l.
Proof. apply Forall_Forall2_diag, Forall_forall. done. Qed.

Lemma keeps_values_lookup (orig cur : list row) i r0 r :
  keeps_values orig cur → orig !! i = Some r0 → cur !! i = Some r →
  Date r = Date r0 ∧ ∀ c, pd_notna (cell r0 c) = true → vals r !! c = vals r0 !! c.
Proof. intros Hk H0 H1. by apply (Forall2_lookup_lr _ _ _ _ _ _ Hk H0 H1). Qed.

Lemma keeps_values_null (orig cur : list row) i r0 r c :
  keeps_values orig cur → orig !! i = Some r0 → cur !! i = Some r →
  pd_notna (cell r c) = false → pd_notna (cell r0 c) = false.
Proof.
  intros Hk H0 H1 Hna. destruct (keeps_values_lookup _ _ _ _ _ Hk H0 H1) as [_ Hv].
  destruct (pd_notna (cell r0 c)) eqn:E; [|done].
  unfold cell in *. by rewrite (Hv c E), E in Hna.
Qed.

Lemma keeps_values_set_loc (orig cur : list row) idx c v :
  keeps_values orig cur →
  (∀ r0, orig !! idx = Some r0 → pd_notna (cell r0 c) = false) →
  keeps_values orig (set_loc idx c v cur).
Proof.
  intros Hk Hnull. unfold set_loc.
  destruct (cur !! idx) as [r|] eqn:Hidx; [|done].
  apply Forall2_same_length_lookup. split.
  { rewrite length_insert. by eapply Forall2_length. }
  intros i r0 r' H0 H1. destruct (decide (i = idx)) as [->|Hne].
  - rewrite list_lookup_insert_eq in H1 by (by eapply lookup_lt_Some).
    injection H1 as <-.
    destruct (keeps_values_lookup _ _ _ _ _ Hk H0 Hidx) as [Hd Hv].
    split; [done|]. intros c' Hna. simpl.
    destruct (decide (c' = c)) as [->|Hc].
    + by rewrite (Hnull r0 H0) in Hna.
    + rewrite lookup_insert_ne by done. by apply Hv.
  - rewrite list_lookup_insert_ne in H1 by done.
    by apply (keeps_values_lookup _ _ _ _ _ Hk H0 H1).
Qed.

Section KeepsValues.
Context (orig : list row).

Lemma fill_gap_keeps stock_name stock_data s i r :
  shares s !! i = Some r →
  keeps_values orig (shares s) → null_positions orig (filled_positions s) →
  keeps_values orig (shares (fill_gap stock_name stock_data s (i, r)))
  ∧ null_positions orig (filled_positions (fill_gap stock_name stock_data s (i, r))).
Proof.
  intros Hi Hk Hp. unfold fill_gap.
  destruct (pd_notna (cell r stock_name)) eqn:Hna; [done|].
  assert (∀ r0, orig !! i = Some r0 → pd_notna (cell r0 stock_name) = false)
    as Hnull by (intros r0 H0; by eapply keeps_values_null).
  repeat case_match; simpl; try done;
    (split; [by apply keeps_values_set_loc|]);
    apply Forall_app; (split; [done|]); by apply Forall_singleton.
Qed.

Lemma fold_fill_gap_keeps stock_name stock_data recs s :
  NoDup recs.*1 →
  (∀ i r, (i, r) ∈ recs → shares s !! i = Some r) →
  keeps_values orig (shares s) → null_positions orig (filled_positions s) →
  keeps_values orig (shares (foldl (fill_gap stock_name stock_data) s recs))
  ∧ null_positions orig
      (filled_positions (foldl (fill_gap stock_name stock_data) s recs)).
Proof.
  revert s. induction recs as [|[i r] recs IH]; intros s Hnd Hrec Hk Hp; [done|].
  rewrite fmap_cons in Hnd. apply NoDup_cons in Hnd as [Hi Hnd]. cbn [foldl].
  destruct (fill_gap_keeps stock_name stock_data s i r) as [Hk' Hp'];
    [apply Hrec; left | done | done |].
  apply IH; [done | | done | done].
  intros j r' Hj. rewrite fill_gap_shares_other.
  - apply Hrec. by right.
  - intros ->. apply Hi. apply list_elem_of_fmap. by exists (j, r').
Qed.

Lemma fill_stock_keeps yf_download cols start_date last_date s item :
  keeps_values orig (shares s) → null_positions orig (filled_positions s) →
  keeps_values orig (shares (fill_stock yf_download cols start_date last_date s item))
  ∧ null_positions orig
      (filled_positions (fill_stock yf_download cols start_date last_date s item)).
Proof.
  intros Hk Hp. destruct item as [stock_name ticker]. unfold fill_stock.
  case_bool_decide; [|done].
  destruct (yf_download ticker start_date (last_date + 1)) as [stock_data|];
    [|done].
  case_bool_decide; [done|].
  apply fold_fill_gap_keeps; [apply recent_records_NoDup| |done|done].
  intros i r Hir. by apply elem_of_recent_records in Hir as [? _].
Qed.

Lemma convert_filled_keeps (USD_STOCKS : gset string) currency_df positions l l' :
  null_positions orig positions → keeps_values orig l →
  convert_filled USD_STOCKS currency_df positions l = Ok l' →
  keeps_values orig l'.
Proof.
  revert l. induction positions as [|[[[idx stock_name] date_str] price] ps IH];
    intros l Hp Hk; simpl.
  { by intros [= <-]. }
  apply Forall_cons in Hp as [Hnull Hp]. simpl in Hnull.
  case_bool_decide; [|by apply IH].
  destruct (get_usd_to_eur_rate currency_df (Some date_str)) as [[rate|]|];
    simpl; [| by apply IH | done].
  apply IH; [done|]. by apply keeps_values_set_loc.
Qed.

End KeepsValues.

(** X9. Price gap filling never overwrites an observation and never adds,
    drops or reorders rows: the result has the columns, the rows and the
    dates of the series it was given, and every cell that held a value
    holds the same value afterwards, in and outside the window and for
    every instrument; only cells that were null may change. *)
Theorem gap_fill_keeps_observations STOCKS (USD_STOCKS : gset string) yf_download
    (shares_df currency_df : DataFrame) lookback_days filled_df st printed :
  fill_missing_stock_data STOCKS USD_STOCKS yf_download shares_df currency_df
                          lookback_days
  = Ok (filled_df, st, printed) →
  columns filled_df = columns shares_df
  ∧ keeps_values (rows shares_df) (rows filled_df).
Proof.
  unfold fill_missing_stock_data.
  destruct (rows shares_df) as [|r0 l0] eqn:El.
  { intros [= <- <- <-]. rewrite El. split; [done | apply keeps_values_refl]. }
  rewrite <- El.
  destruct (snd <$> idxmax_aux (Date <$> rows shares_df)) as [last_date|];
    [|done].
  set (start_state := FillState (rows shares_df) (Stats 0 0) [] []).
  assert (∀ l s, keeps_values (rows shares_df) (shares s) →
                 null_positions (rows shares_df) (filled_positions s) →
                 let s' := foldl (fill_stock yf_download (columns shares_df)
                                    (last_date - lookback_days) last_date) s l in
                 keeps_values (rows shares_df) (shares s')
                 ∧ null_positions (rows shares_df) (filled_positions s')) as Hfold.
  { induction l as [|item l IH]; intros s Hk Hp; [done|]. cbn [foldl].
    destruct (fill_stock_keeps (rows shares_df) yf_download (columns shares_df)
                (last_date - lookback_days) last_date s item Hk Hp).
    by apply IH. }
  destruct (Hfold STOCKS start_state) as [Hk Hp];
    [apply keeps_values_refl | constructor |].
  cbv zeta in *.
  destruct (convert_filled _ _ _ _) as [l'|] eqn:Hconv; simpl; [|done].
  intros [= <- <- <-]. split; [done|]. simpl.
  by eapply convert_filled_keeps.
Qed.

Lemma gap_fill_keeps_observations_witness :
  columns gapped_shares = columns gapped_shares
  ∧ keeps_values (rows gapped_shares)
      [alv_row (ymd 2024 1 1) nan; alv_row (ymd 2024 1 2) 240.5;
       alv_row (ymd 2024 1 3) 241.34; alv_row (ymd 2024 1 4) 241.34;
       alv_row (ymd 2024 1 5) 243.0].
Proof.
  apply (gap_fill_keeps_observations stocks_example ∅ alv_provider gapped_shares
           no_rates 10
           (Frame ["Allianz Share"]
              [alv_row (ymd 2024 1 1) nan; alv_row (ymd 2024 1 2) 240.5;
               alv_row (ymd 2024 1 3) 241.34; alv_row (ymd 2024 1 4) 241.34;
               alv_row (ymd 2024 1 5) 243.0])
           (Stats 2 1)
           [NoData "Allianz Share" (ymd 2024 1 1);
            FilledExact "Allianz Share" (ymd 2024 1 3) 241.34;
            FilledFrom "Allianz Share" (ymd 2024 1 4) 241.34 (ymd 2024 1 3)]).
  vm_compute. reflexivity.
Defined.

(** ** The batch download *)

Lemma download_cache_fold yf_download start_date end_date (l : list string) :
  ∀ (cache : gmap string (gmap Z float)) c,
  foldl (λ forex_data_cache currency_code,
           match yf_download (get_yfinance_ticker currency_code)
                             start_date end_date with
           | Ok forex_data =>
               if bool_decide (size forex_data = 0%nat) then forex_data_cache
               else <[currency_code := forex_data]> forex_data_cache
           | Raise _ => forex_data_cache
           end) cache l !! c
  = if decide (c ∈ l)
    then match usable_answer yf_download c start_date end_date with
         | Some forex_data => Some forex_data
         | None => cache !! c
         end
    else cache !! c.
Proof.
  induction l as [|c0 l IH]; intros cache c; [done|].
  cbn [foldl]. rewrite IH.
  assert (∀ c', c' ≠ c0 →
            match yf_download (get_yfinance_ticker c0) start_date end_date with
            | Ok forex_data =>
                if bool_decide (size forex_data = 0%nat) then cache
                else <[c0 := forex_data]> cache
            | Raise _ => cache
            end !! c' = cache !! c') as Hother.
  { intros c' Hne. repeat case_match; try done. by rewrite lookup_insert_ne. }
  destruct (decide (c = c0)) as [->|Hne].
  - rewrite (decide_True (P := c0 ∈ c0 :: l)) by left.
    unfold usable_answer.
    destruct (yf_download (get_yfinance_ticker c0) start_date end_date)
      as [data|]; [case_bool_decide|]; try by destruct (decide (c0 ∈ l)).
    rewrite lookup_insert_eq. by destruct (decide (c0 ∈ l)).
  - rewrite Hother by done.
    destruct (decide (c ∈ l)) as [Hin|Hnin].
    + rewrite decide_True; [done | by right].
    + rewrite decide_False; [done|]. by intros [->|?]%elem_of_cons.
Qed.

(** X12. In the batch download each currency stands alone: the cache has
    an entry for a currency exactly when the currency is a column of the
    table and the provider answered its own query with at least one
    observation, and the entry is that answer; an empty answer or an
    exception for one currency leaves the entries of the others as they
    are. *)
Theorem download_cache_lookup yf_download (available_currencies : list string)
    start_date end_date currency_code :
  download_cache yf_download available_currencies start_date end_date
    !! currency_code
  = if decide (currency_code ∈ available_currencies)
    then usable_answer yf_download currency_code start_date end_date
    else None.
Proof.
  unfold download_cache. rewrite download_cache_fold, lookup_empty.
  destruct (decide (currency_code ∈ available_currencies)); [|done].
  by destruct (usable_answer _ _ _ _).
Qed.

Example download_cache_isolates_errors :
  download_cache usd_provider ["GBP"; "USD"; "CAD"] (ymd 2024 1 3) (ymd 2024 1 5)
  = {[ "USD" := usd_closes ]}.
Proof. vm_compute. reflexivity. Qed.

(** ** Currency gap filling *)

Lemma fold_fill_date (forex_data_cache : gmap string (gmap Z float)) (ds : list Z) :
  ∀ l st,
  let res := foldl (fill_date forex_data_cache) (l, st) ds in
  ∃ new_rows,
    res.1 = l ++ new_rows
    ∧ Date <$> new_rows `sublist_of` Some <$> ds
    ∧ Forall (λ r, vals r ≠ ∅
                   ∧ ∃ d, Date r = Some d
                          ∧ vals r = (resolve_rates forex_data_cache d).1) new_rows
    ∧ filled res.2 = (filled st + length new_rows)%nat
    ∧ (filled res.2 + skipped res.2 = filled st + skipped st + length ds)%nat.
Proof.
  induction ds as [|d ds IH]; intros l st; cbv zeta.
  { exists []. simpl. rewrite app_nil_r. split_and!; [done|done|done|lia|lia]. }
  cbn [foldl]. rewrite fill_date_spec. cbv zeta.
  destruct (decide ((resolve_rates forex_data_cache d).1 = ∅)) as [He|Hne].
  - destruct (IH l (Stats (filled st) (S (skipped st))))
      as (new & Hl & Hsub & Hvals & Hf & Hfs). cbv zeta in *.
    exists new. simpl in *. split_and!; [done| |done|done|lia].
    by apply sublist_cons.
  - destruct (IH (l ++ [Row (Some d) (resolve_rates forex_data_cache d).1])
                (Stats (S (filled st)) (skipped st)))
      as (new & Hl & Hsub & Hvals & Hf & Hfs). cbv zeta in *.
    exists (Row (Some d) (resolve_rates forex_data_cache d).1 :: new).
    simpl in *. split_and!.
    + by rewrite Hl, <- app_assoc.
    + by apply sublist_skip.
    + constructor; [|done]. split; [done|]. by exists d.
    + lia.
    + lia.
Qed.

(** The rows that the filling loop appends. *)
Lemma currency_loop_appends yf_download (currency_df : DataFrame)
    lookback_days today_date filled_df st :
  fill_currency_gaps yf_download currency_df lookback_days today_date
  = Ok (filled_df, st) →
  columns filled_df = columns currency_df
  ∧ ∃ new_rows,
      rows filled_df = rows currency_df ++ new_rows
      ∧ Date <$> new_rows
        `sublist_of` Some <$> missing_dates_of currency_df lookback_days today_date
      ∧ (∀ r, r ∈ new_rows →
           vals r ≠ ∅
           ∧ ∃ d start_date end_date,
               Date r = Some d
               ∧ batch_range (missing_dates_of currency_df lookback_days today_date)
                 = Some (start_date, end_date)
               ∧ ∀ currency_code,
                   vals r !! currency_code
                   = (if decide (currency_code ∈ columns currency_df)
                      then usable_answer yf_download currency_code
                                         start_date end_date
                      else None)
                     ≫= (λ forex_data, py_round 4 <$> forex_data !! d))
      ∧ filled st = length new_rows
      ∧ (filled st + skipped st)%nat
        = length (missing_dates_of currency_df lookback_days today_date).
Proof.
  unfold fill_currency_gaps, missing_dates_of.
  destruct (rows currency_df) as [|r0 l0] eqn:El.
  { intros [= <- <-]. split; [done|]. exists []. rewrite El. simpl.
    split_and!; [done | apply sublist_nil_l | | done | done].
    by intros r ?%elem_of_nil. }
  rewrite <- El.
  destruct (snd <$> idxmax_aux (Date <$> rows currency_df)) as [last_date|];
    [|done].
  destruct (missing_weekdays _ _ _ ++ weekdays_after _ _) as [|d ds] eqn:Em.
  { intros [= <- <-]. split; [done|]. exists []. rewrite app_nil_r.
    split_and!; [done | apply sublist_nil_l | | done | done].
    by intros r ?%elem_of_nil. }
  set (cache := download_cache _ _ _ _).
  destruct (fold_fill_date cache (d :: ds) (rows currency_df) (Stats 0 0))
    as (new & Hl & Hsub & Hvals & Hf & Hfs). cbv zeta in *.
  destruct (foldl (fill_date cache) _ _) as [l st0]. simpl in *.
  intros [= <- <-]. split; [done|]. exists new. simpl.
  split_and!; [done | done | | lia | lia].
  intros r Hr. rewrite Forall_forall in Hvals.
  destruct (Hvals r Hr) as (Hne & d' & Hd' & Hrow). split; [done|].
  exists d', (foldr Z.min d ds), (foldr Z.max d ds + 1).
  split_and!; [done | done |]. intros c. rewrite Hrow.
  destruct (resolve_rates_spec cache d') as [-> _].
  unfold cache, download_cache. rewrite download_cache_fold, lookup_empty.
  destruct (decide (c ∈ columns currency_df)); [|done].
  by destruct (usable_answer _ _ _ _).
Qed.

Lemma elem_of_missing_weekdays (l : list row) start_date last_date d :
  d ∈ missing_weekdays l start_date last_date
  ↔ start_date ≤ d ∧ d ≤ last_date ∧ weekday d < 5 ∧ Some d ∉ Date <$> l.
Proof.
  unfold missing_weekdays. rewrite list_elem_of_filter, elem_of_seqZ.
  split; [intros ([? ?] & ? & ?) | intros (? & ? & ? & ?)]; split_and!;
    try done; lia.
Qed.

Lemma elem_of_weekdays_after last_date today_date d :
  d ∈ weekdays_after last_date today_date
  ↔ last_date < d ∧ d ≤ today_date ∧ weekday d < 5.
Proof.
  unfold weekdays_after. rewrite list_elem_of_filter, elem_of_seqZ.
  split; [intros (? & ? & ?) | intros (? & ? & ?)]; split_and!; try done; lia.
Qed.

Lemma missing_dates_spec (currency_df : DataFrame) lookback_days today_date :
  NoDup (missing_dates_of currency_df lookback_days today_date)
  ∧ ∀ d, d ∈ missing_dates_of currency_df lookback_days today_date →
         weekday d < 5 ∧ Some d ∉ Date <$> rows currency_df.
Proof.
  unfold missing_dates_of.
  destruct (idxmax_aux (Date <$> rows currency_df)) as [[i last_date]|] eqn:E;
    simpl; [|split; [constructor | by intros d ?%elem_of_nil]].
  split.
  - apply NoDup_app. split_and!.
    + apply NoDup_filter, NoDup_seqZ.
    + intros d (_ & Hle & _)%elem_of_missing_weekdays
                (Hlt & _)%elem_of_weekdays_after. lia.
    + apply NoDup_filter, NoDup_seqZ.
  - intros d [Hd|Hd]%elem_of_app.
    + by apply elem_of_missing_weekdays in Hd as (_ & _ & ? & ?).
    + apply elem_of_weekdays_after in Hd as (Hlt & _ & Hw). split; [done|].
      intros Hin. pose proof (idxmax_aux_greatest _ _ _ E d Hin). lia.
Qed.

(** The dates of the table when the filling loop ends. *)
Lemma currency_loop_dates yf_download (currency_df : DataFrame)
    lookback_days today_date filled_df st :
  fill_currency_gaps yf_download currency_df lookback_days today_date
  = Ok (filled_df, st) →
  (∀ r, r ∈ rows filled_df →
        r ∈ rows currency_df
        ∨ ∃ d, Date r = Some d ∧ weekday d < 5 ∧ Some d ∉ Date <$> rows currency_df)
  ∧ (NoDup (Date <$> rows currency_df) → NoDup (Date <$> rows filled_df)).
Proof.
  intros Hrun.
  destruct (currency_loop_appends yf_download currency_df lookback_days
              today_date filled_df st Hrun) as (_ & new & Hrows & Hsub & _).
  destruct (missing_dates_spec currency_df lookback_days today_date)
    as [Hnd Hmiss].
  assert (∀ k, k ∈ Date <$> new →
            ∃ d, k = Some d ∧ weekday d < 5 ∧ Some d ∉ Date <$> rows currency_df)
    as Hnew.
  { intros k Hk. apply (sublist_subseteq _ _ Hsub) in Hk.
    apply list_elem_of_fmap in Hk as (d & -> & Hd).
    exists d. split; [done|]. by apply Hmiss. }
  rewrite Hrows. split.
  - intros r [Hr|Hr]%elem_of_app; [by left | right].
    destruct (Hnew (Date r)) as (d & Hd & ?); [|by exists d].
    apply list_elem_of_fmap. by exists r.
  - intros Hnd0. rewrite fmap_app. apply NoDup_app. split_and!; [done| |].
    + intros k Hk Hk'. destruct (Hnew k Hk') as (d & -> & _ & Hnot). done.
    + apply (sublist_NoDup _ _ (NoDup_fmap_2 Some _ Hnd) Hsub).
Qed.

#[global] Instance date_order_total : Total date_order.
Proof.
  intros r1 r2. unfold date_order.
  destruct (Date r1) as [a|], (Date r2) as [b|]; try tauto.
  destruct (Z.le_ge_cases a b); [left | right]; lia.
Qed.

Section CleanUpFacts.

Variable to_datetime : list (option Z) → nat → option Z.

Lemma clean_up_vals (l : list row) : vals <$> clean_up to_datetime l ≡ₚ vals <$> l.
Proof.
  unfold clean_up. rewrite merge_sort_Permutation.
  assert (vals <$> imap (λ i r, Row (to_datetime (Date <$> l) i) (vals r)) l
          = vals <$> l) as ->; [|done].
  apply list_eq. intros i.
  rewrite !list_lookup_fmap, list_lookup_imap. by destruct (l !! i).
Qed.

Lemma clean_up_read_back (l : list row) :
  (∀ dates i, to_datetime dates i = mjoin (dates !! i)) →
  clean_up to_datetime l ≡ₚ l ∧ Sorted date_order (clean_up to_datetime l).
Proof.
  intros Hread. unfold clean_up. split; [|apply (Sorted_merge_sort _)].
  rewrite merge_sort_Permutation.
  assert (imap (λ i r, Row (to_datetime (Date <$> l) i) (vals r)) l = l) as ->;
    [|done].
  apply list_eq. intros i.
  rewrite list_lookup_imap. destruct (l !! i) as [[d v]|] eqn:Hi; [|done].
  simpl. by rewrite Hread, list_lookup_fmap, Hi.
Qed.

(** X10. What currency gap filling returns.  The columns are those of
    the table it was given.  When the table is empty or has no missing
    date it comes back as it was.  Otherwise the filling loop appends
    new rows to it and the clean-up reads the 'Date' column again and
    sorts: no rate is lost or changed, the rows of the result hold the
    rates of the old rows and of the new ones, row for row, but neither
    their place nor their 'Date' cell is kept.  The new rows are made
    for missing weekdays, one at most for each, in the order in which
    they were looked for.  A new row has an entry for exactly those
    currency columns whose batch download has an observation on the very
    date, the close of that observation rounded to 4 decimals, and it
    has at least one entry; the close is taken as it is, so an entry is
    NaN when the close is NaN, and a row all of whose entries are NaN is
    made and counted like any other.  [filled] is the number of new
    rows, and [filled] and [skipped] together count every missing date
    once. *)
Theorem currency_gap_fill_appends yf_download (currency_df : DataFrame)
    lookback_days today_date filled_df st :
  fill_missing_currency_data to_datetime yf_download currency_df lookback_days
                             today_date
  = Ok (filled_df, st) →
  let missing_dates := missing_dates_of currency_df lookback_days today_date in
  columns filled_df = columns currency_df
  ∧ ∃ new_rows,
      rows filled_df
      = match missing_dates with
        | [] => rows currency_df
        | _ :: _ => clean_up to_datetime (rows currency_df ++ new_rows)
        end
      ∧ vals <$> rows filled_df ≡ₚ vals <$> (rows currency_df ++ new_rows)
      ∧ Date <$> new_rows `sublist_of` Some <$> missing_dates
      ∧ (∀ r, r ∈ new_rows →
           vals r ≠ ∅
           ∧ ∃ d start_date end_date,
               Date r = Some d
               ∧ batch_range missing_dates = Some (start_date, end_date)
               ∧ ∀ currency_code,
                   vals r !! currency_code
                   = (if decide (currency_code ∈ columns currency_df)
                      then usable_answer yf_download currency_code
                                         start_date end_date
                      else None)
                     ≫= (λ forex_data, py_round 4 <$> forex_data !! d))
      ∧ filled st = length new_rows
      ∧ (filled st + skipped st)%nat = length missing_dates.
Proof.
  unfold fill_missing_currency_data. cbv zeta.
  destruct (fill_currency_gaps yf_download currency_df lookback_days today_date)
    as [[loop_df loop_st]|e] eqn:Hloop; [|done].
  destruct (currency_loop_appends _ _ _ _ _ _ Hloop)
    as (Hcols & new & Hrows & Hsub & Hnew & Hf & Hfs).
  simpl.
  destruct (missing_dates_of currency_df lookback_days today_date)
    as [|d ds] eqn:Hmissing.
  - intros [= <- <-]. split; [done|].
    apply sublist_nil_r, fmap_nil_inv in Hsub. subst new.
    rewrite app_nil_r in Hrows. exists []. rewrite app_nil_r.
    split_and!; [done | by rewrite Hrows | apply sublist_nil_l | | done | done].
    by intros r ?%elem_of_nil.
  - intros [= <- <-]. simpl. split; [done|]. exists new.
    split_and!; [by rewrite Hrows | | done | done | done | done].
    by rewrite clean_up_vals, Hrows.
Qed.

(** X11. The dates of the table that currency gap filling returns are
    those that the clean-up reads from the 'Date' column.  When it reads
    every date back as it was written, the table that is returned has
    the rows it was given and new rows for weekdays (Monday to Friday)
    that it had no row for, and no others; a table whose dates are all
    different comes back with dates that are all different; and, when a
    date was missing, the rows come back sorted by date, those without a
    date last.  The source does not make the clean-up read the dates
    back: it names no format, and a date that is read with day and month
    exchanged is returned so (example [clean_up_exchanges_day_and_month]). *)
Theorem currency_gap_fill_dates yf_download (currency_df : DataFrame)
    lookback_days today_date filled_df st :
  (∀ dates i, to_datetime dates i = mjoin (dates !! i)) →
  fill_missing_currency_data to_datetime yf_download currency_df lookback_days
                             today_date
  = Ok (filled_df, st) →
  (∀ r, r ∈ rows filled_df →
        r ∈ rows currency_df
        ∨ ∃ d, Date r = Some d ∧ weekday d < 5 ∧ Some d ∉ Date <$> rows currency_df)
  ∧ (NoDup (Date <$> rows currency_df) → NoDup (Date <$> rows filled_df))
  ∧ (missing_dates_of currency_df lookback_days today_date ≠ [] →
     Sorted date_order (rows filled_df)).
Proof.
  intros Hread. unfold fill_missing_currency_data.
  destruct (fill_currency_gaps yf_download currency_df lookback_days today_date)
    as [[loop_df loop_st]|e] eqn:Hloop; [|done].
  destruct (currency_loop_dates _ _ _ _ _ _ Hloop) as [Hrows Hnd].
  simpl.
  destruct (missing_dates_of currency_df lookback_days today_date) as [|d ds].
  { intros [= <- <-]. done. }
  intros [= <- <-]. simpl.
  destruct (clean_up_read_back (rows loop_df) Hread) as [Hperm Hsorted].
  split_and!.
  - intros r Hr. apply Hrows. by rewrite <- Hperm.
  - intros Hnd0. rewrite Hperm. by apply Hnd.
  - done.
Qed.

End CleanUpFacts.

Lemma currency_gap_fill_appends_witness :
  let missing_dates := missing_dates_of usd_table 0 (ymd 2024 1 8) in
  let returned := [usd_row (ymd 2024 1 2) 1.0956; usd_row (ymd 2024 1 3) 1.0945] in
  columns (Frame ["USD"] returned) = columns usd_table
  ∧ ∃ new_rows,
      returned
      = match missing_dates with
        | [] => rows usd_table
        | _ :: _ => clean_up read_back (rows usd_table ++ new_rows)
        end
      ∧ vals <$> returned ≡ₚ vals <$> (rows usd_table ++ new_rows)
      ∧ Date <$> new_rows `sublist_of` Some <$> missing_dates
      ∧ (∀ r, r ∈ new_rows →
           vals r ≠ ∅
           ∧ ∃ d start_date end_date,
               Date r = Some d
               ∧ batch_range missing_dates = Some (start_date, end_date)
               ∧ ∀ currency_code,
                   vals r !! currency_code
                   = (if decide (currency_code ∈ columns usd_table)
                      then usable_answer usd_provider currency_code
                                         start_date end_date
                      else None)
                     ≫= (λ forex_data, py_round 4 <$> forex_data !! d))
      ∧ 1%nat = length new_rows
      ∧ (1 + 3)%nat = length missing_dates.
Proof.
  apply (currency_gap_fill_appends read_back usd_provider usd_table 0
           (ymd 2024 1 8)
           (Frame ["USD"] [usd_row (ymd 2024 1 2) 1.0956;
                           usd_row (ymd 2024 1 3) 1.0945])
           (Stats 1 3)).
  vm_compute. reflexivity.
Defined.

Lemma currency_gap_fill_dates_witness :
  let returned := [usd_row (ymd 2024 1 2) 1.0956; usd_row (ymd 2024 1 3) 1.0945] in
  (∀ r, r ∈ returned →
        r ∈ rows usd_table
        ∨ ∃ d, Date r = Some d ∧ weekday d < 5 ∧ Some d ∉ Date <$> rows usd_table)
  ∧ (NoDup (Date <$> rows usd_table) → NoDup (Date <$> returned))
  ∧ (missing_dates_of usd_table 0 (ymd 2024 1 8) ≠ [] →
     Sorted date_order returned).
Proof.
  apply (currency_gap_fill_dates read_back usd_provider usd_table 0 (ymd 2024 1 8)
           (Frame ["USD"] [usd_row (ymd 2024 1 2) 1.0956;
                           usd_row (ymd 2024 1 3) 1.0945])
           (Stats 1 3)).
  - done.
  - vm_compute. reflexivity.
Defined.

(** The table ends on Tuesday 2 January 2024 and the loop fills
    Wednesday 3 January.  A clean-up that reads the text of the new
    cell, 03-01-2024, month first returns the row under 1 March. *)
Example clean_up_exchanges_day_and_month :
  fill_missing_currency_data
    (λ dates i, if bool_decide (i = 1%nat) then Some (ymd 2024 3 1)
                else mjoin (dates !! i))
    usd_provider usd_table 0 (ymd 2024 1 3)
  = Ok (Frame ["USD"] [usd_row (ymd 2024 1 2) 1.0956;
                       usd_row (ymd 2024 3 1) 1.0945],
        Stats 1 0).
Proof. vm_compute. reflexivity. Qed.


(** ** The projection of a company: outcome *)

Lemma project_company_fold (avail : list string)
    (pc : string → list (option float)) (l : list string) :
  ∀ acc : gmap string (list (option float)),
  match foldl (λ (acc : result (gmap string (list (option float)))) currency,
                 cols ← acc;
                 if bool_decide (currency = "EUR") then Ok cols
                 else if bool_decide ("EUR" ∈ avail) then Raise KeyError
                 else Ok (<[currency := pc currency]> cols))
              (Ok acc) l with
  | Raise e => e = KeyError ∧ "EUR" ∈ avail ∧ ∃ c, c ∈ l ∧ c ≠ "EUR"
  | Ok cols =>
      ("EUR" ∉ avail ∨ Forall (λ c, c = "EUR") l)
      ∧ ∀ c, cols !! c = if decide (c ∈ l ∧ c ≠ "EUR") then Some (pc c)
                         else acc !! c
  end.
Proof.
  set (step := λ (acc : result (gmap string (list (option float)))) currency, _).
  assert (∀ l e, foldl step (Raise e) l = Raise e) as Hraise.
  { induction l0 as [|c l0 IH]; intros e; [done|]. cbn [foldl]. apply IH. }
  induction l as [|c0 l IH]; intros acc; cbn [foldl].
  { split; [by right|]. intros c. rewrite decide_False; [done|].
    by intros [?%not_elem_of_nil _]. }
  destruct (decide (c0 = "EUR")) as [->|Hne].
  - assert (step (Ok acc) "EUR" = Ok acc) as -> by done.
    specialize (IH acc). destruct (foldl step (Ok acc) l) as [cols|e].
    + destruct IH as [Hall Hcols]. split.
      { destruct Hall as [?|Hall]; [by left | right; by constructor]. }
      intros c. rewrite Hcols.
      destruct (decide (c ∈ l ∧ c ≠ "EUR")) as [[Hin Hc]|Hn].
      * rewrite decide_True; [done | split; [by right | done]].
      * rewrite decide_False; [done|].
        intros [[->|Hin]%elem_of_cons Hc]; [done | by apply Hn].
    + destruct IH as (-> & Heur & c & Hc & Hne). split_and!; [done..|].
      exists c. split; [by right | done].
  - destruct (decide ("EUR" ∈ avail)) as [Heur|Heur].
    + assert (step (Ok acc) c0 = Raise KeyError) as ->.
      { unfold step. simpl. rewrite bool_decide_eq_false_2 by done.
        by rewrite bool_decide_eq_true_2 by done. }
      rewrite Hraise. split_and!; [done..|]. exists c0. split; [by left | done].
    + assert (step (Ok acc) c0 = Ok (<[c0 := pc c0]> acc)) as ->.
      { unfold step. simpl. rewrite bool_decide_eq_false_2 by done.
        by rewrite bool_decide_eq_false_2 by done. }
      specialize (IH (<[c0 := pc c0]> acc)).
      destruct (foldl step (Ok (<[c0 := pc c0]> acc)) l) as [cols|e].
      * destruct IH as [_ Hcols]. split; [by left|].
        intros c. rewrite Hcols.
        destruct (decide (c ∈ l ∧ c ≠ "EUR")) as [[Hin Hc]|Hn].
        { rewrite decide_True; [done | split; [by right | done]]. }
        destruct (decide (c = c0)) as [->|Hcc].
        { rewrite lookup_insert_eq.
          rewrite decide_True; [done | split; [by left | done]]. }
        rewrite lookup_insert_ne by done.
        rewrite decide_False; [done|].
        intros [[->|Hin]%elem_of_cons Hc]; [done | by apply Hn].
      * by destruct IH as (_ & ? & _).
Qed.

(** X13. The projection of a company fails, with a KeyError, exactly when
    the currency sheet has a column 'EUR' beside a column of another
    currency, whatever the prices and the rates are.  Otherwise it
    returns one column for each currency column of the sheet other than
    'EUR', and nothing else. *)
Theorem project_company_outcome (data : list (option string * float))
    (currency_ratios : sheet) :
  match project_company data currency_ratios with
  | Raise e =>
      e = KeyError ∧ "EUR" ∈ sheet_columns currency_ratios
      ∧ ∃ currency, currency ∈ sheet_columns currency_ratios ∧ currency ≠ "EUR"
  | Ok cols =>
      ("EUR" ∉ sheet_columns currency_ratios
       ∨ Forall (λ currency, currency = "EUR") (sheet_columns currency_ratios))
      ∧ ∀ currency,
          cols !! currency
          = if decide (currency ∈ sheet_columns currency_ratios ∧ currency ≠ "EUR")
            then Some (project_currency (length data)
                         (left_merge data (sheet_rows currency_ratios)) currency)
            else None
  end.
Proof.
  unfold project_company.
  pose proof (project_company_fold (sheet_columns currency_ratios)
                (project_currency (length data)
                   (left_merge data (sheet_rows currency_ratios)))
                (sheet_columns currency_ratios) ∅) as H.
  cbv zeta. destruct (foldl _ _ _) as [cols|e]; [|done].
  destruct H as [Hall Hcols]. split; [done|].
  intros c. rewrite Hcols. by rewrite lookup_empty.
Qed.

Example project_company_eur_column :
  project_company [(Some "02-01-2024", 100%float)]
    (Sheet ["USD"; "EUR"]
       [SheetRow (Some "02-01-2024") {[ "USD" := 1.1%float; "EUR" := 1%float ]}])
  = Raise KeyError
  ∧ project_company [(Some "02-01-2024", 100%float)]
      (Sheet ["EUR"] [SheetRow (Some "02-01-2024") {[ "EUR" := 1%float ]}])
    = Ok ∅.
Proof. split; vm_compute; reflexivity. Qed.

(** ** The stock configuration *)

Lemma dict_set_keys k v (d : list (string * string)) :
  (dict_set k v d).*1 = if decide (k ∈ d.*1) then d.*1 else d.*1 ++ [k].
Proof.
  induction d as [|[k' v'] d IH].
  { destruct (decide (k ∈ ([] : list (string * string)).*1)) as [H|H];
      [by apply not_elem_of_nil in H | done]. }
  cbn [dict_set]. case_bool_decide as Hk; simpl in Hk; subst.
  - rewrite decide_True; [done | by left].
  - rewrite fmap_cons, IH. destruct (decide (k ∈ d.*1)) as [Hin|Hnin].
    + rewrite decide_True; [done | by right].
    + rewrite decide_False; [done|]. by intros [->|?]%elem_of_cons.
Qed.

Lemma dict_set_NoDup k v (d : list (string * string)) :
  NoDup d.*1 → NoDup (dict_set k v d).*1.
Proof.
  intros Hd. rewrite dict_set_keys. case_decide; [done|].
  apply NoDup_app. split_and!; [done | | apply NoDup_singleton].
  by intros x Hx ->%list_elem_of_singleton.
Qed.

Lemma dict_get_set k v k' (d : list (string * string)) :
  dict_get k' (dict_set k v d) = if decide (k' = k) then Some v else dict_get k' d.
Proof.
  unfold dict_get. induction d as [|[k0 v0] d IH]; simpl.
  { repeat case_decide; simplify_eq; done. }
  case_bool_decide as Hk0; simpl in Hk0; subst; simpl.
  - repeat case_decide; simplify_eq; done.
  - repeat case_decide; simplify_eq; try done.
    + revert IH. destruct (list_find _ (dict_set k v d)) as [[i x]|]; simpl; [|done].
      by intros [= ->].
    + revert IH. destruct (list_find _ (dict_set k v d)) as [[i x]|],
        (list_find _ d) as [[j y]|]; simpl; try done.
Qed.

Lemma load_stocks_fold (l : list (string * string * string)) :
  ∀ acc : list (string * string) * gset string,
  let res := foldl add_stock_column acc l in
  (NoDup acc.1.*1 → NoDup res.1.*1)
  ∧ (∀ k, k ∈ res.1.*1 ↔ k ∈ acc.1.*1 ∨ k ∈ l.*1.*1)
  ∧ (∀ k, dict_get k res.1
          = match last (filter (λ column, column.1.1 = k) l) with
            | Some column => Some column.2
            | None => dict_get k acc.1
            end)
  ∧ (∀ k, k ∈ res.2
          ↔ k ∈ acc.2
            ∨ ∃ column, column ∈ l ∧ column.1.1 = k
                        ∧ european_ticker column.2 = false).
Proof.
  induction l as [|[[i c] t] l IH]; intros acc; cbv zeta.
  { simpl. split_and!; [done | | done |].
    - intros k. split; [by left | by intros [?|?%not_elem_of_nil]].
    - intros k. split; [by left | intros [?|(? & ?%not_elem_of_nil & _)]; done]. }
  cbn [foldl]. cbv zeta in IH.
  set (acc' := add_stock_column acc (i, c, t)).
  assert (acc'.1 = dict_set i t acc.1) as Hstocks.
  { unfold acc', add_stock_column. simpl. by destruct (_ && _). }
  assert (∀ k, k ∈ acc'.2 ↔ k ∈ acc.2 ∨ (i = k ∧ european_ticker t = false))
    as Husd.
  { intros k. unfold acc', add_stock_column, european_ticker. simpl.
    destruct (endswith t ".DE"), (endswith t ".L"), (endswith t ".PA"); simpl;
      rewrite ?elem_of_union, ?elem_of_singleton;
      intuition (subst; auto; discriminate). }
  destruct (IH acc') as (Hnd & Hkeys & Hget & Hmem). clear IH.
  split_and!.
  - intros Hacc. apply Hnd. rewrite Hstocks. by apply dict_set_NoDup.
  - intros k. rewrite Hkeys, Hstocks, dict_set_keys. simpl.
    case_decide; rewrite ?elem_of_app, ?list_elem_of_singleton, elem_of_cons;
      intuition (subst; auto).
  - intros k. rewrite Hget, Hstocks, dict_get_set.
    rewrite filter_cons. simpl.
    destruct (decide (i = k)) as [->|Hne].
    + rewrite decide_True by done.
      destruct (filter _ l) as [|x l']; [done|].
      change (last ((k, c, t) :: x :: l')) with (last (x :: l')).
      destruct (last (x :: l')) eqn:Hlast; [done|]. by apply last_None in Hlast.
    + by rewrite decide_False by done.
  - intros k. rewrite Hmem, Husd. split.
    + intros [[?|[-> Ht]]|(col & Hin & Hk & Ht)].
      * by left.
      * right. exists (k, c, t). split_and!; [by left | done..].
      * right. exists col. split_and!; [by right | done..].
    + intros [?|(col & [->|Hin]%elem_of_cons & Hk & Ht)].
      * by left; left.
      * left; right. done.
      * right. by exists col.
Qed.

Lemma omap_id_Some {A} (l : list A) : omap id (Some <$> l) = l.
Proof. induction l as [|x l IH]; [done|]. simpl. f_equal. exact IH. Qed.

Lemma dict_set_fresh k v (d : list (string * string)) :
  k ∉ d.*1 → dict_set k v d = d ++ [(k, v)].
Proof.
  induction d as [|[k' v'] d IH]; [done|].
  rewrite fmap_cons. intros [Hne Hk]%not_elem_of_cons. cbn [dict_set].
  rewrite bool_decide_eq_false_2 by (simpl in *; congruence).
  by rewrite IH.
Qed.

Lemma load_stocks_distinct (l : list (string * string * string)) :
  ∀ acc : list (string * string) * gset string,
  NoDup (acc.1.*1 ++ l.*1.*1) →
  (foldl add_stock_column acc l).1 = acc.1 ++ ((λ column, (column.1.1, column.2)) <$> l).
Proof.
  induction l as [|[[i c] t] l IH]; intros acc Hnd.
  { simpl. by rewrite app_nil_r. }
  cbn [foldl]. rewrite !fmap_cons in Hnd. simpl in Hnd.
  assert ((add_stock_column acc (i, c, t)).1 = acc.1 ++ [(i, t)]) as Hstep.
  { unfold add_stock_column. simpl.
    assert (dict_set i t acc.1 = acc.1 ++ [(i, t)]) as ->.
    { apply dict_set_fresh. apply NoDup_app in Hnd as (_ & Hdisj & _).
      intros Hin. apply (Hdisj i Hin). left. }
    by destruct (_ && _). }
  rewrite IH, Hstep.
  - rewrite fmap_cons. simpl. by rewrite <- app_assoc.
  - rewrite Hstep, fmap_app. simpl. by rewrite <- app_assoc.
Qed.

Lemma zip_fst_snd {A B C} (f : A * B * C → A * C) (l1 : list A) (l2 : list B)
    (l3 : list C) :
  (∀ x, f x = (x.1.1, x.2)) →
  length l2 = length l1 → length l3 = length l1 →
  f <$> zip (zip l1 l2) l3 = zip l1 l3
  ∧ (zip (zip l1 l2) l3).*1.*1 = l1.
Proof.
  intros Hf. revert l2 l3.
  induction l1 as [|x l1 IH]; intros [|y l2] [|z l3]; simpl; try done.
  intros [= H2] [= H3]. destruct (IH l2 l3 H2 H3) as [IH1 IH2].
  split; [rewrite Hf; simpl; f_equal; exact IH1 | f_equal; exact IH2].
Qed.

(** X14. Whatever the workbook holds, or when it is missing or
    unreadable, the keys of the configuration that
    [read_stocks_from_metadata] returns are distinct and every instrument
    marked for USD conversion is one of them.  When the three metadata
    rows have the same length and no empty cell and the headers are
    distinct, the configuration is the sheet's: [STOCKS] lists every
    header once, in the order of the sheet, with the ticker of its
    column, and [USD_STOCKS] holds the instruments whose ticker ends
    with none of '.DE', '.L' and '.PA'.  An empty cell breaks this: the
    cells to its right move one place to the left (example
    [read_stocks_blank_ticker]). *)
Theorem read_stocks_well_formed
    (workbook : option (result (list (option string) * list (option string)
                                * list (option string)))) :
  (NoDup (read_stocks_from_metadata workbook).1.*1
   ∧ ∀ instrument, instrument ∈ (read_stocks_from_metadata workbook).2 →
                   instrument ∈ (read_stocks_from_metadata workbook).1.*1)
  ∧ ∀ instruments companies tickers : list string,
      workbook = Some (Ok (Some <$> instruments, Some <$> companies,
                           Some <$> tickers)) →
      length companies = length instruments →
      length tickers = length instruments →
      NoDup instruments →
      (read_stocks_from_metadata workbook).1 = zip instruments tickers
      ∧ ∀ instrument,
          instrument ∈ (read_stocks_from_metadata workbook).2
          ↔ ∃ ticker, (instrument, ticker) ∈ zip instruments tickers
                      ∧ european_ticker ticker = false.
Proof.
  split.
  - assert (NoDup fallback_configuration.1.*1
            ∧ ∀ i, i ∈ fallback_configuration.2 → i ∈ fallback_configuration.1.*1)
      as Hfallback.
    { split; [by_evaluation|]. intros i. unfold fallback_configuration. simpl.
      rewrite elem_of_union, !elem_of_singleton, !elem_of_cons. intuition auto. }
    destruct workbook as [[[[header_row company_row] ticker_row]|e]|]; simpl;
      [|done..].
    unfold load_stocks.
    destruct (load_stocks_fold
                (zip (zip (omap id header_row) (omap id company_row))
                     (omap id ticker_row)) ([], ∅))
      as (Hnd & Hkeys & _ & Hmem).
    split; [apply Hnd; constructor|].
    intros i [?%not_elem_of_empty|(col & Hin & Hk & _)]%Hmem; [done|].
    apply Hkeys. right. subst i.
    apply list_elem_of_fmap. exists col.1. split; [done|].
    apply list_elem_of_fmap. by exists col.
  - intros instruments companies tickers -> Hcompanies Htickers Hnd. simpl.
    rewrite !omap_id_Some. unfold load_stocks.
    destruct (zip_fst_snd (λ column : string * string * string,
                             (column.1.1, column.2))
                instruments companies tickers) as [Hzip Hkeys]; [done..|].
    split.
    + rewrite load_stocks_distinct; simpl; by rewrite ?Hzip, ?Hkeys.
    + intros i.
      destruct (load_stocks_fold (zip (zip instruments companies) tickers) ([], ∅))
        as (_ & _ & _ & Hmem).
      rewrite Hmem, <- Hzip. split.
      * intros [?%not_elem_of_empty|(col & Hin & Hk & Ht)]; [done|].
        exists col.2. split; [|done]. apply list_elem_of_fmap.
        exists col. by rewrite Hk.
      * intros (t & Hin & Ht). right.
        apply list_elem_of_fmap in Hin as (col & [= -> ->] & Hin). eauto.
Qed.

Lemma read_stocks_well_formed_witness :
  (read_stocks_from_metadata
     (Some (Ok (Some <$> ["Allianz Share"; "IBM Share"; "Shell Share"],
                Some <$> ["Allianz"; "IBM"; "Shell"],
                Some <$> ["ALV.DE"; "IBM"; "SHEL.L"])))).1
  = [("Allianz Share", "ALV.DE"); ("IBM Share", "IBM"); ("Shell Share", "SHEL.L")]
  ∧ ("IBM Share" ∈ (read_stocks_from_metadata
                     (Some (Ok (Some <$> ["Allianz Share"; "IBM Share"; "Shell Share"],
                                Some <$> ["Allianz"; "IBM"; "Shell"],
                                Some <$> ["ALV.DE"; "IBM"; "SHEL.L"])))).2).
Proof.
  destruct (proj2 (read_stocks_well_formed
                     (Some (Ok (Some <$> ["Allianz Share"; "IBM Share"; "Shell Share"],
                                Some <$> ["Allianz"; "IBM"; "Shell"],
                                Some <$> ["ALV.DE"; "IBM"; "SHEL.L"]))))
                  ["Allianz Share"; "IBM Share"; "Shell Share"]
                  ["Allianz"; "IBM"; "Shell"] ["ALV.DE"; "IBM"; "SHEL.L"])
    as [Hstocks Husd]; [reflexivity | reflexivity | reflexivity | by_evaluation |].
  split; [exact Hstocks|]. apply Husd. exists "IBM". split; [by_evaluation|].
  vm_compute. reflexivity.
Defined.

(** The ticker cell of Allianz is empty: the tickers of IBM and
    Unilever move to the left, Allianz gets the ticker of IBM and is
    marked for conversion, and Unilever is not in the configuration. *)
Example read_stocks_blank_ticker :
  read_stocks_from_metadata
    (Some (Ok ([Some "Allianz Share"; Some "IBM Share"; Some "Unilever Share"],
               [Some "Allianz"; Some "IBM"; Some "Unilever"],
               [None; Some "IBM"; Some "UL"])))
  = ([("Allianz Share", "IBM"); ("IBM Share", "UL")],
     {[ "Allianz Share"; "IBM Share" ]}).
Proof. vm_compute. reflexivity. Qed.

(** X15. What the loop over the metadata columns stores: the ticker of
    an instrument is the one of its last column, and the instrument is
    marked for USD conversion exactly when one of its columns, not
    necessarily the last, has a ticker that ends with none of '.DE',
    '.L' and '.PA'.  The columns are the header, company and ticker cells
    taken together up to the shortest of the three rows. *)
Theorem load_stocks_lookup (instruments companies tickers : list string)
    (instrument : string) :
  let columns := zip (zip instruments companies) tickers in
  dict_get instrument (load_stocks instruments companies tickers).1
  = (λ column, column.2)
      <$> last (filter (λ column, column.1.1 = instrument) columns)
  ∧ (instrument ∈ (load_stocks instruments companies tickers).2
     ↔ ∃ column, column ∈ columns ∧ column.1.1 = instrument
                 ∧ european_ticker column.2 = false).
Proof.
  cbv zeta. unfold load_stocks.
  destruct (load_stocks_fold (zip (zip instruments companies) tickers) ([], ∅))
    as (_ & _ & Hget & Hmem).
  split.
  - rewrite Hget. by destruct (last _).
  - rewrite Hmem. split; [intros [?%not_elem_of_empty|?]; done | by right].
Qed.

Example load_stocks_run :
  load_stocks ["Allianz Share"; "IBM Share"; "Shell Share"; "IBM Share"]
              ["Allianz"; "IBM"; "Shell"; "IBM"]
              ["ALV.DE"; "IBM"; "SHEL.L"; "IBM.DE"; "UL"]
  = ([("Allianz Share", "ALV.DE"); ("IBM Share", "IBM.DE"); ("Shell Share", "SHEL.L")],
     {[ "IBM Share" ]}).
Proof. vm_compute. reflexivity. Qed.

(** ** Company files *)

Lemma project_company_ok_iff (data : list (option string * float))
    (currency_ratios : sheet) :
  (∃ cols, project_company data currency_ratios = Ok cols)
  ↔ "EUR" ∉ sheet_columns currency_ratios
    ∨ Forall (λ currency, currency = "EUR") (sheet_columns currency_ratios).
Proof.
  unfold project_company. cbv zeta.
  pose proof (project_company_fold (sheet_columns currency_ratios)
                (project_currency (length data)
                   (left_merge data (sheet_rows currency_ratios)))
                (sheet_columns currency_ratios) ∅) as H.
  destruct (foldl _ _ _) as [cols|e].
  - split; [intros _; apply H | eauto].
  - destruct H as (_ & Heur & c & Hc & Hne). split; [by intros [? ?]|].
    intros [?|Hall]; [done|]. rewrite Forall_forall in Hall.
    destruct Hne. by apply Hall.
Qed.

Section CompanyFilesFacts.

Variable write_excel :
  string → list (option string * float) → gmap string (list (option float))
  → result ().

Lemma company_loop_completes base_shares_eur currency_ratios
    (companies : list string) :
  "Company" ∈ sheet_columns base_shares_eur →
  ("EUR" ∉ sheet_columns currency_ratios
   ∨ Forall (λ currency, currency = "EUR") (sheet_columns currency_ratios)) →
  (∀ company, company ∈ companies → company ∈ sheet_columns base_shares_eur) →
  ∀ stats, ∃ stats',
    company_loop write_excel base_shares_eur currency_ratios companies stats
    = (stats', None)
    ∧ companies_found stats' = companies_found stats
    ∧ (files_created stats' + files_failed stats'
       = files_created stats + files_failed stats + length companies)%nat
    ∧ (files_failed stats ≤ files_failed stats')%nat
    ∧ (files_failed stats' = files_failed stats
       ↔ ∀ company, company ∈ companies →
           file_written write_excel base_shares_eur currency_ratios company).
Proof.
  intros Hcompany Hok. induction companies as [|company rest IH]; intros Hcols stats.
  { exists stats. simpl. split_and!; [done | done | lia | lia |].
    split; [by intros _ ? ?%not_elem_of_nil | done]. }
  cbn [company_loop]. cbv zeta.
  rewrite bool_decide_eq_true_2 by done.
  rewrite bool_decide_eq_true_2 by (apply Hcols; left).
  set (data := (λ r, (date_cell r, sheet_cell r company)) <$> tail (sheet_rows base_shares_eur)).
  destruct (proj2 (project_company_ok_iff data currency_ratios) Hok)
    as [cols Hproj].
  rewrite Hproj.
  assert (∀ c, c ∈ rest → c ∈ sheet_columns base_shares_eur) as Hrest.
  { intros c Hc. apply Hcols. by right. }
  destruct (write_excel _ data cols) as [[]|e] eqn:Hwrite.
  - destruct (IH Hrest (CompanyStats (companies_found stats)
                          (files_created stats + 1) (files_failed stats)))
      as (stats' & -> & Hfound & Hsum & Hle & Hiff).
    simpl in *. exists stats'. split_and!; [done | done | lia | done |].
    rewrite Hiff. split.
    + intros Hall c [->|Hc]%elem_of_cons; [|by apply Hall].
      exists cols. by split.
    + intros Hall c Hc. apply Hall. by right.
  - destruct (IH Hrest (CompanyStats (companies_found stats)
                          (files_created stats) (files_failed stats + 1)))
      as (stats' & -> & Hfound & Hsum & Hle & Hiff).
    simpl in *. exists stats'. split_and!; [done | done | lia | lia |].
    split; [lia|]. intros Hall. destruct (Hall company) as (cols' & Hp & Hw).
    { left. }
    fold data in Hp, Hw. rewrite Hproj in Hp. injection Hp as <-.
    by rewrite Hwrite in Hw.
Qed.

Lemma company_loop_escapes base_shares_eur currency_ratios company rest stats :
  "Company" ∉ sheet_columns base_shares_eur
  ∨ ¬ ("EUR" ∉ sheet_columns currency_ratios
       ∨ Forall (λ currency, currency = "EUR") (sheet_columns currency_ratios)) →
  company ∈ sheet_columns base_shares_eur →
  ∃ e, company_loop write_excel base_shares_eur currency_ratios
         (company :: rest) stats = (stats, Some e).
Proof.
  intros Hcase Hcol. cbn [company_loop]. cbv zeta.
  case_bool_decide as Hcompany; [|by eexists].
  rewrite bool_decide_eq_true_2 by done.
  destruct Hcase as [?|Hclash]; [done|].
  destruct (project_company _ currency_ratios) as [cols|e] eqn:Hproj; [|by eexists].
  destruct Hclash. eapply (proj1 (project_company_ok_iff _ _)). eauto.
Qed.

(** X16. The statistics of [generate_company_specific_files] always add
    up: every company found is counted once, as created or as failed.
    No file is failed and one at least is created exactly when the
    workbook could be read, its header row has the column 'Company' and
    at least one other, and the file of every company has been
    written. *)
Theorem company_files_stats (workbook : result (sheet * sheet)) :
  let stats := generate_company_specific_files write_excel workbook in
  (files_created stats + files_failed stats = companies_found stats)%nat
  ∧ (files_failed stats = 0%nat ∧ (0 < files_created stats)%nat
     ↔ ∃ base_shares_eur currency_ratios,
         workbook = Ok (base_shares_eur, currency_ratios)
         ∧ "Company" ∈ sheet_columns base_shares_eur
         ∧ filter (λ col, col ≠ "Company") (sheet_columns base_shares_eur) ≠ []
         ∧ ∀ company,
             company ∈ filter (λ col, col ≠ "Company") (sheet_columns base_shares_eur) →
             file_written write_excel base_shares_eur currency_ratios company).
Proof.
  cbv zeta. destruct workbook as [[base cur]|e]; simpl.
  2: { split; [done|]. split; [lia | by intros (? & ? & ? & _)]. }
  remember (filter (λ col, col ≠ "Company") (sheet_columns base)) as companies
    eqn:Hcompanies.
  assert (∀ c, c ∈ companies → c ∈ sheet_columns base) as Hcols.
  { intros c Hc. rewrite Hcompanies in Hc.
    by apply list_elem_of_filter in Hc as [_ ?]. }
  destruct companies as [|company rest].
  { simpl. split; [done|]. split; [lia|].
    intros (b & c & [= <- <-] & _ & Hne & _). by rewrite <- Hcompanies in Hne. }
  destruct (decide ("Company" ∈ sheet_columns base)) as [Hcompany|Hcompany].
  - destruct (decide ("EUR" ∉ sheet_columns cur
                      ∨ Forall (λ currency, currency = "EUR") (sheet_columns cur)))
      as [Hok|Hclash].
    + destruct (company_loop_completes base cur (company :: rest) Hcompany Hok
                  Hcols (CompanyStats (length (company :: rest)) 0 0))
        as (stats' & -> & Hfound & Hsum & _ & Hiff).
      simpl in *. split; [lia|]. split.
      * intros [Hfailed _]. exists base, cur. rewrite <- Hcompanies.
        split_and!; [done..|]. by apply Hiff.
      * intros (b & c & [= <- <-] & _ & _ & Hall). rewrite <- Hcompanies in Hall.
        apply Hiff in Hall. lia.
    + destruct (company_loop_escapes base cur company rest
                  (CompanyStats (length (company :: rest)) 0 0)) as [e ->].
      { by right. } { apply Hcols. left. }
      simpl. split; [done|]. split; [lia|].
      intros (b & c & [= <- <-] & _ & _ & Hall). rewrite <- Hcompanies in Hall.
      destruct (Hall company) as (cols & Hproj & _); [left|].
      destruct Hclash. eapply (proj1 (project_company_ok_iff _ _)). eauto.
  - destruct (company_loop_escapes base cur company rest
                (CompanyStats (length (company :: rest)) 0 0)) as [e ->].
    { by left. } { apply Hcols. left. }
    simpl. split; [done|]. split; [lia|].
    by intros (b & c & [= <- <-] & ? & _).
Qed.

End CompanyFilesFacts.

(** A writer that refuses the file of IBM. *)
Example company_files_run :
  generate_company_specific_files
    (λ company_file _ _,
       if bool_decide (company_file = "hist_IBM.xlsx") then Raise ValueError
       else Ok ())
    (Ok (Sheet ["Company"; "Allianz"; "IBM"]
           [SheetRow (Some "Ticker") ∅;
            SheetRow (Some "02-01-2024")
                     {[ "Allianz" := 240%float; "IBM" := 150%float ]}],
         Sheet ["USD"] [usd_sheet "02-01-2024" 1.1]))
  = CompanyStats 2 1 1
  ∧ generate_company_specific_files (λ _ _ _, Ok ())
      (Ok (Sheet ["Company"; "Allianz"; "IBM"]
             [SheetRow (Some "Ticker") ∅;
              SheetRow (Some "02-01-2024")
                       {[ "Allianz" := 240%float; "IBM" := 150%float ]}],
           Sheet ["USD"; "EUR"] [usd_sheet "02-01-2024" 1.1]))
    = CompanyStats 2 0 2.
Proof. split; vm_compute; reflexivity. Qed.

(** ** Data quality analysis *)

Lemma dated_max (l : list row) :
  Forall (λ r, is_Some (Date r)) l → l ≠ [] →
  ∃ first last, date_min (omap Date l) = Some first
                ∧ date_max (omap Date l) = Some last.
Proof.
  intros Hl Hne. destruct l as [|r l]; [done|].
  apply Forall_cons in Hl as [[d Hd] _]. simpl. rewrite Hd. simpl. eauto.
Qed.

Lemma analyze_stock_spec shares_df end_date start_date st stock_name :
  dated shares_df →
  ∃ shares_data,
    analyze_stock shares_df end_date start_date st stock_name
    = Ok (shares_data,
          st.1.2 ++ option_list (stale_stock shares_df end_date stock_name),
          match stale_stock shares_df end_date stock_name with
          | Some _ => WARNING
          | None => st.2
          end).
Proof.
  intros Hdated. unfold analyze_stock, stale_stock, last_priced.
  destruct st as [[shares gaps] h]. simpl.
  case_bool_decide; [|rewrite app_nil_r; eauto]. cbv zeta.
  destruct (priced_rows shares_df stock_name) as [|r l] eqn:Hrows.
  { simpl. rewrite app_nil_r. eauto. }
  destruct (dated_max (r :: l)) as (first & last & -> & ->); [|done|].
  { rewrite <- Hrows. unfold priced_rows. apply Forall_forall.
    intros x [_ Hx]%list_elem_of_filter. revert x Hx. by apply Forall_forall. }
  destruct (_ <? _); simpl; rewrite ?app_nil_r; eauto.
Qed.

Lemma analyze_stocks_spec shares_df end_date start_date (l : list string) :
  dated shares_df →
  ∀ st, ∃ shares_data,
    foldl (λ acc stock_name,
             st ← acc; analyze_stock shares_df end_date start_date st stock_name)
          (Ok st) l
    = Ok (shares_data,
          st.1.2 ++ omap (stale_stock shares_df end_date) l,
          match omap (stale_stock shares_df end_date) l with
          | [] => st.2
          | _ :: _ => WARNING
          end).
Proof.
  intros Hdated. induction l as [|stock_name l IH]; intros st.
  { destruct st as [[shares gaps] h]. exists shares. simpl. by rewrite app_nil_r. }
  cbn [foldl]. simpl mbind at 2.
  destruct (analyze_stock_spec shares_df end_date start_date st stock_name Hdated)
    as [shares_data Hstep].
  change (result_bind _ _ ?f (Ok ?x)) with (f x). rewrite Hstep.
  destruct (IH (shares_data,
                st.1.2 ++ option_list (stale_stock shares_df end_date stock_name),
                match stale_stock shares_df end_date stock_name with
          | Some _ => WARNING
          | None => st.2
          end))
    as [shares_data' ->].
  exists shares_data'. cbn [fst snd].
  destruct (stale_stock shares_df end_date stock_name) as [gap|] eqn:Hstale.
  - do 2 f_equal; [f_equal|].
    + rewrite <- app_assoc. simpl. by rewrite Hstale.
    + simpl. rewrite Hstale. by destruct (omap _ l).
  - do 2 f_equal; [f_equal|].
    + simpl. by rewrite Hstale, app_nil_r.
    + simpl. by rewrite Hstale.
Qed.

Lemma analyze_currency_spec currency_df end_date st :
  dated currency_df →
  ∃ currency_data,
    analyze_currency currency_df end_date st
    = Ok (currency_data,
          st.1 ++ option_list (stale_currency currency_df end_date),
          match stale_currency currency_df end_date with
          | Some _ => WARNING
          | None => st.2
          end).
Proof.
  intros Hdated. unfold analyze_currency, stale_currency.
  destruct (rows currency_df) as [|r l] eqn:Hrows.
  { simpl. rewrite app_nil_r. eauto. }
  destruct (dated_max (r :: l)) as (first & last & _ & ->); [|done|].
  { by rewrite <- Hrows. }
  cbv zeta. destruct (_ <? _); simpl; rewrite ?app_nil_r; eauto.
Qed.

Lemma analyze_data_quality_spec STOCKS shares_df currency_df days end_date :
  dated shares_df → dated currency_df →
  ∃ report,
    analyze_data_quality STOCKS shares_df currency_df days end_date = Ok report
    ∧ data_gaps report
      = omap (stale_stock shares_df end_date) STOCKS.*1
        ++ option_list (stale_currency currency_df end_date)
    ∧ overall_health report = health_of (length (data_gaps report)).
Proof.
  intros Hshares Hcurrency. unfold analyze_data_quality. cbv zeta.
  destruct (analyze_stocks_spec shares_df end_date
              (DateTime (dt_date end_date - days) (dt_micros end_date))
              STOCKS.*1 Hshares ([], [], HEALTHY)) as [shares_data ->].
  simpl mbind at 1. change (result_bind _ _ ?f (Ok ?x)) with (f x). cbv beta.
  set (stale := omap (stale_stock shares_df end_date) STOCKS.*1).
  set (h := match stale with [] => _ | _ :: _ => _ end).
  destruct (analyze_currency_spec currency_df end_date (stale, h) Hcurrency)
    as [currency_data Hcur].
  simpl in Hcur |- *. rewrite Hcur. simpl.
  eexists. split; [done|]. simpl. split; [done|].
  unfold h. destruct (stale_currency currency_df end_date) as [gap|]; simpl.
  - destruct stale as [|g1 [|g2 [|g3 stale']]]; simpl; done.
  - rewrite app_nil_r.
    destruct stale as [|g1 [|g2 [|g3 stale']]]; simpl; done.
Qed.

(** X17. When every row of the two tables has a date that parses, the
    analysis completes, and its report lists exactly the stale data: a
    configured stock that is a column of the table and whose last price
    is older than its threshold (3 days for a name that contains
    'Allianz', 5 days otherwise), with the days since that price, and the
    currency table when its latest date is more than a day old.  A stock
    without any price is not listed, and missing prices on recent rows
    are not listed either.  The health is HEALTHY with no entry, WARNING
    with one or two, CRITICAL with more. *)
Theorem analysis_reports_stale_data STOCKS shares_df currency_df days end_date :
  dated shares_df → dated currency_df →
  ∃ report,
    analyze_data_quality STOCKS shares_df currency_df days end_date = Ok report
    ∧ (∀ stock_name n,
         StaleStock stock_name n ∈ data_gaps report
         ↔ stock_name ∈ STOCKS.*1 ∧ stock_name ∈ columns shares_df
           ∧ ∃ last_date, last_priced shares_df stock_name = Some last_date
                          ∧ n = dt_date end_date - last_date
                          ∧ staleness_threshold stock_name < n)
    ∧ (∀ n,
         StaleCurrency n ∈ data_gaps report
         ↔ ∃ latest_currency,
             date_max (omap Date (rows currency_df)) = Some latest_currency
             ∧ n = dt_date end_date - latest_currency ∧ 1 < n)
    ∧ overall_health report = health_of (length (data_gaps report)).
Proof.
  intros Hshares Hcurrency.
  destruct (analyze_data_quality_spec STOCKS shares_df currency_df days end_date
              Hshares Hcurrency) as (report & Hreport & Hgaps & Hhealth).
  exists report. split; [done|]. split; [|split; [|done]].
  - intros stock_name n. rewrite Hgaps, elem_of_app, list_elem_of_omap.
    unfold stale_stock, stale_currency, timedelta_days. split.
    + intros [(s & Hs & Hstale)|Hcur].
      * case_bool_decide as Hcol; [|done].
        destruct (last_priced shares_df s) as [last|] eqn:Hlast; [|done].
        destruct (Z.ltb_spec (staleness_threshold s) (dt_date end_date - last));
          [|done].
        injection Hstale as <- <-. rewrite Hlast. eauto 10.
      * destruct (date_max _) as [latest|]; [|by apply elem_of_nil in Hcur].
        destruct (_ <? _); simpl in Hcur.
        -- by apply list_elem_of_singleton in Hcur.
        -- by apply elem_of_nil in Hcur.
    + intros (Hs & Hcol & last & Hlast & -> & Hlt). left.
      exists stock_name. split; [done|].
      rewrite bool_decide_eq_true_2, Hlast by done.
      by rewrite (proj2 (Z.ltb_lt _ _) Hlt).
  - intros n. rewrite Hgaps, elem_of_app, list_elem_of_omap.
    unfold stale_stock, stale_currency, timedelta_days. split.
    + intros [(s & Hs & Hstale)|Hcur].
      * case_bool_decide as Hcol; [|done].
        destruct (last_priced shares_df s) as [last|]; [|done].
        by destruct (_ <? _).
      * destruct (date_max _) as [latest|]; [|by apply elem_of_nil in Hcur].
        destruct (Z.ltb_spec 1 (dt_date end_date - latest)); simpl in Hcur.
        -- apply list_elem_of_singleton in Hcur as [= ->]. eauto.
        -- by apply elem_of_nil in Hcur.
    + intros (latest & -> & -> & Hlt). right.
      rewrite (proj2 (Z.ltb_lt _ _) Hlt). simpl. by apply list_elem_of_singleton.
Qed.

Lemma analysis_reports_stale_data_witness :
  ∃ report,
    analyze_data_quality stocks_three
      (Frame ["Allianz Share"; "IBM Share"; "Unilever Share"]
         [Row (Some (ymd 2024 1 2)) {[ "Allianz Share" := 240%float;
                                       "IBM Share" := 150%float ]};
          Row (Some (ymd 2024 1 5)) {[ "IBM Share" := 151%float ]}])
      usd_table 5 (DateTime (ymd 2024 1 8) 3600000000)
    = Ok report
    ∧ data_gaps report = [StaleStock "Allianz Share" 6; StaleCurrency 6]
    ∧ overall_health report = WARNING.
Proof.
  destruct (analysis_reports_stale_data stocks_three
              (Frame ["Allianz Share"; "IBM Share"; "Unilever Share"]
                 [Row (Some (ymd 2024 1 2)) {[ "Allianz Share" := 240%float;
                                               "IBM Share" := 150%float ]};
                  Row (Some (ymd 2024 1 5)) {[ "IBM Share" := 151%float ]}])
              usd_table 5 (DateTime (ymd 2024 1 8) 3600000000))
    as (report & Hreport & _).
  - repeat constructor; by eexists.
  - unfold dated. vm_compute. repeat constructor; by eexists.
  - exists report. split; [done|].
    vm_compute in Hreport. injection Hreport as <-. by vm_compute.
Defined.

(** ** The final report *)

Lemma functional_failures_nil new_records currency_updates gaps_filled
    company_file_stats data_was_current :
  functional_failures new_records currency_updates gaps_filled
    company_file_stats data_was_current = []
  ↔ (data_was_current = true
     ∨ (0 < new_records ∧ (0 < currency_updates ∨ 0 < gaps_filled))%nat)
    ∧ ∃ stats, company_file_stats = Some stats
               ∧ files_failed stats = 0%nat ∧ (0 < files_created stats)%nat.
Proof.
  assert (∀ (b : bool) (x : functional_failure),
            (if b then [x] else []) = [] ↔ b = false) as Hif.
  { intros [] x; split; done. }
  unfold functional_failures. rewrite app_nil. f_equiv.
  - destruct data_was_current.
    { split; [by left | done]. }
    rewrite app_nil, !Hif, andb_false_iff, !Nat.eqb_neq.
    split; [intros; right; lia | intros [[=]|?]; lia].
  - destruct company_file_stats as [stats|].
    + rewrite app_nil, !Hif, Nat.ltb_ge, Nat.eqb_neq. split.
      * intros [? ?]. exists stats. split_and!; [done | lia | lia].
      * intros (s & [= <-] & ? & ?). lia.
    + split; [done | by intros (? & [=] & _)].
Qed.

(** X18. When every row of the two tables has a date that parses, the
    final report ends in one of two ways, which the data quality does
    not influence.  It ends without failure, with [exit (0)] under
    GitHub Actions and a plain return elsewhere, when the data was
    current or new share records and a currency update or a filled gap
    were obtained, and the company statistics show no failed file and at
    least one created file; in every other case it ends with
    [exit (1)]. *)
Theorem final_report_outcome STOCKS shares_df currency_df
    (new_records currency_updates gaps_filled conversions : nat)
    company_file_stats data_was_current end_date github_actions :
  dated shares_df → dated currency_df →
  let objectives_met :=
    (data_was_current = true
     ∨ (0 < new_records ∧ (0 < currency_updates ∨ 0 < gaps_filled))%nat)
    ∧ ∃ stats, company_file_stats = Some stats
               ∧ files_failed stats = 0%nat ∧ (0 < files_created stats)%nat in
  ∃ o,
    generate_final_report_and_exit STOCKS shares_df currency_df new_records
      currency_updates gaps_filled conversions company_file_stats
      data_was_current end_date github_actions = Ok o
    ∧ (objectives_met → o = if github_actions then Exit 0 else Returned)
    ∧ (¬ objectives_met → o = Exit 1).
Proof.
  intros Hshares Hcurrency objectives_met. unfold generate_final_report_and_exit.
  destruct (analyze_data_quality_spec STOCKS shares_df currency_df 5 end_date
              Hshares Hcurrency) as (report & -> & _).
  simpl.
  pose proof (functional_failures_nil new_records currency_updates gaps_filled
                company_file_stats data_was_current) as Hnil.
  fold objectives_met in Hnil.
  destruct (functional_failures _ _ _ _ _) as [|failure failures].
  - destruct github_actions; eexists; (split; [done|]);
      (split; [done | intros Hnot; destruct Hnot; by apply Hnil]).
  - eexists. split; [done|]. split; [|done].
    intros Hmet. by apply Hnil in Hmet.
Qed.

Lemma final_report_outcome_witness :
  ∃ o,
    generate_final_report_and_exit stocks_three
      (Frame ["Allianz Share"] [Row (Some (ymd 2024 1 2)) {[ "Allianz Share" := 240%float ]}])
      usd_table 0 0 0 0 (Some (CompanyStats 3 3 0)) true
      (DateTime (ymd 2024 3 1) 0) true = Ok o
    ∧ o = Exit 0.
Proof.
  destruct (final_report_outcome stocks_three
              (Frame ["Allianz Share"]
                 [Row (Some (ymd 2024 1 2)) {[ "Allianz Share" := 240%float ]}])
              usd_table 0 0 0 0 (Some (CompanyStats 3 3 0)) true
              (DateTime (ymd 2024 3 1) 0) true)
    as (o & Ho & Hmet & _).
  - repeat constructor; by eexists.
  - repeat constructor; by eexists.
  - exists o. split; [done|]. apply Hmet. split; [by left|].
    exists (CompanyStats 3 3 0). simpl. split_and!; [done | done | lia].
Defined.

(** ** Today's currency row *)

Lemma filter_all {A} (P : A → Prop) `{!∀ x, Decision (P x)} (l : list A) :
  (∀ x, x ∈ l → P x) → filter P l = l.
Proof.
  induction l as [|x l IH]; intros Hall; [done|].
  rewrite filter_cons_True by (apply Hall; left). f_equal. apply IH.
  intros y Hy. apply Hall. by right.
Qed.

Section TodayRatesFacts.

Variable yf_download_rows : string → Z → Z → result (list (Z * float)).

Lemma add_today_rate_step currency_rates today_date acc currency_code :
  add_today_rate yf_download_rows currency_rates today_date acc currency_code
  = match today_rate yf_download_rows currency_rates today_date currency_code with
    | Some rate => (set_cell acc.1 currency_code rate, (acc.2 + 1)%nat)
    | None => acc
    end.
Proof.
  unfold add_today_rate, today_rate.
  destruct (yf_download_rows _ _ _) as [[|obs forex_data]|e]; try done.
  by destruct (currency_rates !! currency_code).
Qed.

Lemma add_today_rate_fold currency_rates today_date (l : list string) :
  ∀ acc,
  let filled :=
    foldl (add_today_rate yf_download_rows currency_rates today_date) acc l in
  Date filled.1 = Date acc.1
  ∧ (∀ c, vals filled.1 !! c
          = match (if decide (c ∈ l)
                   then today_rate yf_download_rows currency_rates today_date c
                   else None) with
            | Some rate => Some rate
            | None => vals acc.1 !! c
            end)
  ∧ (acc.2 ≤ filled.2)%nat
  ∧ (filled.2 = acc.2
     ↔ ∀ c, c ∈ l →
            today_rate yf_download_rows currency_rates today_date c = None).
Proof.
  induction l as [|c0 l IH]; intros acc; cbv zeta.
  { simpl. split_and!; [done | done | lia |].
    split; [by intros _ ? ?%not_elem_of_nil | done]. }
  cbn [foldl]. rewrite add_today_rate_step.
  destruct (today_rate yf_download_rows currency_rates today_date c0)
    as [rate|] eqn:Hc0.
  - destruct (IH (set_cell acc.1 c0 rate, (acc.2 + 1)%nat))
      as (Hdate & Hvals & Hle & Hiff). simpl in *.
    split_and!; [done | | lia |].
    + intros c. rewrite Hvals.
      destruct (decide (c = c0)) as [->|Hne].
      * rewrite (decide_True (P := c0 ∈ c0 :: l)) by left.
        rewrite lookup_insert_eq.
        destruct (decide (c0 ∈ l)); rewrite ?Hc0; done.
      * rewrite lookup_insert_ne by done.
        destruct (decide (c ∈ l)) as [Hin|Hnin].
        -- rewrite decide_True; [done | by right].
        -- rewrite decide_False; [done|]. by intros [->|?]%elem_of_cons.
    + split; [lia|]. intros Hall. specialize (Hall c0). rewrite Hc0 in Hall.
      discriminate Hall. left.
  - destruct (IH acc) as (Hdate & Hvals & Hle & Hiff).
    split_and!; [done | | done |].
    + intros c. rewrite Hvals.
      destruct (decide (c = c0)) as [->|Hne].
      * rewrite (decide_True (P := c0 ∈ c0 :: l)) by left.
        destruct (decide (c0 ∈ l)); rewrite ?Hc0; done.
      * destruct (decide (c ∈ l)) as [Hin|Hnin].
        -- rewrite decide_True; [done | by right].
        -- rewrite decide_False; [done|]. by intros [->|?]%elem_of_cons.
    + rewrite Hiff. split.
      * intros Hall c [->|Hc]%elem_of_cons; [done | by apply Hall].
      * intros Hall c Hc. apply Hall. by right.
Qed.

Lemma today_currency_rows_spec api currency_df_existing today_date :
  match today_currency_rows yf_download_rows api currency_df_existing today_date with
  | [] =>
      ∀ currency_rates, api = Ok currency_rates →
        weekday today_date < 5 →
        Some today_date ∉ Date <$> rows currency_df_existing →
        ∀ c, c ∈ columns currency_df_existing →
             today_rate yf_download_rows currency_rates today_date c = None
  | r :: l =>
      l = []
      ∧ ∃ currency_rates, api = Ok currency_rates
          ∧ weekday today_date < 5
          ∧ (Some today_date ∉ Date <$> rows currency_df_existing)
          ∧ Date r = Some today_date
          ∧ (∃ c, c ∈ columns currency_df_existing
                  ∧ is_Some (today_rate yf_download_rows currency_rates
                                        today_date c))
          ∧ ∀ c, vals r !! c
                 = if decide (c ∈ columns currency_df_existing)
                   then today_rate yf_download_rows currency_rates today_date c
                   else None
  end.
Proof.
  unfold today_currency_rows. destruct api as [currency_rates|e]; [|done].
  cbv zeta. case_bool_decide as Hweekday; [|by intros ? _ ?].
  case_bool_decide as Htoday; simpl; [by intros ? _ _ ?|].
  destruct (add_today_rate_fold currency_rates today_date
              (columns currency_df_existing) (Row (Some today_date) ∅, 0%nat))
    as (Hdate & Hvals & Hle & Hiff). simpl in *.
  destruct (Nat.ltb_spec 0 (foldl (add_today_rate yf_download_rows currency_rates
                                     today_date)
                                  (Row (Some today_date) ∅, 0%nat)
                                  (columns currency_df_existing)).2)
    as [Hpos|Hzero].
  - split; [done|]. exists currency_rates. split_and!; [done..| |].
    + destruct (decide (Exists (λ c, is_Some (today_rate yf_download_rows
                                                currency_rates today_date c))
                               (columns currency_df_existing)))
        as [Hex|Hnot].
      { by apply Exists_exists in Hex. }
      rewrite <- Forall_Exists_neg, Forall_forall in Hnot.
      assert (∀ c, c ∈ columns currency_df_existing →
                 today_rate yf_download_rows currency_rates today_date c = None)
        as Hall.
      { intros c Hc. specialize (Hnot c Hc).
        by destruct (today_rate _ _ _ c); [destruct Hnot|]. }
      apply Hiff in Hall. lia.
    + intros c. rewrite Hvals, lookup_empty.
      by destruct (decide (c ∈ _)); [destruct (today_rate _ _ _ c)|].
  - intros rates [= <-] _ _. apply Hiff. lia.
Qed.

(** X19. Today's row of the currency table.  [main] makes at most one
    row, and makes it exactly when the exchange-rate API answered, today
    is a weekday, the table has no row for today and at least one
    currency column of the table gets an entry.  The row is dated today
    and holds, for the columns of the table only, the first close of the
    download of the currency rounded to 4 decimals, or the rate of the
    API rounded to 4 decimals when the download raised; a download that
    answers with no row leaves the currency out, and the rate of the API
    is not used for it.  An entry is whatever the first close is: the
    code has no test that it is a number, so a close that is NaN gives a
    NaN entry, which counts like any other and makes the row (example
    [today_row_nan_close]). *)
Theorem today_row_spec api currency_df_existing today_date :
  (length (today_currency_rows yf_download_rows api currency_df_existing
             today_date) ≤ 1)%nat
  ∧ ∀ r,
      r ∈ today_currency_rows yf_download_rows api currency_df_existing today_date
      ↔ ∃ currency_rates,
          api = Ok currency_rates
          ∧ weekday today_date < 5
          ∧ (Some today_date ∉ Date <$> rows currency_df_existing)
          ∧ Date r = Some today_date
          ∧ (∃ c, c ∈ columns currency_df_existing
                  ∧ is_Some (today_rate yf_download_rows currency_rates
                                        today_date c))
          ∧ ∀ c, vals r !! c
                 = if decide (c ∈ columns currency_df_existing)
                   then today_rate yf_download_rows currency_rates today_date c
                   else None.
Proof.
  pose proof (today_currency_rows_spec api currency_df_existing today_date) as H.
  destruct (today_currency_rows _ _ _ _) as [|r0 l].
  - split; [simpl; lia|]. intros r. split; [by intros ?%not_elem_of_nil|].
    intros (rates & Hapi & Hweekday & Htoday & _ & (c & Hc & Hsome) & _).
    rewrite (H rates Hapi Hweekday Htoday c Hc) in Hsome. by destruct Hsome.
  - destruct H as (-> & rates & Hapi & Hweekday & Htoday & Hdate & Hex & Hvals).
    split; [simpl; lia|]. intros r. rewrite list_elem_of_singleton. split.
    + intros ->. by exists rates.
    + intros (rates' & Hapi' & _ & _ & Hdate' & _ & Hvals').
      rewrite Hapi in Hapi'. injection Hapi' as <-.
      destruct r as [d v], r0 as [d0 v0]. simpl in *. subst. f_equal.
      apply map_eq. intros c. by rewrite Hvals, Hvals'.
Qed.

(** X20. The currency table after the update of [main] has the columns
    of the existing table.  Its rows are the existing rows in their
    order, of which only the last is kept for each 'Date' key that occurs
    more than once (rows without a date share one key), followed by
    today's row, if any.  So existing rows are dropped when a key
    repeats (example [update_drops_repeated_dates]); when the dates of
    the existing table are pairwise different, every existing row stays
    in place as it was. *)
Theorem update_currencies_appends api currency_df_existing today_date :
  columns (update_currencies yf_download_rows api currency_df_existing today_date)
  = columns currency_df_existing
  ∧ rows (update_currencies yf_download_rows api currency_df_existing today_date)
    = drop_duplicates_last (rows currency_df_existing)
      ++ today_currency_rows yf_download_rows api currency_df_existing today_date
  ∧ (NoDup (Date <$> rows currency_df_existing) →
     rows (update_currencies yf_download_rows api currency_df_existing today_date)
     = rows currency_df_existing
       ++ today_currency_rows yf_download_rows api currency_df_existing today_date).
Proof.
  assert (columns (update_currencies yf_download_rows api currency_df_existing
                     today_date)
          = columns currency_df_existing
          ∧ rows (update_currencies yf_download_rows api currency_df_existing
                    today_date)
            = drop_duplicates_last (rows currency_df_existing)
              ++ today_currency_rows yf_download_rows api currency_df_existing
                   today_date) as [Hcols Hrows].
  { unfold update_currencies. cbv zeta.
    pose proof (today_currency_rows_spec api currency_df_existing today_date) as H.
    destruct (today_currency_rows _ _ _ _) as [|r l]; simpl.
    { by rewrite !app_nil_r. }
    destruct H as (-> & rates & _ & _ & Htoday & Hdate & _). split.
    - rewrite filter_none; [apply app_nil_r|].
      intros c [_ Hc]%list_elem_of_filter Hnot. by apply Hnot.
    - rewrite drop_duplicates_app. simpl. f_equal.
      apply filter_all. intros x Hx Hin.
      apply list_elem_of_singleton in Hin. rewrite Hdate in Hin.
      apply Htoday. apply drop_duplicates_dates. apply list_elem_of_fmap. eauto. }
  split_and!; [done | done |].
  intros Hnd. by rewrite Hrows, drop_duplicates_unique.
Qed.

End TodayRatesFacts.

Lemma update_currencies_appends_witness :
  rows (update_currencies (λ _ _ _, Ok [(ymd 2024 1 8, 1.09456%float)])
          (Ok ∅) usd_table (ymd 2024 1 8))
  = [usd_row (ymd 2024 1 2) 1.0956; usd_row (ymd 2024 1 8) 1.0946].
Proof.
  etrans.
  - apply (update_currencies_appends (λ _ _ _, Ok [(ymd 2024 1 8, 1.09456%float)])
             (Ok ∅) usd_table (ymd 2024 1 8)).
    by_evaluation.
  - vm_compute. reflexivity.
Defined.

(** The download answers for the dollar, raises for the pound and is
    empty for the yen: the pound gets the rate of the API, the yen
    nothing. *)
Example today_row_run :
  today_currency_rows
    (λ ticker _ _,
       if bool_decide (ticker = "EURUSD=X") then Ok [(ymd 2024 1 8, 1.09456%float)]
       else if bool_decide (ticker = "EURGBP=X") then Raise DownloadError
            else Ok [])
    (Ok {[ "GBP" := 0.861234%float; "JPY" := 158.1%float ]})
    (Frame ["USD"; "GBP"; "JPY"] [usd_row (ymd 2024 1 5) 1.0956])
    (ymd 2024 1 8)
  = [Row (Some (ymd 2024 1 8)) {[ "USD" := 1.0946%float; "GBP" := 0.8612%float ]}].
Proof. vm_compute. reflexivity. Qed.

(** The download of the dollar answers with a close that is NaN: the
    row is made, and its only entry is NaN. *)
Example today_row_nan_close :
  today_currency_rows (λ _ _ _, Ok [(ymd 2024 1 8, nan)]) (Ok ∅)
    (Frame ["USD"] [usd_row (ymd 2024 1 5) 1.0956]) (ymd 2024 1 8)
  = [Row (Some (ymd 2024 1 8)) {[ "USD" := nan ]}].
Proof. vm_compute. reflexivity. Qed.

(** Two existing rows have no date: the update keeps the last of them
    only. *)
Example update_drops_repeated_dates :
  rows (update_currencies (λ _ _ _, Ok []) (Ok ∅)
          (Frame ["USD"] [Row None {[ "USD" := 1.1%float ]};
                          usd_row (ymd 2024 1 5) 1.0956;
                          Row None {[ "USD" := 1.2%float ]}])
          (ymd 2024 1 8))
  = [usd_row (ymd 2024 1 5) 1.0956; Row None {[ "USD" := 1.2%float ]}].
Proof. vm_compute. reflexivity. Qed.

(** ** The cells that the price gap filling may write *)

Section ChangesOnly.
Context (touchable : row → string → Prop) (orig : list row).

Lemma changes_only_refl : changes_only touchable orig orig.
Proof. apply Forall_Forall2_diag, Forall_forall. done. Qed.

Lemma changes_only_lookup (cur : list row) i r0 r :
  changes_only touchable orig cur → orig !! i = Some r0 → cur !! i = Some r →
  Date r = Date r0 ∧ ∀ c, ¬ touchable r0 c → vals r !! c = vals r0 !! c.
Proof. intros Hk H0 H1. by apply (Forall2_lookup_lr _ _ _ _ _ _ Hk H0 H1). Qed.

Lemma changes_only_set_loc (cur : list row) idx c v :
  changes_only touchable orig cur →
  (∀ r0, orig !! idx = Some r0 → touchable r0 c) →
  changes_only touchable orig (set_loc idx c v cur).
Proof.
  intros Hk Htouch. unfold set_loc.
  destruct (cur !! idx) as [r|] eqn:Hidx; [|done].
  apply Forall2_same_length_lookup. split.
  { rewrite length_insert. by eapply Forall2_length. }
  intros i r0 r' H0 H1. destruct (decide (i = idx)) as [->|Hne].
  - rewrite list_lookup_insert_eq in H1 by (by eapply lookup_lt_Some).
    injection H1 as <-.
    destruct (changes_only_lookup _ _ _ _ Hk H0 Hidx) as [Hd Hv].
    split; [done|]. intros c' Hnot. simpl.
    destruct (decide (c' = c)) as [->|Hc].
    + destruct Hnot. by apply Htouch.
    + rewrite lookup_insert_ne by done. by apply Hv.
  - rewrite list_lookup_insert_ne in H1 by done.
    by apply (changes_only_lookup _ _ _ _ Hk H0 H1).
Qed.

Lemma fill_gap_changes_only stock_name stock_data s i r :
  (∀ r0, orig !! i = Some r0 → touchable r0 stock_name) →
  changes_only touchable orig (shares s) →
  touchable_positions touchable orig (filled_positions s) →
  changes_only touchable orig (shares (fill_gap stock_name stock_data s (i, r)))
  ∧ touchable_positions touchable orig
      (filled_positions (fill_gap stock_name stock_data s (i, r))).
Proof.
  intros Htouch Hk Hp. unfold fill_gap.
  repeat case_match; simpl; try done;
    (split; [by apply changes_only_set_loc|]);
    apply Forall_app; (split; [done|]); by apply Forall_singleton.
Qed.

Lemma fold_fill_gap_changes_only stock_name stock_data recs s :
  (∀ i r r0, (i, r) ∈ recs → orig !! i = Some r0 → touchable r0 stock_name) →
  changes_only touchable orig (shares s) →
  touchable_positions touchable orig (filled_positions s) →
  changes_only touchable orig
    (shares (foldl (fill_gap stock_name stock_data) s recs))
  ∧ touchable_positions touchable orig
      (filled_positions (foldl (fill_gap stock_name stock_data) s recs)).
Proof.
  revert s. induction recs as [|[i r] recs IH]; intros s Hrec Hk Hp; [done|].
  cbn [foldl].
  destruct (fill_gap_changes_only stock_name stock_data s i r) as [Hk' Hp'];
    [intros r0; apply (Hrec i r); left | done | done |].
  apply IH; [|done|done].
  intros j r' r0 Hj. apply (Hrec j r'). by right.
Qed.

Lemma convert_filled_changes_only (USD_STOCKS : gset string) currency_df
    positions l l' :
  touchable_positions touchable orig positions →
  changes_only touchable orig l →
  convert_filled USD_STOCKS currency_df positions l = Ok l' →
  changes_only touchable orig l'.
Proof.
  revert l. induction positions as [|[[[idx stock_name] date_str] price] ps IH];
    intros l Hp Hk; simpl.
  { by intros [= <-]. }
  apply Forall_cons in Hp as [Htouch Hp]. simpl in Htouch.
  case_bool_decide; [|by apply IH].
  destruct (get_usd_to_eur_rate currency_df (Some date_str)) as [[rate|]|];
    simpl; [| by apply IH | done].
  apply IH; [done|]. by apply changes_only_set_loc.
Qed.

End ChangesOnly.

Lemma fill_stock_changes_only STOCKS (orig : list row) yf_download cols
    start_date last_date s item :
  item ∈ STOCKS →
  changes_only (in_window STOCKS cols start_date) orig (shares s) →
  touchable_positions (in_window STOCKS cols start_date) orig (filled_positions s) →
  changes_only (in_window STOCKS cols start_date) orig
    (shares (fill_stock yf_download cols start_date last_date s item))
  ∧ touchable_positions (in_window STOCKS cols start_date) orig
      (filled_positions (fill_stock yf_download cols start_date last_date s item)).
Proof.
  intros Hitem Hk Hp. destruct item as [stock_name ticker]. unfold fill_stock.
  case_bool_decide as Hcol; [|done].
  destruct (yf_download ticker start_date (last_date + 1)) as [stock_data|];
    [|done].
  case_bool_decide; [done|].
  apply fold_fill_gap_changes_only; [|done|done].
  intros i r r0 [Hi Hle]%elem_of_recent_records H0.
  destruct (changes_only_lookup _ _ _ _ _ _ Hk H0 Hi) as [Hdate _].
  split_and!; [|done|by rewrite <- Hdate].
  apply list_elem_of_fmap. by exists (stock_name, ticker).
Qed.

(** X21. Price gap filling writes in the window only: a cell of the
    result differs from the cell it was given only if its column is a
    configured stock that is a column of the table and its row is dated
    in the window, that is, not before the last date of the table minus
    the lookback days.  Rows before the window, rows without a date and
    the columns of other instruments come back as they were, null cells
    included. *)
Theorem gap_fill_writes_in_window STOCKS (USD_STOCKS : gset string) yf_download
    (shares_df currency_df : DataFrame) lookback_days filled_df st printed
    last_date :
  fill_missing_stock_data STOCKS USD_STOCKS yf_download shares_df currency_df
                          lookback_days
  = Ok (filled_df, st, printed) →
  Some last_date ∈ Date <$> rows shares_df →
  (∀ d, Some d ∈ Date <$> rows shares_df → d ≤ last_date) →
  changes_only (in_window STOCKS (columns shares_df) (last_date - lookback_days))
               (rows shares_df) (rows filled_df).
Proof.
  unfold fill_missing_stock_data. intros Hfill Hlast Hmax.
  destruct (rows shares_df) as [|r0 l0] eqn:El.
  { by apply elem_of_nil in Hlast. }
  rewrite <- El in *.
  destruct (idxmax_aux (Date <$> rows shares_df)) as [[i m]|] eqn:Hidx.
  2: { by apply (idxmax_aux_None _ last_date) in Hidx. }
  assert (m = last_date) as ->.
  { pose proof (idxmax_aux_elem _ _ _ Hidx) as Hm.
    pose proof (idxmax_aux_greatest _ _ _ Hidx _ Hlast).
    specialize (Hmax m Hm). lia. }
  simpl in Hfill.
  set (touchable := in_window STOCKS (columns shares_df)
                      (last_date - lookback_days)) in *.
  assert (∀ l s, (∀ item, item ∈ l → item ∈ STOCKS) →
                 changes_only touchable (rows shares_df) (shares s) →
                 touchable_positions touchable (rows shares_df)
                                     (filled_positions s) →
                 let s' := foldl (fill_stock yf_download (columns shares_df)
                                    (last_date - lookback_days) last_date) s l in
                 changes_only touchable (rows shares_df) (shares s')
                 ∧ touchable_positions touchable (rows shares_df)
                                       (filled_positions s')) as Hfold.
  { induction l as [|item l IH]; intros s Hl Hk Hp; [done|]. cbn [foldl].
    destruct (fill_stock_changes_only STOCKS (rows shares_df) yf_download
                (columns shares_df) (last_date - lookback_days) last_date s item)
      as [Hk' Hp']; [apply Hl; left | done | done |].
    apply IH; [|done|done]. intros item' Hitem. apply Hl. by right. }
  destruct (Hfold STOCKS (FillState (rows shares_df) (Stats 0 0) [] []))
    as [Hk Hp]; [done | apply changes_only_refl | constructor |].
  cbv zeta in *.
  destruct (convert_filled _ _ _ _) as [l'|] eqn:Hconv; simpl in Hfill; [|done].
  injection Hfill as <- <- <-. simpl.
  by eapply convert_filled_changes_only.
Qed.

Lemma gap_fill_writes_in_window_witness :
  changes_only (in_window stocks_example ["Allianz Share"] (ymd 2024 1 5 - 2))
               (rows gapped_shares)
               [alv_row (ymd 2024 1 1) nan; alv_row (ymd 2024 1 2) 240.5;
                alv_row (ymd 2024 1 3) 241.34; alv_row (ymd 2024 1 4) 241.34;
                alv_row (ymd 2024 1 5) 243.0].
Proof.
  apply (gap_fill_writes_in_window stocks_example ∅ alv_provider gapped_shares
           no_rates 2
           (Frame ["Allianz Share"]
              [alv_row (ymd 2024 1 1) nan; alv_row (ymd 2024 1 2) 240.5;
               alv_row (ymd 2024 1 3) 241.34; alv_row (ymd 2024 1 4) 241.34;
               alv_row (ymd 2024 1 5) 243.0])
           (Stats 2 0)
           [FilledExact "Allianz Share" (ymd 2024 1 3) 241.34;
            FilledFrom "Allianz Share" (ymd 2024 1 4) 241.34 (ymd 2024 1 3)]
           (ymd 2024 1 5)).
  - vm_compute. reflexivity.
  - by_evaluation.
  - intros d Hd. vm_compute in Hd.
    repeat (apply elem_of_cons in Hd as [[= ->]|Hd]; [by vm_compute|]).
    by apply elem_of_nil in Hd.
Defined.
